(** * Token caching, 401 retry, pagination and checkpoints

    A shallow embedding of the two connectors of the repository:

    - [ServiceNow]: Packs/ApiModules/Scripts/ServiceNowApiModule/ServiceNowApiModule.py
      (class ServiceNowClient: http_request, login, get_access_token,
      _get_access_token_idp);
    - [Webex]: Packs/CiscoWebex/Integrations/CiscoWebexEventCollector/CiscoWebexEventCollector.py
      (class Client and its two subclasses, get_events_with_pagination,
      fetch_events and the fetch-events branch of main); [WebexCommands]
      has the command functions of that file and main on every command.

    Python code that reads a clock, talks to a server and writes the
    integration context is embedded in a state-and-exception monad over an
    explicit state record.  Everything that lives outside the two files
    (the HTTP transport of BaseClient, the clock, str() of a dict, the
    dateutil parser, the SIEM sink) is a field of a [platform] record the
    definitions are parametrised by. *)

From Stdlib Require Import ZArith String Ascii List Lia.
From stdpp Require Import base option list gmap strings pretty.

(** ** Python values, exceptions and the monad *)

Module Py.

(** The JSON scalars that occur in token responses, stored contexts and
    events. *)
Inductive pyval : Type :=
| VNone
| VInt (z : Z)
| VStr (s : string).

#[global] Instance pyval_eq_dec : EqDecision pyval.
Proof. solve_decision. Defined.

(** Python truthiness, [bool(v)]. *)
Definition truthy (v : pyval) : bool :=
  match v with
  | VNone => false
  | VInt z => negb (z =? 0)%Z
  | VStr s => negb (String.eqb s "")
  end.

(** [str(v)], as an f-string renders a value. *)
Definition py_str (v : pyval) : string :=
  match v with
  | VNone => "None"
  | VInt z => pretty z
  | VStr s => s
  end.

(** [d.get(k)] and [d.get(k, dflt)]. *)
Definition dict_get (d : gmap string pyval) (k : string) : pyval :=
  default VNone (d !! k).
Definition dict_get_or (d : gmap string pyval) (k : string) (dflt : pyval) : pyval :=
  default dflt (d !! k).

(** [k in d]. *)
Definition dict_has (d : gmap string pyval) (k : string) : bool :=
  bool_decide (is_Some (d !! k)).

Inductive exn_class : Type :=
| Exception
| DemistoException
| KeyError
| TypeError
| ValueError
| IndexError
| OverflowError.

#[global] Instance exn_class_eq_dec : EqDecision exn_class.
Proof. solve_decision. Defined.

(** An exception object: its class and [e.args[0]]. *)
Record exn : Type := Exn { exn_cls : exn_class; exn_arg0 : string }.

#[global] Instance exn_eq_dec : EqDecision exn.
Proof. solve_decision. Defined.

(** How a call ends.  [Exit] is [sys.exit] after an error entry was posted
    (SystemExit is not an [Exception]: no [except Exception] catches it);
    [OutOfFuel] is the model running out of recursion budget, which no
    handler catches either. *)
Inductive outcome (A : Type) : Type :=
| Ok (a : A)
| Raise (e : exn)
| Exit (msg : string)
| OutOfFuel.
Arguments Ok {A} a.
Arguments Raise {A} e.
Arguments Exit {A} msg.
Arguments OutOfFuel {A}.

#[global] Instance outcome_eq_dec {A} `{EqDecision A} : EqDecision (outcome A).
Proof. solve_decision. Defined.

Definition is_ok {A} (o : outcome A) : bool :=
  match o with Ok _ => true | _ => false end.

(** The message a failed call surfaces, if it failed with one. *)
Definition failure_message {A} (o : outcome A) : option string :=
  match o with
  | Raise e => Some (exn_arg0 e)
  | Exit msg => Some msg
  | _ => None
  end.

Definition M (St A : Type) : Type := St -> outcome A * St.

Definition ret {St A} (a : A) : M St A := fun s => (Ok a, s).

Definition bind {St A B} (m : M St A) (k : A -> M St B) : M St B :=
  fun s =>
    match m s with
    | (Ok a, s') => k a s'
    | (Raise e, s') => (Raise e, s')
    | (Exit msg, s') => (Exit msg, s')
    | (OutOfFuel, s') => (OutOfFuel, s')
    end.

Definition raise {St A} (c : exn_class) (msg : string) : M St A :=
  fun s => (Raise (Exn c msg), s).

Definition out_of_fuel {St A} : M St A := fun s => (OutOfFuel, s).

(** [try: m  except Exception as e: h e]. *)
Definition try_except {St A} (m : M St A) (h : exn -> M St A) : M St A :=
  fun s =>
    match m s with
    | (Raise e, s') => h e s'
    | r => r
    end.

Definition gets {St A} (f : St -> A) : M St A := fun s => (Ok (f s), s).
Definition modify {St} (f : St -> St) : M St unit := fun s => (Ok tt, f s).

(** [needle in hay] on strings. *)
Fixpoint contains (needle hay : string) : bool :=
  String.prefix needle hay
  || match hay with
     | EmptyString => false
     | String _ rest => contains needle rest
     end.

(** [hay.endswith(suffix)], as a proposition. *)
Definition ends_with (hay suffix : string) : Prop :=
  exists front, hay = front +:+ suffix.

Definition nl : string := String (ascii_of_nat 10) EmptyString.

End Py.

Export Py.

Declare Scope py_scope.
Delimit Scope py_scope with py.
Notation "'let*' x ':=' m 'in' k" := (Py.bind m (fun x => k))
  (at level 10, x name, m at level 100, k at level 200) : py_scope.
Notation "'let*' ' x ':=' m 'in' k" := (Py.bind m (fun x => k))
  (at level 10, x strict pattern, m at level 100, k at level 200) : py_scope.
Notation "m '>>' k" := (Py.bind m (fun _ => k))
  (at level 65, right associativity) : py_scope.
Open Scope py_scope.

(** ** The ServiceNow client *)

Module ServiceNow.

Definition OAUTH_URL : string := "/oauth_token.do".

(** The keyword arguments of one [BaseClient._http_request] call.  A
    keyword the caller leaves out has its default ([None], [False]). *)
Record request : Type := Request {
  method : string;
  url_suffix : string;
  full_url : option string;
  resp_type : string;
  headers : option (gmap string string);
  json_data : option (gmap string pyval);
  params : option (gmap string pyval);
  data : option (gmap string pyval);
  files : option (gmap string pyval);
  ok_codes : option (list Z);
  return_empty_response : bool;
  auth : option (string * string);
  timeout : option Z
}.

#[global] Instance request_eq_dec : EqDecision request.
Proof. solve_decision. Defined.

(** A [requests.Response]: [res.json()] is [None] when the body does not
    parse (ValueError); [content] is the text [res.content] is printed as. *)
Record response : Type := Response {
  status_code : Z;
  json : option (gmap string pyval);
  content : string
}.

#[global] Instance response_eq_dec : EqDecision response.
Proof. solve_decision. Defined.

(** What the module relies on and does not define. *)
Record platform : Type := Platform {
  env : Type;
  (** [date_to_timestamp(datetime.now())]: the clock, in milliseconds. *)
  date_to_timestamp_now : env -> Z * env;
  (** [BaseClient._http_request] with [resp_type='response'], given the
      client's [_headers] at the time of the call. *)
  transport : gmap string string -> request -> env -> outcome response * env;
  (** [str(d)] of a dict and [str(res)] of a response. *)
  str_dict : gmap string pyval -> string;
  str_response : response -> string;
  (** The text of the interpreter's TypeError. *)
  type_error_text : string;
  (** Whether the running command is one the server handles: there
      [return_error] raises instead of leaving the process. *)
  server_handled : bool
}.

(** The arguments of [ServiceNowClient.http_request]. *)
Record call : Type := Call {
  c_method : string;
  c_url_suffix : string;
  c_full_url : option string;
  c_headers : option (gmap string string);
  c_json_data : option (gmap string pyval);
  c_params : option (gmap string pyval);
  c_data : option (gmap string pyval);
  c_files : option (gmap string pyval);
  c_return_empty_response : bool;
  c_auth : option (string * string);
  c_timeout : option Z
}.

(** The attributes [__init__] fixes. *)
Record client : Type := Client {
  use_oauth : bool;
  client_id : string;
  client_secret : string;
  authentication_url : option string;
  authentication_scope : option string;
  _verify : bool
}.

(** Which method issued a request.  The state keeps a log of the requests
    issued, each with its origin and the transport's reply; the code
    never reads it. *)
Inductive origin : Type :=
| by_http_request
| by_login
| by_get_access_token
| by_get_access_token_idp.

#[global] Instance origin_eq_dec : EqDecision origin.
Proof. solve_decision. Defined.

(** The requests of a log that [http_request] itself issued, in order. *)
Definition api_requests (log : list (origin * request * outcome response))
  : list request :=
  omap (fun entry =>
          if decide (entry.1.1 = by_http_request) then Some entry.1.2 else None)
       log.

(** The requests of a log issued to obtain a token, in order. *)
Definition token_requests (log : list (origin * request * outcome response))
  : list request :=
  omap (fun entry =>
          if decide (entry.1.1 = by_http_request) then None else Some entry.1.2)
       log.

Section Client.

Variable P : platform.

Record state : Type := State {
  integration_context : gmap string pyval;
  _headers : gmap string string;
  authentication_username : option string;
  authentication_password : option string;
  world : env P;
  sent : list (origin * request * outcome response)
}.

Definition get_integration_context : M state (gmap string pyval) :=
  gets integration_context.

Definition with_context (ctx : gmap string pyval) (s : state) : state :=
  State ctx (_headers s) (authentication_username s)
        (authentication_password s) (world s) (sent s).

(** The context is replaced as a whole. *)
Definition set_integration_context (ctx : gmap string pyval) : M state unit :=
  modify (with_context ctx).

Definition headers_update (k v : string) : M state unit :=
  modify (fun s =>
    State (integration_context s) (<[k := v]> (_headers s))
          (authentication_username s) (authentication_password s)
          (world s) (sent s)).

Definition set_credentials (u p : string) : M state unit :=
  modify (fun s =>
    State (integration_context s) (_headers s) (Some u) (Some p)
          (world s) (sent s)).

Definition now : M state Z :=
  fun s =>
    let '(t, w) := date_to_timestamp_now P (world s) in
    (Ok t, State (integration_context s) (_headers s)
                 (authentication_username s) (authentication_password s)
                 w (sent s)).

Definition _http_request (o : origin) (r : request) : M state response :=
  fun s =>
    let '(res, w) := transport P (_headers s) r (world s) in
    (res, State (integration_context s) (_headers s)
                (authentication_username s) (authentication_password s)
                w (sent s ++ [(o, r, res)])).

(** [return_error]: posts the message as an error entry and leaves the
    process; raises [Exception(message)] under a server-handled
    command. *)
Definition return_error {A} (msg : string) : M state A :=
  if server_handled P then raise Exception msg else fun s => (Exit msg, s).

(** [res.json()] under [except ValueError: raise DemistoException(...)]. *)
Definition parsed_json (res : response) : M state (gmap string pyval) :=
  match json res with
  | Some j => ret j
  | None =>
      raise DemistoException
            ("Failed to parse json object from response: " +:+ content res)
  end.

(** Integer arithmetic and comparison on a Python value. *)
Definition as_int (v : pyval) : M state Z :=
  match v with
  | VInt z => ret z
  | _ => raise TypeError (type_error_text P)
  end.

(** ['Bearer ' + access_token]. *)
Definition bearer (access_token : pyval) : M state string :=
  match access_token with
  | VStr t => ret ("Bearer " +:+ t)
  | _ => raise TypeError (type_error_text P)
  end.

Definition is_set (o : option string) : bool :=
  match o with
  | Some s => negb (String.eqb s "")
  | None => false
  end.

Definition form_headers : gmap string string :=
  {[ "Content-Type" := "application/x-www-form-urlencoded" ]}.

Definition msg_not_logged_in : string :=
  "Could not create an access token. User might be not logged in. "
  +:+ "Try running the 'servicenow-oauth-login' command first.".

Definition msg_token_error (res : gmap string pyval) : string :=
  "Error occurred while creating an access token. Please check the Client ID, "
  +:+ "Client Secret and try to run again the login command to generate a new refresh token "
  +:+ "as it may have expired." +:+ nl +:+ str_dict P res.

Definition msg_token_failed (e : exn) : string :=
  "Error occurred while creating an access token. Please check the instance configuration."
  +:+ nl +:+ nl +:+ exn_arg0 e.

(** The tail shared by [get_access_token] and [_get_access_token_idp]:
    the exchange, the [error] check, and the write of the new token.
    [keep_refresh] tells whether the record gets a [refresh_token]
    entry. *)
Definition exchange (o : origin) (r : request) (keep_refresh : bool)
  : M state pyval :=
  try_except
    (let* res := _http_request o r in
     let* res := parsed_json res in
     (if dict_has res "error" then return_error (msg_token_error res)
      else ret tt) >>
     if dict_has res "access_token" then
       let* expiry_time := now in
       let* expires_in := as_int (dict_get_or res "expires_in" (VInt 0)) in
       let expiry_time := (expiry_time + (expires_in * 1000 - 10))%Z in
       let new_token : gmap string pyval :=
         if keep_refresh then
           {[ "access_token" := dict_get res "access_token";
              "refresh_token" := dict_get res "refresh_token";
              "expiry_time" := VInt expiry_time ]}
         else
           {[ "access_token" := dict_get res "access_token";
              "expiry_time" := VInt expiry_time ]} in
       set_integration_context new_token >>
       ret (dict_get res "access_token")
     else ret VNone)
    (fun e => return_error (msg_token_failed e)).

(** The request of the password grant at the identity provider. *)
Definition idp_request (c : client) (username password : string) : request :=
  let data : gmap string pyval :=
    {[ "client_id" := VStr (client_id c);
       "client_secret" := VStr (client_secret c);
       "username" := VStr username;
       "password" := VStr password;
       "grant_type" := VStr "password" ]} in
  let data :=
    if is_set (authentication_scope c)
    then <["scope" := VStr (default "" (authentication_scope c))]> data
    else data in
  Request "POST" "" (authentication_url c) "response" (Some form_headers)
          None None (Some data) None (Some [200; 201; 401]%Z) false None None.

Definition _get_access_token_idp (c : client) : M state pyval :=
  let* u := gets authentication_username in
  let* p := gets authentication_password in
  if negb (is_set u && is_set p) then raise Exception msg_not_logged_in
  else
    exchange by_get_access_token_idp
             (idp_request c (default "" u) (default "" p)) false.

(** ['access_token' in previous_token and previous_token['expiry_time']
    > date_to_timestamp(datetime.now())]. *)
Definition token_is_valid (previous_token : gmap string pyval) : M state bool :=
  match previous_token !! "access_token" with
  | None => ret false
  | Some _ =>
      match previous_token !! "expiry_time" with
      | None => raise KeyError "expiry_time"
      | Some v =>
          let* t := now in
          let* expiry := as_int v in
          ret (t <? expiry)%Z
      end
  end.

(** The request of the refresh grant. *)
Definition refresh_request (c : client) (refresh_token : pyval) : request :=
  let data : gmap string pyval :=
    {[ "client_id" := VStr (client_id c);
       "client_secret" := VStr (client_secret c);
       "refresh_token" := refresh_token;
       "grant_type" := VStr "refresh_token" ]} in
  Request "POST" OAUTH_URL None "response" (Some form_headers) None None
          (Some data) None (Some [200; 201; 401]%Z) false None None.

Definition get_access_token (c : client) : M state pyval :=
  let* previous_token := get_integration_context in
  let* valid := token_is_valid previous_token in
  if valid then ret (dict_get previous_token "access_token")
  else if is_set (authentication_url c) then _get_access_token_idp c
  else
    match previous_token !! "refresh_token" with
    | None => raise Exception msg_not_logged_in
    | Some refresh_token =>
        exchange by_get_access_token (refresh_request c refresh_token) true
    end.

Definition login (c : client) (username password : string) : M state unit :=
  if is_set (authentication_url c) then
    set_credentials username password >>
    get_access_token c >> ret tt
  else
    let data : gmap string pyval :=
      {[ "client_id" := VStr (client_id c);
         "client_secret" := VStr (client_secret c);
         "username" := VStr username;
         "password" := VStr password;
         "grant_type" := VStr "password" ]} in
    try_except
      (let* res :=
         _http_request by_login
           (Request "POST" OAUTH_URL None "response" (Some form_headers)
                    None None (Some data) None None false None None) in
       let* res := parsed_json res in
       (if dict_has res "error" then
          return_error
            ("Error occurred while creating an access token. Please check the Client ID, Client Secret "
             +:+ "and that the given username and password are correct."
             +:+ nl +:+ str_dict P res)
        else ret tt) >>
       if truthy (dict_get res "refresh_token") then
         set_integration_context
           {[ "refresh_token" := dict_get res "refresh_token" ]}
       else ret tt)
      (fun e =>
         return_error
           ("Login failed. Please check the instance configuration and the given username and password."
            +:+ nl +:+ exn_arg0 e)).

(** [access_token = self.get_access_token()] followed by the update of
    the Authorization header; the two statements stand together at both
    places of [http_request]. *)
Definition authorize (c : client) : M state unit :=
  let* access_token := get_access_token c in
  let* h := bearer access_token in
  headers_update "Authorization" h.

(** The request [http_request] hands to [_http_request]. *)
Definition api_request (a : call) : request :=
  Request (c_method a) (c_url_suffix a) (c_full_url a) "response"
          (c_headers a) (c_json_data a) (c_params a) (c_data a)
          (c_files a) (Some [200; 201; 401]%Z)
          (c_return_empty_response a) (c_auth a) (c_timeout a).

(** [self.http_request(method, url_suffix, full_url=full_url,
    params=params)]: the arguments of the retry. *)
Definition retry_call (a : call) : call :=
  Call (c_method a) (c_url_suffix a) (c_full_url a) None None
       (c_params a) None None false None None.

Definition msg_unauthorized (res : response) : string :=
  "Unauthorized request: " +:+ nl +:+
  match json res with
  | Some j => str_dict P j
  | None => str_response P res
  end.

Definition msg_ssl : string :=
  "SSL Certificate Verification Failed - try selecting 'Trust any certificate' "
  +:+ "checkbox in the integration configuration.".

(** The [except Exception as e] block of [http_request]. *)
Definition on_exception {A} (c : client) (e : exn) : M state A :=
  (if _verify c
      && contains "SSL Certificate Verification Failed" (exn_arg0 e)
   then return_error msg_ssl else ret tt) >>
  raise DemistoException (exn_arg0 e).

(** The recursion of [http_request] on itself is bounded by [fuel]. *)
Fixpoint http_request (fuel : nat) (c : client) (a : call)
  : M state (option (gmap string pyval)) :=
  match fuel with
  | O => out_of_fuel
  | S fuel =>
      try_except
        ((if use_oauth c then authorize c else ret tt) >>
         let* res := _http_request by_http_request (api_request a) in
         if bool_decide (status_code res ∈ [200; 201]%Z) then
           let* j := parsed_json res in ret (Some j)
         else if bool_decide (status_code res = 401%Z) then
           if use_oauth c then
             let* ctx := get_integration_context in
             let* t := now in
             let* expiry := as_int (dict_get_or ctx "expiry_time" (VInt 0)) in
             if (expiry <=? t)%Z then
               authorize c >>
               http_request fuel c (retry_call a)
             else raise DemistoException (msg_unauthorized res)
           else
             raise Exception
               ("Authorization failed. Please verify that the username and password are correct."
                +:+ nl +:+ str_response P res)
         else ret None)
        (on_exception c)
  end.

End Client.

Arguments integration_context {P} s.
Arguments _headers {P} s.
Arguments authentication_username {P} s.
Arguments authentication_password {P} s.
Arguments world {P} s.
Arguments sent {P} s.

End ServiceNow.

(** ** The Webex event collector *)

Module Webex.

Definition VENDOR : string := "cisco".
Definition PRODUCT : string := "webex".
Definition URL : string := "https://webexapis.com/v1/".
Definition DEFAULT_MAX_FETCH : Z := 200.

Definition COMMAND_FUNCTION_TO_EVENT_TYPE : gmap string string :=
  {[ "get_admin_audits" := "Admin Audit Events";
     "get_security_audits" := "Security Audit Events";
     "get_compliance_officer_events" := "Events" ]}.

(** The keyword arguments of one [BaseClient._http_request] call. *)
Record request : Type := Request {
  method : string;
  url_suffix : string;
  full_url : option pyval;
  headers : option (gmap string string);
  params : option (gmap string pyval);
  resp_type : string
}.

(** A [requests.Response] of an event listing: [json] is the field
    [items] of the parsed body ([None] outside: the body does not parse;
    [None] inside: the body has no [items]), [links] is [response.links]. *)
Record response : Type := Response {
  json : option (option (list (gmap string pyval)));
  links : gmap string (gmap string pyval)
}.

#[global] Instance response_eq_dec : EqDecision response.
Proof. solve_decision. Defined.

(** What the integration does (kept in the log only). *)
Inductive effect : Type :=
| Requested (r : request)
| Delivered (events : list (gmap string pyval)) (vendor product : string)
| SetLastRun (last_run : gmap string (gmap string pyval)).

(** What the integration relies on and does not define.  Datetimes are
    naive, in microseconds since the epoch. *)
Record platform : Type := Platform {
  env : Type;
  (** [datetime.utcnow()]. *)
  utcnow : env -> Z * env;
  (** [date_time.isoformat(timespec="milliseconds")]. *)
  isoformat : Z -> string;
  (** [dateutil.parser.parse(s, ignoretz=True)], [None] when it raises. *)
  parse : string -> option Z;
  (** [BaseClient._http_request] with the default [resp_type] (the parsed
      body) and with [resp_type='response'], given the client's
      [_headers]. *)
  transport_json :
    option (gmap string string) -> request -> env ->
    outcome (gmap string pyval) * env;
  transport_response :
    option (gmap string string) -> request -> env -> outcome response * env;
  (** [send_events_to_xsiam(events, vendor, product)]. *)
  xsiam : list (gmap string pyval) -> string -> string -> env -> outcome unit * env;
  (** The texts of the interpreter's TypeError and IndexError and of the
      parser's and the JSON decoder's ValueError. *)
  type_error_text : string;
  index_error_text : string;
  parser_error_text : string;
  json_error_text : string;
  (** The texts of the OverflowError of a [timedelta] of too many days,
      given the days, and of a date outside the calendar. *)
  timedelta_error_text : Z -> string;
  date_error_text : string;
  (** Whether the running command is one the server handles. *)
  server_handled : bool
}.

(** The attributes of a [Client] object. *)
Record client : Type := Client {
  user : string;
  client_id : string;
  client_secret : string;
  redirect_uri : pyval;
  scope : option string;
  org_id : pyval;
  _headers : option (gmap string string)
}.

(** [demisto.get(obj, 'k1.k2', dflt)] on a dict of dicts. *)
Definition demisto_get (obj : gmap string (gmap string pyval))
           (k1 k2 : string) (dflt : pyval) : pyval :=
  match obj !! k1 with
  | Some inner => default dflt (inner !! k2)
  | None => dflt
  end.

(** [assign_params] on keyword arguments: the keywords whose value is
    not one of [None], [''] (the other ignored values are not scalars). *)
Definition assign_params (kwargs : list (string * pyval)) : gmap string pyval :=
  list_to_map
    (filter (fun kv => kv.2 <> VNone /\ kv.2 <> VStr "") kwargs).

(** The bounds of Python's datetime, [datetime.min] (the first instant
    of year 1) and [datetime.max] (the last microsecond of year 9999), in
    microseconds since the epoch, and of the days of a timedelta. *)
Definition datetime_min : Z := -62135596800000000.
Definition datetime_max : Z := 253402300799999999.
Definition MAX_DELTA_DAYS : Z := 999999999.

Definition add_fields_to_events (events : list (gmap string pyval))
           (evnet_type : option string) : list (gmap string pyval) :=
  (fun event =>
     <["source_log_type" := from_option VStr VNone evnet_type]>
       (<["_time" := dict_get event "created"]> event)) <$> events.

Section Collector.

Variable P : platform.

Record state : Type := State {
  integration_context : gmap string (gmap string pyval);
  last_run_store : gmap string (gmap string pyval);
  world : env P;
  trace : list effect
}.

Definition with_world (s : state) (w : env P) (new : list effect) : state :=
  State (integration_context s) (last_run_store s) w (trace s ++ new).

Definition get_integration_context
  : M state (gmap string (gmap string pyval)) :=
  gets integration_context.

Definition with_context (ctx : gmap string (gmap string pyval)) (s : state)
  : state :=
  State ctx (last_run_store s) (world s) (trace s).

(** The context is replaced as a whole. *)
Definition set_integration_context
           (ctx : gmap string (gmap string pyval)) : M state unit :=
  modify (with_context ctx).

Definition getLastRun : M state (gmap string (gmap string pyval)) :=
  gets last_run_store.

Definition setLastRun (lr : gmap string (gmap string pyval)) : M state unit :=
  modify (fun s =>
    State (integration_context s) lr (world s) (trace s ++ [SetLastRun lr])).

Definition datetime_utcnow : M state Z :=
  fun s => let '(t, w) := utcnow P (world s) in (Ok t, with_world s w []).

Definition _http_request_json (c : client) (r : request)
  : M state (gmap string pyval) :=
  fun s =>
    let '(o, w) := transport_json P (_headers c) r (world s) in
    (o, with_world s w [Requested r]).

Definition _http_request (c : client) (r : request) : M state response :=
  fun s =>
    let '(o, w) := transport_response P (_headers c) r (world s) in
    (o, with_world s w [Requested r]).

(** Delivery is logged when the sink accepted the events. *)
Definition send_events_to_xsiam (events : list (gmap string pyval))
           (vendor product : string) : M state unit :=
  fun s =>
    let '(o, w) := xsiam P events vendor product (world s) in
    (o, with_world s w
          (if is_ok o then [Delivered events vendor product] else [])).

Definition return_error {A} (msg : string) : M state A :=
  if server_handled P then raise Exception msg else fun s => (Exit msg, s).

(** [parser.parse(v, ignoretz=True)]. *)
Definition parser_parse (v : pyval) : M state Z :=
  match v with
  | VStr s =>
      match parse P s with
      | Some t => ret t
      | None => raise ValueError (parser_error_text P)
      end
  | _ => raise TypeError (type_error_text P)
  end.

(** [timedelta(seconds=v)], in microseconds.  A timedelta holds at most
    999999999 days either way; the days of [n] seconds are [n // 86400]. *)
Definition timedelta_seconds (v : pyval) : M state Z :=
  match v with
  | VInt n =>
      if (Z.abs (n / 86400) <=? MAX_DELTA_DAYS)%Z then ret (n * 1000000)%Z
      else raise OverflowError (timedelta_error_text P (n / 86400))
  | _ => raise TypeError (type_error_text P)
  end.

(** [date_time + delta]: the sum is a datetime, or OverflowError. *)
Definition datetime_add (date_time delta : Z) : M state Z :=
  if (datetime_min <=? date_time + delta)%Z && (date_time + delta <=? datetime_max)%Z
  then ret (date_time + delta)%Z
  else raise OverflowError (date_error_text P).

Definition date_time_to_iso_format (date_time : Z) : string :=
  isoformat P date_time +:+ "Z".

Definition one_week : Z := 7 * 24 * 3600 * 1000000.

Definition create_last_run : M state (gmap string (gmap string pyval)) :=
  let* t := datetime_utcnow in
  let start_fetch := (t - one_week)%Z in
  let fresh : gmap string pyval :=
    {[ "since_datetime" := VStr (date_time_to_iso_format start_fetch);
       "next_url" := VStr "" ]} in
  ret ({[ "admin_audits" := fresh;
          "security_audits" := fresh;
          "compliance_officer_events" := fresh ]}
       : gmap string (gmap string pyval)).

(** The millisecond is added in Z: the sum leaves Python's calendar only
    for an event created in the last millisecond of the year 9999. *)
Definition increase_datetime_for_next_fetch
           (events : list (gmap string pyval)) : M state string :=
  match last events with
  | None => raise IndexError (index_error_text P)
  | Some event =>
      let* t := parser_parse (dict_get event "created") in
      ret (date_time_to_iso_format (t + 1000)%Z)
  end.

(** *** class Client *)

Definition create_access_token (c : client) (grant_type : string)
           (code refresh_token : pyval) : M state (gmap string pyval) :=
  let headers : gmap string string :=
    {[ "Content-Type" := "application/x-www-form-urlencoded" ]} in
  let params :=
    assign_params
      [ ("grant_type", VStr grant_type);
        ("code", code);
        ("refresh_token", refresh_token);
        ("client_id", VStr (client_id c));
        ("client_secret", VStr (client_secret c));
        ("redirect_uri", redirect_uri c) ] in
  _http_request_json c
    (Request "POST" "access_token" None (Some headers) (Some params) "json").

(** The keyword arguments of [assign_params] are evaluated in the order
    they are written: the expiry of the access token, a timedelta and then
    a sum, before that of the refresh token. *)
Definition save_tokens_to_integration_context (c : client)
           (result : gmap string pyval) : M state unit :=
  let* now := datetime_utcnow in
  let* access_delta := timedelta_seconds (dict_get_or result "expires_in" (VInt 0)) in
  let* access_expiry := datetime_add now access_delta in
  let* refresh_delta :=
    timedelta_seconds (dict_get_or result "refresh_token_expires_in" (VInt 0)) in
  let* refresh_expiry := datetime_add now refresh_delta in
  let context :=
    assign_params
      [ ("access_token", dict_get result "access_token");
        ("access_token_expires_in",
         VStr (date_time_to_iso_format access_expiry));
        ("refresh_token", dict_get result "refresh_token");
        ("refresh_token_expires_in",
         VStr (date_time_to_iso_format refresh_expiry)) ] in
  let* integration_context := get_integration_context in
  set_integration_context (<[user c := context]> integration_context).

Definition msg_refresh_expired (c : client) : string :=
  "The `refresh token` expired, please re-run the `!cisco-webex-oauth-start` command "
  +:+ "with the `user` argument set to " +:+ user c +:+ ".".

Definition get_access_token (c : client) : M state pyval :=
  let* integration_context := get_integration_context in
  match integration_context !! user c with
  | Some user_integration_context =>
      if bool_decide (user_integration_context = ∅) then ret VNone
      else
        let* t := datetime_utcnow in
        let* refresh_expiry :=
          parser_parse (dict_get user_integration_context "refresh_token_expires_in") in
        if (refresh_expiry <? t)%Z then
          raise DemistoException (msg_refresh_expired c)
        else
          let* t := datetime_utcnow in
          let* access_expiry :=
            parser_parse (dict_get user_integration_context "access_token_expires_in") in
          if (access_expiry <? t)%Z then
            let* result :=
              create_access_token c "refresh_token" VNone
                (dict_get user_integration_context "refresh_token") in
            save_tokens_to_integration_context c result >>
            ret (dict_get result "access_token")
          else ret (dict_get user_integration_context "access_token")
  | None => ret VNone
  end.

Definition oauth_complete (c : client) (code : pyval) : M state unit :=
  let* result := create_access_token c "authorization_code" code VNone in
  save_tokens_to_integration_context c result.

(** [self._headers = {'Authorization': f'Bearer {self.get_access_token()}'}],
    the last statement of both constructors. *)
Definition init_headers (c : client) : M state client :=
  let* token := get_access_token c in
  ret (Client (user c) (client_id c) (client_secret c) (redirect_uri c)
              (scope c) (org_id c)
              (Some {[ "Authorization" := "Bearer " +:+ py_str token ]})).

(** [AdminClient.__init__] and [ComplianceOfficerClient.__init__]. *)
Definition AdminClient (client_id client_secret : string) (redirect_uri : pyval)
           (scope : option string) (org_id : pyval) : M state client :=
  init_headers
    (Client "admin" client_id client_secret redirect_uri scope org_id None).

Definition ComplianceOfficerClient (client_id client_secret : string)
           (redirect_uri : pyval) (scope : option string) : M state client :=
  init_headers
    (Client "compliance_officer" client_id client_secret redirect_uri scope
            VNone None).

(** The three listing methods differ in the parameter names, the cap
    on [max] and the endpoint. *)
Definition get_listing (c : client) (suffix from_key to_key : string)
           (with_org : bool) (cap : Z)
           (from_date : pyval) (limit : Z) (next_url : pyval)
  : M state response :=
  if truthy next_url then
    _http_request c (Request "GET" "" (Some next_url) None None "response")
  else
    let* t := datetime_utcnow in
    let params : gmap string pyval :=
      {[ from_key := from_date;
         to_key := VStr (date_time_to_iso_format t);
         "max" := VInt (Z.min limit cap) ]} in
    let params :=
      if with_org then <["orgId" := org_id c]> params else params in
    _http_request c (Request "GET" suffix None None (Some params) "response").

Definition get_admin_audits (c : client) :=
  get_listing c "adminAudit/events" "from" "to" true DEFAULT_MAX_FETCH.

Definition get_security_audits (c : client) :=
  get_listing c "admin/securityAudit/events" "startTime" "endTime" true 1000%Z.

Definition get_compliance_officer_events (c : client) :=
  get_listing c "events" "from" "to" false 1000%Z.

(** *** Pagination and the fetch cycle *)

(** A bound listing method: its [__name__] and what calling it does. *)
Record client_function : Type := ClientFunction {
  __name__ : string;
  apply : pyval -> Z -> pyval -> M state response
}.

(** [response.json().get('items', [])]. *)
Definition response_items (r : response) : M state (list (gmap string pyval)) :=
  match json r with
  | None => raise ValueError (json_error_text P)
  | Some items => ret (default [] items)
  end.

(** [demisto.get(response.links, 'next.url', '')]. *)
Definition next_link (r : response) : pyval :=
  demisto_get (links r) "next" "url" (VStr "").

(** The [while] loop of [get_events_with_pagination], entered with the
    events gathered so far and the last response. *)
Fixpoint paginate (fuel : nat) (client_function : client_function)
         (from_date : pyval) (limit : Z)
         (events : list (gmap string pyval)) (response : response)
  : M state (list (gmap string pyval) * pyval) :=
  let next_url := next_link response in
  if truthy next_url && (Z.of_nat (length events) <? limit)%Z then
    match fuel with
    | O => out_of_fuel
    | S fuel =>
        let* response := apply client_function from_date limit next_url in
        let* items := response_items response in
        paginate fuel client_function from_date limit (events ++ items) response
    end
  else ret (events, next_url).

Definition get_events_with_pagination (fuel : nat)
           (client_function : client_function)
           (from_date : pyval) (limit : Z) (next_url : pyval)
  : M state (list (gmap string pyval) * pyval) :=
  let* response := apply client_function from_date limit next_url in
  let* items := response_items response in
  let* '(events, next_url) :=
    paginate fuel client_function from_date limit items response in
  ret (add_fields_to_events events
         (COMMAND_FUNCTION_TO_EVENT_TYPE !! __name__ client_function),
       next_url).

(** The body of the [for] loop of [fetch_events], for one event type. *)
Definition fetch_event_type (fuel : nat) (max_fetch : Z)
           (event_type : string) (client_function : client_function)
           (acc : list (gmap string pyval) * gmap string (gmap string pyval))
  : M state (list (gmap string pyval) * gmap string (gmap string pyval)) :=
  let '(all_events, last_run) := acc in
  let since_datetime := demisto_get last_run event_type "since_datetime" VNone in
  let next_url := demisto_get last_run event_type "next_url" (VStr "") in
  let* '(events, next_url) :=
    get_events_with_pagination fuel client_function since_datetime max_fetch
                               next_url in
  match last_run !! event_type with
  | None => raise KeyError event_type
  | Some checkpoint =>
      let checkpoint := <["next_url" := next_url]> checkpoint in
      match events with
      | [] => ret (all_events, <[event_type := checkpoint]> last_run)
      | _ :: _ =>
          let* since := increase_datetime_for_next_fetch events in
          ret (all_events ++ events,
               <[event_type := <["since_datetime" := VStr since]> checkpoint]>
                 last_run)
      end
  end.

(** The dict [event_type_to_client_function], in the order the [for]
    loop visits it. *)
Definition event_type_to_client_function (admin_client co_client : client)
  : list (string * client_function) :=
  [ ("admin_audits",
     ClientFunction "get_admin_audits" (get_admin_audits admin_client));
    ("security_audits",
     ClientFunction "get_security_audits" (get_security_audits admin_client));
    ("compliance_officer_events",
     ClientFunction "get_compliance_officer_events"
                    (get_compliance_officer_events co_client)) ].

(** The [for] loop of [fetch_events]. *)
Fixpoint fetch_event_types (fuel : nat) (max_fetch : Z)
         (todo : list (string * client_function))
         (acc : list (gmap string pyval) * gmap string (gmap string pyval))
  : M state (list (gmap string pyval) * gmap string (gmap string pyval)) :=
  match todo with
  | [] => ret acc
  | (event_type, client_function) :: todo =>
      let* acc := fetch_event_type fuel max_fetch event_type client_function acc in
      fetch_event_types fuel max_fetch todo acc
  end.

Definition fetch_events (fuel : nat) (admin_client co_client : client)
           (last_run : gmap string (gmap string pyval)) (max_fetch : Z)
  : M state (list (gmap string pyval) * gmap string (gmap string pyval)) :=
  let* last_run :=
    if bool_decide (last_run = ∅) then create_last_run else ret last_run in
  fetch_event_types fuel max_fetch
    (event_type_to_client_function admin_client co_client) ([], last_run).

(** *** main, on the command fetch-events *)

(** [demisto.params()], the entries [main] reads. *)
Record demisto_params : Type := Params {
  admin_identifier : string;
  admin_password : string;
  admin_app_redirect_uri : pyval;
  admin_org_id : pyval;
  compliance_officer_identifier : string;
  compliance_officer_password : string;
  compliance_officer_redirect_uri : pyval
}.

(** [arg_to_number(args.get('max_fetch', DEFAULT_MAX_FETCH)) or
    DEFAULT_MAX_FETCH], then the range check. *)
Definition max_fetch_of (arg : option Z) : Z :=
  let max_fetch :=
    match arg with
    | Some n => if (n =? 0)%Z then DEFAULT_MAX_FETCH else n
    | None => DEFAULT_MAX_FETCH
    end in
  if (0 <? max_fetch)%Z && (max_fetch <=? 2000)%Z then max_fetch
  else DEFAULT_MAX_FETCH.

(** [str(e)]. *)
Definition str_exn (e : exn) : string :=
  match exn_cls e with
  | KeyError => "'" +:+ exn_arg0 e +:+ "'"
  | _ => exn_arg0 e
  end.

(** The run of [main] when [demisto.command()] is ['fetch-events']: the
    two clients are built, then the branch of that command is taken. *)
Definition main (fuel : nat) (params : demisto_params) (max_fetch_arg : option Z)
  : M state unit :=
  let max_fetch := max_fetch_of max_fetch_arg in
  try_except
    (let* admin_client :=
       AdminClient (admin_identifier params) (admin_password params)
                   (admin_app_redirect_uri params)
                   (Some "audit:events_read spark:kms") (admin_org_id params) in
     let* compliance_officer_client :=
       ComplianceOfficerClient
         (compliance_officer_identifier params)
         (compliance_officer_password params)
         (compliance_officer_redirect_uri params)
         (Some "spark-compliance:events_read spark:kms") in
     let* last_run := getLastRun in
     let* '(events, next_run) :=
       fetch_events fuel admin_client compliance_officer_client last_run
                    max_fetch in
     send_events_to_xsiam events VENDOR PRODUCT >>
     setLastRun next_run)
    (fun e =>
       return_error
         ("Failed to execute fetch-events command." +:+ nl +:+ "Error:" +:+ nl
          +:+ str_exn e)).

End Collector.

Arguments integration_context {P} s.
Arguments last_run_store {P} s.
Arguments world {P} s.
Arguments trace {P} s.
Arguments __name__ {P} c.
Arguments apply {P} c.

End Webex.

(** ** A calendar for running the collector

    The collector writes datetimes in ISO 8601 and reads them back with
    dateutil.  To run it on concrete inputs the two library functions are
    given here for the proleptic Gregorian calendar. *)

Module Iso8601.

Local Open Scope Z_scope.

(** Days since 1970-01-01 to (year, month, day), and back. *)
Definition civil_from_days (z : Z) : Z * Z * Z :=
  let z := z + 719468 in
  let era := z / 146097 in
  let doe := z - era * 146097 in
  let yoe := (doe - doe / 1460 + doe / 36524 - doe / 146096) / 365 in
  let doy := doe - (365 * yoe + yoe / 4 - yoe / 100) in
  let mp := (5 * doy + 2) / 153 in
  let d := doy - (153 * mp + 2) / 5 + 1 in
  let m := if mp <? 10 then mp + 3 else mp - 9 in
  let y := yoe + era * 400 in
  (if m <=? 2 then y + 1 else y, m, d).

Definition days_from_civil (y m d : Z) : Z :=
  let y := if m <=? 2 then y - 1 else y in
  let era := y / 400 in
  let yoe := y - era * 400 in
  let doy := (153 * (if 2 <? m then m - 3 else m + 9) + 2) / 5 + d - 1 in
  let doe := yoe * 365 + yoe / 4 - yoe / 100 + doy in
  era * 146097 + doe - 719468.

(** [n] in decimal, left-padded with zeros to [width] digits. *)
Fixpoint digits (width : nat) (n : Z) : string :=
  match width with
  | O => EmptyString
  | S w =>
      digits w (n / 10)
      +:+ String (ascii_of_nat (48 + Z.to_nat (n mod 10))) EmptyString
  end.

(** [isoformat(timespec="milliseconds")] of a naive datetime given in
    microseconds since the epoch. *)
Definition isoformat_ms (t : Z) : string :=
  let ms_total := t / 1000 in
  let sec_total := ms_total / 1000 in
  let days := sec_total / 86400 in
  let sod := sec_total mod 86400 in
  let '(y, m, d) := civil_from_days days in
  digits 4 y +:+ "-" +:+ digits 2 m +:+ "-" +:+ digits 2 d +:+ "T"
  +:+ digits 2 (sod / 3600) +:+ ":" +:+ digits 2 (sod mod 3600 / 60) +:+ ":"
  +:+ digits 2 (sod mod 60) +:+ "." +:+ digits 3 (ms_total mod 1000).

Definition digit_value (a : ascii) : option Z :=
  let n := Z.of_nat (nat_of_ascii a) in
  if (48 <=? n) && (n <=? 57) then Some (n - 48) else None.

Fixpoint number_from (acc : Z) (s : string) : option Z :=
  match s with
  | EmptyString => Some acc
  | String a rest =>
      match digit_value a with
      | Some v => number_from (acc * 10 + v) rest
      | None => None
      end
  end.

Definition field (s : string) (start len : nat) : option Z :=
  let f := String.substring start len s in
  if Nat.eqb (String.length f) len then number_from 0 f else None.

Fixpoint fraction_from (n : nat) (scale acc : Z) (s : string) : Z :=
  match n, s with
  | S n, String a rest =>
      match digit_value a with
      | Some v => fraction_from n (scale / 10) (acc + v * scale) rest
      | None => acc
      end
  | _, _ => acc
  end.

(** The microseconds after the seconds, when a fraction follows them. *)
Definition fraction (s : string) : Z :=
  match String.get 19 s with
  | Some "."%char => fraction_from 6 100000 0 (String.substring 20 6 s)
  | _ => 0
  end.

(** Reads [YYYY-MM-DDTHH:MM:SS] with an optional fraction; a zone suffix
    is ignored ([ignoretz=True]). *)
Definition parse (s : string) : option Z :=
  y ← field s 0 4; m ← field s 5 2; d ← field s 8 2;
  hh ← field s 11 2; mm ← field s 14 2; ss ← field s 17 2;
  Some ((((days_from_civil y m d * 24 + hh) * 60 + mm) * 60 + ss) * 1000000
        + fraction s).

End Iso8601.

(** ** Scripted platforms

    A server that answers from a script and a clock that advances by a
    fixed step at every reading: enough to run both connectors. *)

Module Scripted.

(** A rendering of a dict, standing in for [str(d)]. *)
Definition show_dict (d : gmap string pyval) : string :=
  "{" +:+ foldr (fun kv acc => "'" +:+ kv.1 +:+ "': " +:+ py_str kv.2 +:+ "; " +:+ acc)
                "}" (map_to_list d).

Module SN.

Record sim : Type := Sim {
  clock : Z;
  step : Z;
  replies : list (outcome ServiceNow.response)
}.

Definition platform (server_handled : bool) : ServiceNow.platform :=
  ServiceNow.Platform sim
    (fun e => (clock e, Sim (clock e + step e) (step e) (replies e)))
    (fun _ _ e =>
       match replies e with
       | [] => (Raise (Exn DemistoException "Connection error"), e)
       | r :: rest => (r, Sim (clock e) (step e) rest)
       end)
    show_dict
    (fun r => "<Response [" +:+ pretty (ServiceNow.status_code r) +:+ "]>")
    "unsupported operand type(s)"
    server_handled.

Definition start (ctx : gmap string pyval) (e : sim)
  : ServiceNow.state (platform false) :=
  ServiceNow.State (platform false) ctx ∅ None None e [].

End SN.

Module WX.

Record sim : Type := Sim {
  clock : Z;
  step : Z;
  tokens : list (outcome (gmap string pyval));
  pages : list (outcome Webex.response);
  sink_up : bool
}.

Definition platform : Webex.platform :=
  Webex.Platform sim
    (fun e => (clock e,
               Sim (clock e + step e) (step e) (tokens e) (pages e) (sink_up e)))
    Iso8601.isoformat_ms
    Iso8601.parse
    (fun _ _ e =>
       match tokens e with
       | [] => (Raise (Exn DemistoException "Connection error"), e)
       | r :: rest => (r, Sim (clock e) (step e) rest (pages e) (sink_up e))
       end)
    (fun _ _ e =>
       match pages e with
       | [] => (Raise (Exn DemistoException "Connection error"), e)
       | r :: rest => (r, Sim (clock e) (step e) (tokens e) rest (sink_up e))
       end)
    (fun _ _ _ e =>
       (if sink_up e then Ok tt
        else Raise (Exn DemistoException "Failed to send events"), e))
    "unsupported operand type(s)"
    "list index out of range"
    "Unknown string format"
    "Expecting value"
    (fun days => "days=" +:+ pretty days +:+ "; must have magnitude <= 999999999")
    "date value out of range"
    false.

Definition start (ctx last_run : gmap string (gmap string pyval)) (e : sim)
  : Webex.state platform :=
  Webex.State platform ctx last_run e [].

End WX.

End Scripted.

(** ** The commands of the Webex event collector

    The methods and functions of CiscoWebexEventCollector.py that the
    fetch cycle does not use (oauth_start, oauth_test, test_module, the
    command functions, get_events_command) and [main] on every command. *)

Module WebexCommands.
Import Webex.

(** [CommandResults(readable_output=...)]. *)
Record CommandResults : Type := Results { readable_output : string }.

(** The class of a client object: it decides which [oauth_test] runs. *)
Inductive client_class : Type :=
| IsAdminClient
| IsComplianceOfficerClient.

Definition three_hours : Z := 3 * 3600 * 1000000.

Definition msg_test_module : string :=
  "In order to authorize the instance, first run the command `!cisco-webex-oauth-start`, "
  +:+ "and complete the process in the URL that is returned. You will then be redirected "
  +:+ "to the callback URL. Copy the authorization code found in the query parameter "
  +:+ "`code`, and paste that value in the command `!cisco-webex-oauth-complete` as an argument to finish "
  +:+ "the process. Then you can test it bu running the `!cisco-webex-oauth-test` command.".

Section Commands.

Variable P : platform.

(** What the command layer takes from CommonServerPython, urllib and the
    server. *)
Record host : Type := Host {
  (** [arg_to_number(v)]: [None] for an empty argument, ValueError for
      one that is no number. *)
  arg_to_number : pyval -> outcome (option Z);
  (** [argToBoolean(v)]; the argument [None] stands for the Python value
      [False], the default [main] passes for a missing key. *)
  argToBoolean : option pyval -> outcome bool;
  (** [tableToMarkdown(name, events)]. *)
  tableToMarkdown : option string -> list (gmap string pyval) -> string;
  (** [urljoin(url, suffix)] of CommonServerPython. *)
  urljoin : string -> string -> string;
  (** [urllib.parse.urlencode(params, quote_via=urllib.parse.quote)]. *)
  urlencode : gmap string pyval -> string;
  (** [return_results(results)]: the entry goes to the server. *)
  return_results_entry : CommandResults -> env P -> env P
}.

Variable H : host.

(** A value or an exception of a library function, in the monad. *)
Definition lift {A} (o : outcome A) : M (state P) A := fun s => (o, s).

Definition return_results (results : CommandResults) : M (state P) unit :=
  fun s => (Ok tt, with_world P s (return_results_entry H results (world s)) []).

(** *** class Client and its subclasses *)

(** [Client.oauth_start]. *)
Definition Client_oauth_start (c : client) : string :=
  let params :=
    assign_params
      [ ("response_type", VStr "code");
        ("scope", from_option VStr VNone (scope c));
        ("client_id", VStr (client_id c));
        ("redirect_uri", redirect_uri c) ] in
  urljoin H URL "authorize?" +:+ urlencode H params.

(** [AdminClient.oauth_test] and [ComplianceOfficerClient.oauth_test]:
    the listing is called with its default [limit] and [next_url]. *)
Definition AdminClient_oauth_test (c : client) : M (state P) unit :=
  let* t := datetime_utcnow P in
  get_admin_audits P c (VStr (date_time_to_iso_format P (t - three_hours)))
                   DEFAULT_MAX_FETCH (VStr "") >>
  ret tt.

Definition ComplianceOfficerClient_oauth_test (c : client) : M (state P) unit :=
  let* t := datetime_utcnow P in
  get_compliance_officer_events
    P c (VStr (date_time_to_iso_format P (t - three_hours)))
    DEFAULT_MAX_FETCH (VStr "") >>
  ret tt.

(** [client.oauth_test()] on an object of either class. *)
Definition Client_oauth_test (cls : client_class) (c : client) : M (state P) unit :=
  match cls with
  | IsAdminClient => AdminClient_oauth_test c
  | IsComplianceOfficerClient => ComplianceOfficerClient_oauth_test c
  end.

(** *** The command functions *)

Definition test_module {A} : M (state P) A :=
  raise DemistoException msg_test_module.

Definition oauth_start (c : client) : CommandResults :=
  let url := Client_oauth_start c in
  Results
    ("In order to retrieve the authorization code [click here](" +:+ url +:+ ")." +:+ nl
     +:+ "You will retrieve the authorization code provided as a query parameter called `code`, "
     +:+ "and insert it as an argument to the `!cisco-webex-oauth-complete` command.").

Definition oauth_complete (c : client) (args : gmap string pyval)
  : M (state P) CommandResults :=
  let code := dict_get args "code" in
  Webex.oauth_complete P c code >>
  ret (Results
         ("### Logged in successfully." +:+ nl
          +:+ "A refresh token was saved to the integration context. This token will be used to "
          +:+ "generate a new access token once the current one expires." +:+ nl
          +:+ "In order to complete the test process please run the `!cisco-oauth-test command`.")).

Definition oauth_test (cls : client_class) (c : client)
  : M (state P) CommandResults :=
  Client_oauth_test cls c >>
  ret (Results "### Test succeeded!").

(** [arg_to_number(v) or DEFAULT_MAX_FETCH]. *)
Definition or_default (n : option Z) : Z :=
  match n with
  | Some n => if (n =? 0)%Z then DEFAULT_MAX_FETCH else n
  | None => DEFAULT_MAX_FETCH
  end.

(** The default of [args.get('since_datetime', ...)] is computed before
    the lookup, so the clock is read in any case. *)
Definition get_events_command (fuel : nat) (command_function : client_function P)
           (args : gmap string pyval)
  : M (state P) (CommandResults * list (gmap string pyval)) :=
  let* t := datetime_utcnow P in
  let from_date :=
    dict_get_or args "since_datetime"
                (VStr (date_time_to_iso_format P (t - three_hours))) in
  let* n := lift (arg_to_number H (dict_get_or args "limit" (VInt 5))) in
  let limit := or_default n in
  let* '(events, _) :=
    get_events_with_pagination P fuel command_function from_date limit (VStr "") in
  ret (Results
         (tableToMarkdown H
            (COMMAND_FUNCTION_TO_EVENT_TYPE !! __name__ command_function) events),
       events).

(** *** main

    The client of a command with a [user] argument is [admin_client if
    args.get('user') == 'admin' else compliance_officer_client]. *)

(** [command_results, events = get_events_command(...)], then the results
    are returned and, when [should_push_events] says so, the events are
    sent. *)
Definition events_command (fuel : nat) (command_function : client_function P)
           (args : gmap string pyval) : M (state P) unit :=
  let* '(command_results, events) := get_events_command fuel command_function args in
  return_results command_results >>
  let* push := lift (argToBoolean H (args !! "should_push_events")) in
  if push then send_events_to_xsiam P events VENDOR PRODUCT else ret tt.

(** The [try] block of [main]: both clients are built, then the branch
    of the command is taken. *)
Definition attempt (fuel : nat) (command : string) (params : demisto_params)
           (args : gmap string pyval) (max_fetch : Z) : M (state P) unit :=
  let* admin_client :=
    AdminClient P (admin_identifier params) (admin_password params)
                (admin_app_redirect_uri params)
                (Some "audit:events_read spark:kms") (admin_org_id params) in
  let* compliance_officer_client :=
    ComplianceOfficerClient
      P (compliance_officer_identifier params)
      (compliance_officer_password params)
      (compliance_officer_redirect_uri params)
      (Some "spark-compliance:events_read spark:kms") in
  let by_user := bool_decide (dict_get args "user" = VStr "admin") in
  let cls := if by_user then IsAdminClient else IsComplianceOfficerClient in
  let client := if by_user then admin_client else compliance_officer_client in
  if String.eqb command "test-module" then test_module
  else if String.eqb command "cisco-webex-oauth-start" then
    return_results (oauth_start client)
  else if String.eqb command "cisco-webex-oauth-complete" then
    let* result := oauth_complete client args in
    return_results result
  else if String.eqb command "cisco-webex-oauth-test" then
    let* result := oauth_test cls client in
    return_results result
  else if String.eqb command "cisco-webex-get-admin-audit-events" then
    events_command
      fuel (ClientFunction P "get_admin_audits" (get_admin_audits P admin_client))
      args
  else if String.eqb command "cisco-webex-get-security-audit-events" then
    events_command
      fuel (ClientFunction P "get_security_audits"
                           (get_security_audits P admin_client))
      args
  else if String.eqb command "cisco-webex-get-compliance-officer-events" then
    events_command
      fuel (ClientFunction P "get_compliance_officer_events"
                           (get_compliance_officer_events
                              P compliance_officer_client))
      args
  else if String.eqb command "fetch-events" then
    let* last_run := getLastRun P in
    let* '(events, next_run) :=
      fetch_events P fuel admin_client compliance_officer_client last_run
                   max_fetch in
    send_events_to_xsiam P events VENDOR PRODUCT >>
    setLastRun P next_run
  else ret tt.

(** The [max_fetch] argument is read before the [try] block. *)
Definition main (fuel : nat) (command : string) (params : demisto_params)
           (args : gmap string pyval) : M (state P) unit :=
  let* n :=
    lift (arg_to_number H (dict_get_or args "max_fetch" (VInt DEFAULT_MAX_FETCH))) in
  let max_fetch := max_fetch_of n in
  try_except
    (attempt fuel command params args max_fetch)
    (fun e =>
       return_error
         P ("Failed to execute " +:+ command +:+ " command." +:+ nl +:+ "Error:"
            +:+ nl +:+ str_exn e)).

End Commands.

Arguments arg_to_number {P} h.
Arguments argToBoolean {P} h.
Arguments tableToMarkdown {P} h.
Arguments urljoin {P} h.
Arguments urlencode {P} h.
Arguments return_results_entry {P} h.

End WebexCommands.

(** A host for the scripted platform: numbers are read from decimal
    digits, booleans from [true] and [false]. *)

Module ScriptedHost.

Definition arg_to_number (v : pyval) : outcome (option Z) :=
  match v with
  | VNone => Ok None
  | VInt n => Ok (Some n)
  | VStr "" => Ok None
  | VStr s =>
      match Iso8601.number_from 0 s with
      | Some n => Ok (Some n)
      | None => Raise (Exn ValueError (s +:+ " is not a valid number"))
      end
  end.

Definition argToBoolean (v : option pyval) : outcome bool :=
  match v with
  | None => Ok false
  | Some (VStr "true") => Ok true
  | Some (VStr "false") => Ok false
  | Some _ => Raise (Exn ValueError "Argument does not contain a valid boolean-like value")
  end.

Definition host : WebexCommands.host Scripted.WX.platform :=
  WebexCommands.Host
    Scripted.WX.platform arg_to_number argToBoolean
    (fun name events => default "" name)
    (fun url suffix => url +:+ suffix)
    Scripted.show_dict
    (fun _ e => e).

End ScriptedHost.

(** * The vocabulary of the statements *)

(** [preserves R m]: every run of [m] takes a state to one that [R]
    relates it to. *)
Definition preserves {St A : Type} (R : St -> St -> Prop) (m : M St A) : Prop :=
  forall s, R s (m s).2.

(** ** Of the ServiceNow client *)

Module ServiceNowSpec.
Import ServiceNow.

Section Vocabulary.
Variable P : platform.

(** The log only grows, and by requests for tokens alone. *)
Definition token_only (s s' : state P) : Prop :=
  exists extra, sent s' = sent s ++ extra /\ api_requests extra = [].

(** [logs Q m]: [m] extends the log, and [Q] holds of the requests
    [http_request] issued among the new entries. *)
Definition logs {A} (Q : list request -> Prop) (m : M (state P) A) : Prop :=
  forall s, exists extra,
    sent (m s).2 = sent s ++ extra /\ Q (api_requests extra).

(** After the first request, [http_request] repeats one request only:
    that of the retry. *)
Definition first_then_retries (a : call) (l : list request) : Prop :=
  l = [] \/
  exists n, l = api_request a :: replicate n (api_request (retry_call a)).

(** Steps that leave the log and the stored token alone. *)
Definition quiet (s s' : state P) : Prop :=
  sent s' = sent s /\ integration_context s' = integration_context s
  /\ authentication_username s' = authentication_username s
  /\ authentication_password s' = authentication_password s.

(** Of a run from [s]: every logged token reply with an [error] field
    made the run fail with a message that ends in the reply's payload,
    and left the stored token as it was. *)
Definition error_reply_fails {A} (run : outcome A * state P) (s : state P) : Prop :=
  forall extra, sent run.2 = sent s ++ extra ->
  forall o rq res j,
    (o, rq, Ok res) ∈ extra -> o <> by_http_request ->
    json res = Some j -> dict_has j "error" = true ->
    is_ok run.1 = false
    /\ (exists msg, failure_message run.1 = Some msg
                    /\ ends_with msg (str_dict P j))
    /\ integration_context run.2 = integration_context s.

End Vocabulary.
End ServiceNowSpec.

(** ** Of the Webex event collector *)

Module WebexSpec.
Import Webex.

Section Pagination.
Variable P : platform.
Variable client_function : client_function P.
Variable from_date : pyval.
Variable limit : Z.

(** The items of a page, [[]] when the body has none. *)
Definition page_items (r : response) : list (gmap string pyval) :=
  match json r with
  | Some items => default [] items
  | None => []
  end.

(** [page_run events r s pages s']: having gathered [events] and seen
    the response [r] last, the fetch goes on to request exactly
    [pages], one after the other, each at the next-link of the page
    before it, and stops in state [s'].  It requests a further page
    when the last response has a next-link and fewer than [limit]
    events are gathered, and only then. *)
Inductive page_run :
  list (gmap string pyval) -> response -> state P ->
  list response -> state P -> Prop :=
| page_run_stop events r s :
    truthy (next_link r) = false \/ (limit <= Z.of_nat (length events))%Z ->
    page_run events r s [] s
| page_run_next events r s r' s1 pages s' :
    truthy (next_link r) = true ->
    (Z.of_nat (length events) < limit)%Z ->
    apply client_function from_date limit (next_link r) s = (Ok r', s1) ->
    is_Some (json r') ->
    page_run (events ++ page_items r') r' s1 pages s' ->
    page_run events r s (r' :: pages) s'.

(** The last response seen. *)
Definition last_page (r : response) (pages : list response) : response :=
  default r (last pages).

(** The events and the cursor the fetch returns after the pages
    [first :: rest]. *)
Definition returned_events (first : response) (rest : list response)
  : list (gmap string pyval) :=
  add_fields_to_events
    (concat (page_items <$> first :: rest))
    (COMMAND_FUNCTION_TO_EVENT_TYPE !! __name__ client_function).

Definition returned_cursor (first : response) (rest : list response) : pyval :=
  next_link (last_page first rest).

(** [served fuel next_url s first rest s']: called at [next_url] in
    state [s], the listing serves [first] and then the pages [rest] of
    a [page_run], ending in [s']. *)
Definition served (fuel : nat) (next_url : pyval) (s : state P)
           (first : response) (rest : list response) (s' : state P) : Prop :=
  exists s0,
    apply client_function from_date limit next_url s = (Ok first, s0)
    /\ is_Some (json first)
    /\ length rest <= fuel
    /\ page_run (page_items first) first s0 rest s'.

End Pagination.

Section Cycle.
Variable P : platform.
Variable fuel : nat.
Variable max_fetch : Z.

(** What one event type contributed to a cycle: its key, its listing,
    and the pages the listing served. *)
Record fetched : Type := Fetched {
  event_type : string;
  listing : client_function P;
  first_page : response;
  more_pages : list response
}.

Definition events_of (f : fetched) : list (gmap string pyval) :=
  returned_events P (listing f) (first_page f) (more_pages f).

Definition cursor_of (f : fetched) : pyval :=
  returned_cursor (first_page f) (more_pages f).

(** [cycle last_run todo s results s']: from state [s] the listings of
    [todo] serve, one event type after the other, the pages recorded in
    [results], each asked from the checkpoint [last_run] holds for it. *)
Inductive cycle (last_run : gmap string (gmap string pyval)) :
  list (string * client_function P) -> state P ->
  list fetched -> state P -> Prop :=
| cycle_done s : cycle last_run [] s [] s
| cycle_step et cf todo s first rest s1 results s' :
    served P cf (demisto_get last_run et "since_datetime" VNone) max_fetch
           fuel (demisto_get last_run et "next_url" (VStr "")) s first rest s1 ->
    cycle last_run todo s1 results s' ->
    cycle last_run ((et, cf) :: todo) s (Fetched et cf first rest :: results) s'.

(** The last of the events has a creation time the parser reads. *)
Definition timestamped (events : list (gmap string pyval)) : Prop :=
  match last events with
  | None => True
  | Some e =>
      exists created t,
        dict_get e "created" = VStr created /\ parse P created = Some t
  end.

(** [advanced cp events cursor cp']: the checkpoint [cp'] holds the
    cursor, and the creation time of the last event plus one millisecond
    when there are events, the since_datetime of [cp] when there are
    none. *)
Definition advanced (cp : gmap string pyval) (events : list (gmap string pyval))
           (cursor : pyval) (cp' : gmap string pyval) : Prop :=
  cp' !! "next_url" = Some cursor
  /\ match last events with
     | None => cp' !! "since_datetime" = cp !! "since_datetime"
     | Some e =>
         exists created t,
           dict_get e "created" = VStr created
           /\ parse P created = Some t
           /\ cp' !! "since_datetime"
              = Some (VStr (date_time_to_iso_format P (t + 1000)))
     end.

(** Every event of [f] was created at or after the since_datetime the
    checkpoint of its type held when the cycle began. *)
Definition within_window (lr0 : gmap string (gmap string pyval))
           (f : fetched) : Prop :=
  exists cp since T,
    lr0 !! event_type f = Some cp
    /\ cp !! "since_datetime" = Some (VStr since)
    /\ parse P since = Some T
    /\ Forall (fun e =>
                 exists created t,
                   dict_get e "created" = VStr created
                   /\ parse P created = Some t
                   /\ (T <= t)%Z)
              (events_of f).

(** The since_datetime written for [f] is read back at the millisecond
    it was written at. *)
Definition reads_back (f : fetched) : Prop :=
  match last (events_of f) with
  | None => True
  | Some e =>
      forall created t,
        dict_get e "created" = VStr created ->
        parse P created = Some t ->
        parse P (date_time_to_iso_format P (t + 1000))
        = Some ((t + 1000) / 1000 * 1000)%Z
  end.

(** Nothing was handed to [setLastRun]: the stored last run is as it
    was and the trace grew without a [SetLastRun]. *)
Definition unpersisted (s s' : state P) : Prop :=
  last_run_store s' = last_run_store s
  /\ exists extra,
      trace s' = trace s ++ extra
      /\ Forall (fun e => forall lr, e <> SetLastRun lr) extra.

(** A listing that never calls [setLastRun]. *)
Definition tame (cf : client_function P) : Prop :=
  forall from_date limit next_url,
    preserves unpersisted (apply cf from_date limit next_url).

(** A lifetime of [seconds] seconds counted from [now] that Python's
    datetime holds: the timedelta has no more than 999999999 days, and the
    instant it leads to lies in the years 1 to 9999. *)
Definition in_calendar (now seconds : Z) : Prop :=
  (Z.abs (seconds / 86400) <= MAX_DELTA_DAYS)%Z
  /\ (datetime_min <= now + seconds * 1000000 <= datetime_max)%Z.

(** The record [save_tokens_to_integration_context] builds. *)
Definition token_record (result : gmap string pyval) (now access_delta refresh_delta : Z)
  : gmap string pyval :=
  assign_params
    [ ("access_token", dict_get result "access_token");
      ("access_token_expires_in",
       VStr (date_time_to_iso_format P (now + access_delta)));
      ("refresh_token", dict_get result "refresh_token");
      ("refresh_token_expires_in",
       VStr (date_time_to_iso_format P (now + refresh_delta))) ].

End Cycle.

Section Failure.
Variable P : platform.
Variable fuel : nat.
Variable max_fetch : Z.

(** [no_page cf from_date limit next_url s]: called in state [s], the
    listing yields no page: the call raises, or the body of its response
    does not parse. *)
Definition no_page (cf : client_function P) (from_date : pyval) (limit : Z)
           (next_url : pyval) (s : state P) : Prop :=
  match (apply cf from_date limit next_url s).1 with
  | Ok r => json r = None
  | _ => True
  end.

(** [page_run_fails cf from_date limit events r s]: having gathered
    [events] and seen the response [r] last, the fetch goes on to request
    further pages, and one of these requests yields no page. *)
Inductive page_run_fails (cf : client_function P) (from_date : pyval) (limit : Z) :
  list (gmap string pyval) -> response -> state P -> Prop :=
| page_fails_now events r s :
    truthy (next_link r) = true ->
    (Z.of_nat (length events) < limit)%Z ->
    no_page cf from_date limit (next_link r) s ->
    page_run_fails cf from_date limit events r s
| page_fails_later events r s r' s1 :
    truthy (next_link r) = true ->
    (Z.of_nat (length events) < limit)%Z ->
    apply cf from_date limit (next_link r) s = (Ok r', s1) ->
    is_Some (json r') ->
    page_run_fails cf from_date limit (events ++ page_items r') r' s1 ->
    page_run_fails cf from_date limit events r s.

(** The fetch of one event type breaks off, at its first page or at a
    later one. *)
Definition pagination_fails (cf : client_function P) (from_date : pyval)
           (limit : Z) (next_url : pyval) (s : state P) : Prop :=
  no_page cf from_date limit next_url s
  \/ exists first s0,
      apply cf from_date limit next_url s = (Ok first, s0)
      /\ is_Some (json first)
      /\ page_run_fails cf from_date limit (page_items first) first s0.

(** [cycle_fails last_run todo s]: the cycle breaks off at one of the
    event types of [todo], after the types before it were served. *)
Inductive cycle_fails (last_run : gmap string (gmap string pyval)) :
  list (string * client_function P) -> state P -> Prop :=
| cycle_fails_now et cf todo s :
    pagination_fails cf (demisto_get last_run et "since_datetime" VNone) max_fetch
                     (demisto_get last_run et "next_url" (VStr "")) s ->
    cycle_fails last_run ((et, cf) :: todo) s
| cycle_fails_later et cf todo s first rest s1 :
    served P cf (demisto_get last_run et "since_datetime" VNone) max_fetch
           fuel (demisto_get last_run et "next_url" (VStr "")) s first rest s1 ->
    cycle_fails last_run todo s1 ->
    cycle_fails last_run ((et, cf) :: todo) s.

End Failure.
End WebexSpec.

(** ** Of the ServiceNow client, beyond the token exchange *)

Module ServiceNowTerms.
Import ServiceNow.

(** The request of the password grant [login] sends when no identity
    provider is configured. *)
Definition password_grant_request (c : client) (username password : string)
  : request :=
  Request "POST" OAUTH_URL None "response" (Some form_headers) None None
          (Some {[ "client_id" := VStr (client_id c);
                   "client_secret" := VStr (client_secret c);
                   "username" := VStr username;
                   "password" := VStr password;
                   "grant_type" := VStr "password" ]})
          None None false None None.

(** The message of the error [http_request] raises on a 401 under basic
    authorization. *)
Definition msg_authorization_failed (P : platform) (res : response) : string :=
  "Authorization failed. Please verify that the username and password are correct."
  +:+ nl +:+ str_response P res.

Definition msg_unparsed (res : response) : string :=
  "Failed to parse json object from response: " +:+ content res.

(** The exception is one [http_request] lets out: a [DemistoException],
    or the [Exception] of [return_error] with the advice on certificates
    under a server-handled command. *)
Definition surfaced (P : platform) (c : client) (e : exn) : Prop :=
  exn_cls e = DemistoException
  \/ (server_handled P = true /\ _verify c = true /\ e = Exn Exception msg_ssl).

End ServiceNowTerms.

(** ** Of the Webex collector, beyond the fetch cycle *)

Module WebexTerms.
Import Webex.

Section Terms.
Variable P : platform.

(** [listing_sends m s suffix from_key to_key org cap from_date limit
    next_url]: run from [s], the listing [m] sends one GET request and
    touches neither the stored tokens nor the stored last run.  With a
    [next_url] the request goes to that URL and carries no parameter;
    without one it goes to [suffix] with the window from [from_date] to
    the clock reading, [max] at the smaller of [limit] and [cap], and
    the organisation when [org] names one. *)
Definition listing_sends (m : M (state P) response) (s : state P)
           (suffix from_key to_key : string) (org : option pyval) (cap : Z)
           (from_date : pyval) (limit : Z) (next_url : pyval) : Prop :=
  exists r,
    trace (m s).2 = trace s ++ [Requested r]
    /\ integration_context (m s).2 = integration_context s
    /\ last_run_store (m s).2 = last_run_store s
    /\ method r = "GET" /\ resp_type r = "response" /\ headers r = None
    /\ (truthy next_url = true ->
        full_url r = Some next_url /\ url_suffix r = "" /\ params r = None)
    /\ (truthy next_url = false ->
        full_url r = None /\ url_suffix r = suffix
        /\ exists p,
            params r = Some p
            /\ p !! "max" = Some (VInt (Z.min limit cap))
            /\ p !! from_key = Some from_date
            /\ p !! to_key
               = Some (VStr (date_time_to_iso_format P (utcnow P (world s)).1))
            /\ p !! "orgId" = org
            /\ forall k, k <> "max" -> k <> from_key -> k <> to_key ->
                         k <> "orgId" -> p !! k = None).

(** The run sent requests to the server and did nothing else that the
    trace records: nothing was delivered, and the stored last run is as it
    was. *)
Definition only_requests (s s' : state P) : Prop :=
  last_run_store s' = last_run_store s
  /\ exists extra,
      trace s' = trace s ++ extra
      /\ Forall (fun e => exists r, e = Requested r) extra.

(** [at_most_a_delivery s s' delivered]: the run sent requests to the
    server and then, when [delivered] names events, delivered them; the
    stored last run is as it was. *)
Definition at_most_a_delivery (s s' : state P)
           (delivered : option (list (gmap string pyval))) : Prop :=
  last_run_store s' = last_run_store s
  /\ exists before,
      Forall (fun e => exists r, e = Requested r) before
      /\ trace s' = trace s ++ before
                    ++ match delivered with
                       | Some events => [Delivered events VENDOR PRODUCT]
                       | None => []
                       end.

(** A listing that does no more than send requests. *)
Definition requesting (cf : client_function P) : Prop :=
  forall from_date limit next_url,
    preserves only_requests (apply cf from_date limit next_url).

End Terms.

(** The commands of [main] that list events. *)
Definition events_commands : list string :=
  [ "cisco-webex-get-admin-audit-events";
    "cisco-webex-get-security-audit-events";
    "cisco-webex-get-compliance-officer-events" ].

(** The commands [main] knows. *)
Definition commands : list string :=
  [ "test-module"; "cisco-webex-oauth-start"; "cisco-webex-oauth-complete";
    "cisco-webex-oauth-test" ] ++ events_commands ++ [ "fetch-events" ].

(** The message [main] reports a failure of [command] with. *)
Definition msg_failed (command : string) (e : exn) : string :=
  "Failed to execute " +:+ command +:+ " command." +:+ nl +:+ "Error:" +:+ nl
  +:+ str_exn e.

End WebexTerms.

(** * Runs on the scripted platforms *)

(** ** A ServiceNow client answered 401 *)

Module ServiceNowRuns.
Import ServiceNow.

Definition P : platform := Scripted.SN.platform false.

Definition oauth_client : client := Client true "id" "secret" None None false.

Definition list_incidents : call :=
  Call "GET" "/api/now/table/incident" None
       (Some {[ "Accept" := "application/json" ]}) None
       (Some {[ "sysparm_limit" := VInt 10 ]}) None None false None (Some 30%Z).

Definition unauthorized : response :=
  Response 401 (Some {[ "error" := VStr "unauthorized" ]}) "".

Definition token_reply (expires_in : Z) : response :=
  Response 200
    (Some {[ "access_token" := VStr "A1"; "expires_in" := VInt expires_in ]}) "".

Definition error_reply : response :=
  Response 401 (Some {[ "error" := VStr "invalid_grant" ]}) "".

Definition stored (expiry : Z) : gmap string pyval :=
  {[ "access_token" := VStr "A0"; "refresh_token" := VStr "R0";
     "expiry_time" := VInt expiry ]}.

(** The token in store is good until 5000; the clock stands at 1000. *)
Definition fresh0 : state P :=
  Scripted.SN.start (stored 5000) (Scripted.SN.Sim 1000 0 [Ok unauthorized]).
Definition fresh1 : state P := (authorize P oauth_client fresh0).2.
Definition fresh2 : state P :=
  (_http_request P by_http_request (api_request list_incidents) fresh1).2.
Definition fresh3 : state P := (now P fresh2).2.

(** The token in store expires at 1001, while the request is under way. *)
Definition stale0 : state P :=
  Scripted.SN.start (stored 1001)
    (Scripted.SN.Sim 1000 1
       [Ok unauthorized; Ok (token_reply 3600); Ok unauthorized]).
Definition stale1 : state P := (authorize P oauth_client stale0).2.
Definition stale2 : state P :=
  (_http_request P by_http_request (api_request list_incidents) stale1).2.
Definition stale3 : state P := (now P stale2).2.
Definition stale4 : state P := (authorize P oauth_client stale3).2.
Definition stale5 : state P := (authorize P oauth_client stale4).2.
Definition stale6 : state P :=
  (_http_request P by_http_request
                 (api_request (retry_call list_incidents)) stale5).2.
Definition stale7 : state P := (now P stale6).2.

Definition incidents : response :=
  Response 200 (Some {[ "result" := VStr "INC0010001" ]}) "".

(** A token reply that names no lifetime: the token it brings has
    expired by the time it is stored. *)
Definition brief_reply : response :=
  Response 200
    (Some {[ "access_token" := VStr "A1"; "refresh_token" := VStr "R1" ]}) "".

(** The token in store has expired and every refresh is answered with
    such a token; the request is answered 401 twice and then served. *)
Definition brief0 : state P :=
  Scripted.SN.start (stored 500)
    (Scripted.SN.Sim 1000 0
       [Ok brief_reply; Ok unauthorized;
        Ok brief_reply; Ok brief_reply; Ok unauthorized;
        Ok brief_reply; Ok brief_reply; Ok incidents]).

(** The token in store has expired; the refresh is answered. *)
Definition expired0 (reply : response) : state P :=
  Scripted.SN.start (stored 500) (Scripted.SN.Sim 1000 0 [Ok reply]).

End ServiceNowRuns.

(** ** A fetch cycle of the Webex collector *)

Module WebexRuns.
Import Webex WebexSpec.

Definition P : platform := Scripted.WX.platform.

Definition admin : client :=
  Client "admin" "id" "secret" VNone (Some "audit:events_read spark:kms")
         (VStr "org") (Some {[ "Authorization" := "Bearer A" ]}).

Definition officer : client :=
  Client "compliance_officer" "id" "secret" VNone
         (Some "spark-compliance:events_read spark:kms") VNone
         (Some {[ "Authorization" := "Bearer B" ]}).

Definition event (id created : string) : gmap string pyval :=
  {[ "id" := VStr id; "created" := VStr created ]}.

Definition page (events : list (gmap string pyval)) (next : option string)
  : response :=
  Response (Some (Some events))
           (match next with
            | Some url => {[ "next" := {[ "url" := VStr url ]} ]}
            | None => ∅
            end).

Definition checkpoint (since next : string) : gmap string pyval :=
  {[ "since_datetime" := VStr since; "next_url" := VStr next ]}.

Definition token (access access_expiry refresh refresh_expiry : string)
  : gmap string pyval :=
  {[ "access_token" := VStr access;
     "access_token_expires_in" := VStr access_expiry;
     "refresh_token" := VStr refresh;
     "refresh_token_expires_in" := VStr refresh_expiry ]}.

(** 2023-01-01T10:00:00, in microseconds. *)
Definition ten_o_clock : Z := 1672567200000000.

Definition stored_tokens : gmap string (gmap string pyval) :=
  {[ "admin" := token "A" "2023-01-02T00:00:00.000Z" "R" "2023-03-01T00:00:00.000Z";
     "compliance_officer" :=
       token "B" "2023-01-02T00:00:00.000Z" "S" "2023-03-01T00:00:00.000Z" ]}.

Definition stored_last_run : gmap string (gmap string pyval) :=
  {[ "admin_audits" := checkpoint "2023-01-01T00:00:00.000Z" "";
     "security_audits" := checkpoint "2023-01-01T00:00:00.000Z" "";
     "compliance_officer_events" := checkpoint "2023-01-01T00:00:00.000Z" "" ]}.

Definition page1 : response :=
  page [event "1" "2023-01-01T01:00:00.000Z"; event "2" "2023-01-01T02:00:00.123Z"]
       None.
Definition page2 : response := page [] None.
Definition page3 : response :=
  page [event "3" "2023-01-01T03:00:00.000Z"] (Some "https://webexapis.com/v1/events?p=2").
Definition page4 : response :=
  page [event "4" "2023-01-01T04:00:00.000Z"] (Some "https://webexapis.com/v1/events?p=3").

Definition listings := event_type_to_client_function P admin officer.

Definition admin_audits : client_function P :=
  ClientFunction P "get_admin_audits" (get_admin_audits P admin).
Definition security_audits : client_function P :=
  ClientFunction P "get_security_audits" (get_security_audits P admin).
Definition officer_events : client_function P :=
  ClientFunction P "get_compliance_officer_events"
                 (get_compliance_officer_events P officer).

Definition since0 : pyval := VStr "2023-01-01T00:00:00.000Z".

(** A cycle of at most two events per type: two admin audits on one
    page, no security audit, and two pages of one event each with more
    to come. *)
Definition c0 : state P :=
  Scripted.WX.start stored_tokens stored_last_run
    (Scripted.WX.Sim ten_o_clock 0 [] [Ok page1; Ok page2; Ok page3; Ok page4] true).
Definition c1 : state P := (apply admin_audits since0 2 (VStr "") c0).2.
Definition c2 : state P := (apply security_audits since0 2 (VStr "") c1).2.
Definition c3 : state P := (apply officer_events since0 2 (VStr "") c2).2.
Definition c4 : state P :=
  (apply officer_events since0 2 (next_link page3) c3).2.

Definition fetched_pages : list (fetched P) :=
  [ Fetched P "admin_audits" admin_audits page1 [];
    Fetched P "security_audits" security_audits page2 [];
    Fetched P "compliance_officer_events" officer_events page3 [page4] ].

(** An event as the collector returns it, with its two added fields. *)
Definition tagged (label : string) (e : gmap string pyval) : gmap string pyval :=
  <["source_log_type" := VStr label]> (<["_time" := dict_get e "created"]> e).

(** The parameters of the instance that give the clients [admin] and
    [officer]. *)
Definition instance_params : demisto_params :=
  Params "id" "secret" VNone (VStr "org") "id" "secret" VNone.

(** The same cycle, but the server answers the request for the second
    page of events with an error. *)
Definition server_error : exn := Exn DemistoException "Error in API call [500]".

Definition b0 : state P :=
  Scripted.WX.start stored_tokens stored_last_run
    (Scripted.WX.Sim ten_o_clock 0 []
       [Ok page1; Ok page2; Ok page3; Raise server_error] true).
Definition b1 : state P :=
  (AdminClient P "id" "secret" VNone (Some "audit:events_read spark:kms")
               (VStr "org") b0).2.
Definition b2 : state P :=
  (ComplianceOfficerClient P "id" "secret" VNone
                           (Some "spark-compliance:events_read spark:kms") b1).2.
Definition b3 : state P := (apply admin_audits since0 2 (VStr "") b2).2.
Definition b4 : state P := (apply security_audits since0 2 (VStr "") b3).2.
Definition b5 : state P := (apply officer_events since0 2 (VStr "") b4).2.

End WebexRuns.

(** ** Token exchanges *)

Module TokenRuns.

Module SN := ServiceNow.
Module WX := Webex.
Module SR := ServiceNowRuns.
Module WR := WebexRuns.

Definition PS : SN.platform := SR.P.
Definition PW : WX.platform := WR.P.

(** *** ServiceNow: the stored token has expired and is refreshed *)

Definition refreshed : gmap string pyval :=
  {[ "access_token" := VStr "A1"; "expires_in" := VInt 3600 ]}.

Definition e0 : SN.state PS := SR.expired0 (SR.token_reply 3600).
Definition e1 : SN.state PS := (SN.token_is_valid PS (SR.stored 500) e0).2.
Definition e2 : SN.state PS :=
  (SN._http_request PS SN.by_get_access_token
                    (SN.refresh_request SR.oauth_client (VStr "R0")) e1).2.
Definition e3 : SN.state PS := (SN.now PS e2).2.

(** *** ServiceNow: the refresh is answered with an error *)

Definition f0 : SN.state PS := SR.expired0 SR.error_reply.

(** *** ServiceNow: nothing is stored *)

Definition n0 : SN.state PS := Scripted.SN.start ∅ (Scripted.SN.Sim 1000 0 []).

(** *** Webex: the access token of the admin has expired *)

Definition expired_tokens : gmap string (gmap string pyval) :=
  {[ "admin" := WR.token "A" "2023-01-01T09:00:00.000Z" "R"
                         "2023-03-01T00:00:00.000Z" ]}.

Definition w0 (reply : gmap string pyval) : WX.state PW :=
  Scripted.WX.start expired_tokens ∅
    (Scripted.WX.Sim WR.ten_o_clock 0 [Ok reply] [] true).

Definition g0 : WX.state PW := w0 refreshed.
Definition g1 : WX.state PW := (WX.datetime_utcnow PW g0).2.
Definition g2 : WX.state PW := (WX.datetime_utcnow PW g1).2.
Definition g3 : WX.state PW :=
  (WX.create_access_token PW WR.admin "refresh_token" VNone (VStr "R") g2).2.
Definition g4 : WX.state PW := (WX.datetime_utcnow PW g3).2.

Definition h0 : WX.state PW :=
  Scripted.WX.start ∅ ∅ (Scripted.WX.Sim WR.ten_o_clock 0 [] [] true).

End TokenRuns.

(** ** More runs of the ServiceNow client *)

Module ServiceNowEdgeRuns.
Import ServiceNow ServiceNowRuns.

Definition basic_client : client := Client false "" "" None None false.

Definition verifying_client : client := Client true "id" "secret" None None true.

Definition idp_client : client :=
  Client true "id" "secret" (Some "https://idp.example.com/token") (Some "openid")
         false.

Definition login_reply : response :=
  Response 200 (Some {[ "refresh_token" := VStr "R1" ]}) "".

Definition empty_reply : response :=
  Response 200 (Some {[ "scope" := VStr "useraccount" ]}) "".

(** Nothing answers: the transport raises. *)
Definition down0 : state P := Scripted.SN.start ∅ (Scripted.SN.Sim 1000 0 []).

(** The server answers the request with a list of incidents. *)
Definition served0 : state P :=
  Scripted.SN.start (stored 5000) (Scripted.SN.Sim 1000 0 [Ok incidents]).
Definition served1 : state P := (now P served0).2.

(** The server answers the password grant. *)
Definition login0 : state P :=
  Scripted.SN.start (stored 5000) (Scripted.SN.Sim 1000 0 [Ok login_reply]).
Definition login1 : state P :=
  (_http_request P by_login
     (ServiceNowTerms.password_grant_request oauth_client "admin" "secret") login0).2.

(** An identity provider is configured, login has supplied the
    credentials, and the token in store has expired. *)
Definition idp0 : state P :=
  State P (stored 500) ∅ (Some "admin") (Some "secret")
        (Scripted.SN.Sim 1000 0 [Ok (token_reply 3600)]) [].
Definition idp1 : state P := (token_is_valid P (stored 500) idp0).2.
Definition idp2 : state P :=
  (_http_request P by_get_access_token_idp
                 (idp_request idp_client "admin" "secret") idp1).2.
Definition idp3 : state P := (now P idp2).2.

(** The refresh grant is answered with a body that names no token. *)
Definition vague0 : state P := expired0 empty_reply.
Definition vague1 : state P := (token_is_valid P (stored 500) vague0).2.
Definition vague2 : state P :=
  (_http_request P by_get_access_token
                 (refresh_request oauth_client (VStr "R0")) vague1).2.

(** The stored context holds an access token and no expiry_time. *)
Definition undated0 : state P :=
  Scripted.SN.start {[ "access_token" := VStr "A0" ]}
                    (Scripted.SN.Sim 1000 0 [Ok incidents]).

End ServiceNowEdgeRuns.

(** ** More runs of the Webex collector *)

Module WebexEdgeRuns.
Import Webex WebexSpec WebexCommands WebexRuns.

Definition H : host P := ScriptedHost.host.

(** *** The refresh token of the admin expired a month ago *)

Definition lapsed : gmap string pyval :=
  token "A" "2023-01-02T00:00:00.000Z" "R" "2022-12-01T00:00:00.000Z".

Definition l0 : state P :=
  Scripted.WX.start {[ "admin" := lapsed ]} stored_last_run
    (Scripted.WX.Sim ten_o_clock 0 [Ok TokenRuns.refreshed] [Ok page1] true).
Definition l1 : state P := (datetime_utcnow P l0).2.

(** *** Both tokens of the admin are good *)

Definition v1 : state P := (datetime_utcnow P c0).2.
Definition v2 : state P := (datetime_utcnow P v1).2.

(** *** A token that is to last some 9500 years *)

Definition everlasting : gmap string pyval :=
  {[ "access_token" := VStr "A1"; "expires_in" := VInt 300000000000 ]}.

(** *** The access token of the admin has expired, that of the officer
    has not *)

Definition m0 : state P :=
  Scripted.WX.start
    {[ "admin" := token "A" "2023-01-01T09:00:00.000Z" "R" "2023-03-01T00:00:00.000Z";
       "compliance_officer" :=
         token "B" "2023-01-02T00:00:00.000Z" "S" "2023-03-01T00:00:00.000Z" ]}
    ∅ (Scripted.WX.Sim ten_o_clock 0 [Ok TokenRuns.refreshed] [] true).

(** *** One event is asked for and the page holds two *)

Definition q1 : state P :=
  (get_events_with_pagination P 5 admin_audits since0 1 (VStr "") c0).2.

(** *** The stored last run has no entry for the admin audits *)

Definition partial_last_run : gmap string (gmap string pyval) :=
  {[ "security_audits" := checkpoint "2023-01-01T00:00:00.000Z" "";
     "compliance_officer_events" := checkpoint "2023-01-01T00:00:00.000Z" "" ]}.

Definition k0 : state P :=
  Scripted.WX.start stored_tokens partial_last_run
    (Scripted.WX.Sim ten_o_clock 0 [] [Ok page1; Ok page2; Ok page3; Ok page4] true).
Definition k1 : state P :=
  (get_events_with_pagination P 5 admin_audits VNone 2 (VStr "") k0).2.

(** *** Nothing is stored for the last run *)

Definition a0 : state P :=
  Scripted.WX.start stored_tokens ∅
    (Scripted.WX.Sim ten_o_clock 0 [] [Ok page1; Ok page2; Ok page3; Ok page4] true).
Definition a1 : state P := (datetime_utcnow P a0).2.

(** *** Commands *)

Definition bad_max_fetch : gmap string pyval := {[ "max_fetch" := VStr "many" ]}.

Definition push_events : gmap string pyval :=
  {[ "should_push_events" := VStr "true"; "limit" := VInt 1 ]}.

Definition code_only : gmap string pyval := {[ "code" := VStr "abc" ]}.

Definition granted : gmap string pyval :=
  {[ "access_token" := VStr "B1"; "expires_in" := VInt 3600;
     "refresh_token" := VStr "S1"; "refresh_token_expires_in" := VInt 7776000 ]}.

Definition o0 : state P :=
  Scripted.WX.start stored_tokens stored_last_run
    (Scripted.WX.Sim ten_o_clock 0 [Ok granted] [] true).
Definition o1 : state P :=
  (AdminClient P "id" "secret" VNone (Some "audit:events_read spark:kms")
               (VStr "org") o0).2.
Definition o2 : state P :=
  (ComplianceOfficerClient P "id" "secret" VNone
                           (Some "spark-compliance:events_read spark:kms") o1).2.
Definition o3 : state P :=
  (create_access_token P officer "authorization_code" (VStr "abc") VNone o2).2.
Definition o4 : state P := (datetime_utcnow P o3).2.

End WebexEdgeRuns.

(** * The monad *)

Module PyFacts.

Section Bind.
Context {St A B : Type}.

Lemma bind_ok (m : M St A) (k : A -> M St B) s a s' :
  m s = (Ok a, s') -> Py.bind m k s = k a s'.
Proof. intros H. unfold Py.bind. by rewrite H. Qed.

Lemma bind_raise (m : M St A) (k : A -> M St B) s e s' :
  m s = (Raise e, s') -> Py.bind m k s = (Raise e, s').
Proof. intros H. unfold Py.bind. by rewrite H. Qed.

Lemma bind_exit (m : M St A) (k : A -> M St B) s msg s' :
  m s = (Exit msg, s') -> Py.bind m k s = (Exit msg, s').
Proof. intros H. unfold Py.bind. by rewrite H. Qed.

Lemma bind_ret (a : A) (k : A -> M St B) s : Py.bind (ret a) k s = k a s.
Proof. reflexivity. Qed.

Lemma bind_gets (f : St -> A) (k : A -> M St B) s :
  Py.bind (gets f) k s = k (f s) s.
Proof. reflexivity. Qed.

Lemma bind_fail (c : exn_class) msg (k : A -> M St B) s :
  Py.bind (raise c msg) k s = (Raise (Exn c msg), s).
Proof. reflexivity. Qed.

Lemma try_ok (m : M St A) h s a s' :
  m s = (Ok a, s') -> try_except m h s = (Ok a, s').
Proof. intros H. unfold try_except. by rewrite H. Qed.

Lemma try_raise (m : M St A) h s e s' :
  m s = (Raise e, s') -> try_except m h s = h e s'.
Proof. intros H. unfold try_except. by rewrite H. Qed.

Lemma try_exit (m : M St A) h s msg s' :
  m s = (Exit msg, s') -> try_except m h s = (Exit msg, s').
Proof. intros H. unfold try_except. by rewrite H. Qed.
Lemma bind_fails (m : M St A) (k : A -> M St B) s :
  is_ok (m s).1 = false -> is_ok (Py.bind m k s).1 = false.
Proof. unfold Py.bind. by destruct (m s) as [[a| | |] s']. Qed.

End Bind.

(** A run is its outcome paired with its final state. *)
Lemma run_eq {A B} (r : A * B) (a : A) : r.1 = a -> r = (a, r.2).
Proof. intros <-. by destruct r. Qed.

(** Closed goals are settled by evaluation: a decidable one by its
    decision procedure, the equation of a run at its outcome. *)
Ltac computed :=
  first [ apply (bool_decide_unpack _); vm_compute; exact I
        | vm_compute; reflexivity ].

Ltac ran :=
  lazymatch goal with
  | |- ?m = (?a, ?s) =>
      first [ let s' := eval unfold s in s in change (m = (a, s')) | idtac ];
      apply run_eq; computed
  end.

Ltac conjuncts := repeat match goal with |- _ /\ _ => split end.

Lemma append_assoc (a b c : string) : (a +:+ b) +:+ c = a +:+ (b +:+ c).
Proof.
  induction a as [|x a IH]; [done|].
  change (String x ((a +:+ b) +:+ c) = String x (a +:+ (b +:+ c))).
  by rewrite IH.
Qed.

Lemma ends_with_refl s : ends_with s s.
Proof. by exists "". Qed.

Lemma ends_with_app a hay suffix :
  ends_with hay suffix -> ends_with (a +:+ hay) suffix.
Proof. intros [front ->]. exists (a +:+ front). by rewrite append_assoc. Qed.

(** [preserves] through the operations of the monad. *)
Section Preserves.
Context {St : Type} (R : St -> St -> Prop) `{!PreOrder R}.

Lemma preserves_ret {A} (a : A) : preserves R (ret a).
Proof. intros s. simpl. reflexivity. Qed.

Lemma preserves_raise {A} c msg : preserves R (@raise St A c msg).
Proof. intros s. simpl. reflexivity. Qed.

Lemma preserves_out_of_fuel {A} : preserves R (@out_of_fuel St A).
Proof. intros s. simpl. reflexivity. Qed.

Lemma preserves_gets {A} (f : St -> A) : preserves R (gets f).
Proof. intros s. simpl. reflexivity. Qed.

Lemma preserves_modify (f : St -> St) :
  (forall s, R s (f s)) -> preserves R (modify f).
Proof. intros H s. apply H. Qed.

Lemma preserves_bind {A B} (m : M St A) (k : A -> M St B) :
  preserves R m -> (forall a, preserves R (k a)) -> preserves R (Py.bind m k).
Proof.
  intros Hm Hk s. unfold Py.bind. specialize (Hm s).
  destruct (m s) as [[a| | |] s1]; simpl in *; try done.
  etrans; [exact Hm | apply Hk].
Qed.

Lemma preserves_try_except {A} (m : M St A) h :
  preserves R m -> (forall e, preserves R (h e)) -> preserves R (try_except m h).
Proof.
  intros Hm Hh s. unfold try_except. specialize (Hm s).
  destruct (m s) as [[a|e| |] s1]; simpl in *; try done.
  etrans; [exact Hm | apply Hh].
Qed.

Lemma preserves_if {A} (b : bool) (m1 m2 : M St A) :
  preserves R m1 -> preserves R m2 -> preserves R (if b then m1 else m2).
Proof. by destruct b. Qed.
End Preserves.

End PyFacts.

(** * The ServiceNow client *)

Module ServiceNowFacts.
Import ServiceNow ServiceNowSpec PyFacts.

Lemma api_requests_app l1 l2 :
  api_requests (l1 ++ l2) = api_requests l1 ++ api_requests l2.
Proof. unfold api_requests. apply omap_app. Qed.

Lemma retry_call_idemp a : retry_call (retry_call a) = retry_call a.
Proof. reflexivity. Qed.

Section Log.
Variable P : platform.

Local Abbreviation token_only := (ServiceNowSpec.token_only P).
Local Abbreviation logs := (ServiceNowSpec.logs P).

#[local] Instance token_only_preorder : PreOrder token_only.
Proof.
  split.
  - intros s. exists []. by rewrite app_nil_r.
  - intros s1 s2 s3 (e1 & H1 & A1) (e2 & H2 & A2). exists (e1 ++ e2). split.
    + by rewrite H2, H1, app_assoc.
    + by rewrite api_requests_app, A1, A2.
Qed.

Lemma token_only_same_log (s s' : state P) : sent s' = sent s -> token_only s s'.
Proof. intros H. exists []. by rewrite app_nil_r. Qed.

Lemma preserves_now : preserves token_only (now P).
Proof.
  intros s. unfold now. destruct (date_to_timestamp_now P (world s)).
  by apply token_only_same_log.
Qed.

Lemma preserves_token_request o r :
  o <> by_http_request -> preserves token_only (_http_request P o r).
Proof.
  intros Ho s. unfold _http_request.
  destruct (transport P (_headers s) r (world s)) as [res w]. simpl.
  eexists. split; [reflexivity|]. unfold api_requests. simpl.
  by destruct (decide (o = by_http_request)).
Qed.

Lemma preserves_return_error {A} msg : preserves token_only (@return_error P A msg).
Proof.
  unfold return_error. destruct (server_handled P).
  - apply preserves_raise, _.
  - intros s. reflexivity.
Qed.

Ltac preserving :=
  repeat first
    [ apply preserves_ret; apply _
    | apply preserves_raise; apply _
    | apply preserves_gets; apply _
    | apply preserves_now
    | apply preserves_return_error
    | apply preserves_token_request; discriminate
    | apply preserves_modify; intros ?; by apply token_only_same_log
    | apply preserves_bind; [apply _ | | intros ?]
    | apply preserves_try_except; [apply _ | | intros ?]
    | match goal with
      | |- preserves _ (if ?b then _ else _) => destruct b
      | |- preserves _ (match ?x with _ => _ end) => destruct x
      end
    | progress unfold set_integration_context, headers_update, set_credentials,
        get_integration_context, parsed_json, as_int, bearer ].

Lemma preserves_exchange o r keep :
  o <> by_http_request -> preserves token_only (exchange P o r keep).
Proof.
  intros Ho. unfold exchange.
  apply preserves_try_except; [apply _ | | intros ?; apply preserves_return_error].
  apply preserves_bind; [apply _ | by apply preserves_token_request |].
  intros res. preserving.
Qed.

Lemma preserves_token_is_valid ctx : preserves token_only (token_is_valid P ctx).
Proof. unfold token_is_valid. preserving. Qed.

Lemma preserves_get_access_token_idp c :
  preserves token_only (_get_access_token_idp P c).
Proof.
  unfold _get_access_token_idp.
  apply preserves_bind; [apply _ | preserving |]. intros u.
  apply preserves_bind; [apply _ | preserving |]. intros p.
  destruct (negb _); [preserving|]. by apply preserves_exchange.
Qed.

Lemma preserves_get_access_token c : preserves token_only (get_access_token P c).
Proof.
  unfold get_access_token.
  apply preserves_bind; [apply _ | preserving |]. intros ctx.
  apply preserves_bind; [apply _ | apply preserves_token_is_valid |].
  intros [|]; [preserving|].
  destruct (is_set _); [apply preserves_get_access_token_idp|].
  destruct (ctx !! "refresh_token"); [|preserving].
  by apply preserves_exchange.
Qed.

Lemma preserves_authorize c : preserves token_only (authorize P c).
Proof.
  unfold authorize.
  apply preserves_bind; [apply _ | apply preserves_get_access_token |].
  intros tok. preserving.
Qed.

Lemma preserves_on_exception {A} c e : preserves token_only (@on_exception P A c e).
Proof. unfold on_exception. preserving. Qed.

Lemma logs_token_only {A} (m : M (state P) A) :
  preserves token_only m -> logs (fun l => l = []) m.
Proof. intros H s. apply H. Qed.

Lemma logs_bind {A B} (Q1 Q2 Q : list request -> Prop)
      (m : M (state P) A) (k : A -> M (state P) B) :
  logs Q1 m -> (forall x, logs Q2 (k x)) ->
  (forall l, Q1 l -> Q l) ->
  (forall l1 l2, Q1 l1 -> Q2 l2 -> Q (l1 ++ l2)) ->
  logs Q (Py.bind m k).
Proof.
  intros Hm Hk Hfail Hok s. unfold Py.bind.
  destruct (Hm s) as (e1 & E1 & H1).
  destruct (m s) as [[x| | |] s1]; simpl in *; eauto.
  destruct (Hk x s1) as (e2 & E2 & H2).
  exists (e1 ++ e2). rewrite E2, E1, app_assoc, api_requests_app. eauto.
Qed.

Lemma logs_try_except {A} (Q1 Q2 Q : list request -> Prop)
      (m : M (state P) A) h :
  logs Q1 m -> (forall e, logs Q2 (h e)) ->
  (forall l, Q1 l -> Q l) ->
  (forall l1 l2, Q1 l1 -> Q2 l2 -> Q (l1 ++ l2)) ->
  logs Q (try_except m h).
Proof.
  intros Hm Hh Hpass Hcaught s. unfold try_except.
  destruct (Hm s) as (e1 & E1 & H1).
  destruct (m s) as [[x|e| |] s1]; simpl in *; eauto.
  destruct (Hh e s1) as (e2 & E2 & H2).
  exists (e1 ++ e2). rewrite E2, E1, app_assoc, api_requests_app. eauto.
Qed.

Lemma logs_api_request r :
  logs (fun l => l = [r]) (_http_request P by_http_request r).
Proof.
  intros s. unfold _http_request.
  destruct (transport P (_headers s) r (world s)) as [res w]. simpl.
  eexists. split; [reflexivity|]. reflexivity.
Qed.

Lemma logs_http_request fuel c a :
  logs (first_then_retries a) (http_request P fuel c a).
Proof.
  revert a. induction fuel as [|fuel IH]; intros a.
  - intros s. exists []. simpl. rewrite app_nil_r. split; [done | by left].
  - simpl.
    eapply logs_try_except
      with (Q1 := first_then_retries a) (Q2 := fun l => l = []);
      [ | intros e; apply logs_token_only, preserves_on_exception
        | auto | intros l1 l2 H ->; by rewrite app_nil_r ].
    eapply logs_bind with (Q1 := fun l => l = []);
      [ destruct (use_oauth c);
        [ apply logs_token_only, preserves_authorize
        | apply logs_token_only, preserves_ret, _ ]
      | intros _ | intros l ->; by left | intros l1 l2 -> H; exact H ].
    eapply logs_bind
      with (Q2 := fun l => exists n, l = replicate n (api_request (retry_call a)));
      [ apply logs_api_request | intros res
      | intros l ->; right; by exists 0
      | intros l1 l2 -> [n ->]; right; by exists n ].
    assert (Hquiet : forall A (m : M (state P) A),
               preserves token_only m ->
               logs (fun l => exists n, l = replicate n (api_request (retry_call a))) m).
    { intros A m Hm s. destruct (Hm s) as (e & E & H). exists e.
      split; [done|]. exists 0. by rewrite H. }
    destruct (bool_decide (status_code res ∈ _)).
    { apply Hquiet. preserving. }
    destruct (bool_decide (status_code res = _)); [|apply Hquiet; preserving].
    destruct (use_oauth c); [|apply Hquiet; preserving].
    eapply logs_bind with (Q1 := fun l => l = []);
      [ apply logs_token_only; preserving | intros ctx
      | intros l ->; by exists 0 | intros l1 l2 -> H; exact H ].
    eapply logs_bind with (Q1 := fun l => l = []);
      [ apply logs_token_only; preserving | intros t
      | intros l ->; by exists 0 | intros l1 l2 -> H; exact H ].
    eapply logs_bind with (Q1 := fun l => l = []);
      [ apply logs_token_only; preserving | intros expiry
      | intros l ->; by exists 0 | intros l1 l2 -> H; exact H ].
    destruct (expiry <=? t)%Z; [|apply Hquiet; preserving].
    eapply logs_bind with (Q1 := fun l => l = []);
      [ apply logs_token_only, preserves_authorize | intros _
      | intros l ->; by exists 0 | intros l1 l2 -> H; exact H ].
    intros s. destruct (IH (retry_call a) s) as (e & E & [H|[n H]]).
    + exists e. split; [done|]. exists 0. by rewrite H.
    + exists e. split; [done|]. exists (S n). by rewrite H.
Qed.

End Log.

(** C10.  Whatever the server answers, the requests [http_request] issues
    after the first one all carry the method, the URL suffix, the full URL
    and the query parameters of the call and nothing else: no headers,
    json_data, data, files, auth or timeout, and return_empty_response
    at its default. *)
Theorem retry_carries_only_method_url_and_params
        (P : platform) (fuel : nat) (c : client) (a : call) (s : state P) :
  (exists extra,
      sent (http_request P fuel c a s).2 = sent s ++ extra /\
      (api_requests extra = [] \/
       exists n,
         api_requests extra
         = api_request a :: replicate n (api_request (retry_call a))))
  /\ (let r := api_request (retry_call a) in
      method r = c_method a /\ url_suffix r = c_url_suffix a /\
      full_url r = c_full_url a /\ params r = c_params a /\
      headers r = None /\ json_data r = None /\ data r = None /\
      files r = None /\ auth r = None /\ timeout r = None /\
      return_empty_response r = false).
Proof.
  split; [apply logs_http_request|]. simpl. repeat split.
Qed.

(** ** The 401 branch of http_request *)

Section Retry.
Variable P : platform.

Lemma msg_ssl_mentions_ssl :
  contains "SSL Certificate Verification Failed" msg_ssl = true.
Proof. reflexivity. Qed.

Lemma on_exception_state {A} c e (s : state P) :
  (@on_exception P A c e s).2 = s /\ is_ok (@on_exception P A c e s).1 = false.
Proof.
  unfold on_exception, return_error, Py.bind, raise, ret.
  destruct (_verify c && _); [destruct (server_handled P)|]; done.
Qed.

Lemma on_exception_plain {A} c e (s : state P) :
  _verify c = false ->
  @on_exception P A c e s = (Raise (Exn DemistoException (exn_arg0 e)), s).
Proof. intros H. unfold on_exception. by rewrite H. Qed.

Lemma on_exception_twice {A} c e (s : state P) :
  try_except (@on_exception P A c e) (on_exception P c) s = on_exception P c e s.
Proof.
  unfold try_except, on_exception, return_error, Py.bind, raise, ret.
  destruct (_verify c) eqn:V, (contains _ (exn_arg0 e)) eqn:C,
           (server_handled P) eqn:S;
    cbn [andb exn_arg0]; rewrite ?V, ?C, ?msg_ssl_mentions_ssl, ?S;
    cbn [andb exn_arg0]; rewrite ?V, ?C, ?msg_ssl_mentions_ssl, ?S; try done.
Qed.

Lemma authorize_log c (s s1 : state P) u :
  authorize P c s = (u, s1) -> token_only P s s1.
Proof. intros H. pose proof (preserves_authorize P c s) as H'. by rewrite H in H'. Qed.

Lemma api_request_log r (s s1 : state P) res :
  _http_request P by_http_request r s = (res, s1) ->
  sent s1 = sent s ++ [(by_http_request, r, res)]
  /\ integration_context s1 = integration_context s.
Proof.
  unfold _http_request. destruct (transport P _ r _) as [o w].
  intros [= <- <-]. done.
Qed.

Lemma now_log (s s1 : state P) t :
  now P s = (t, s1) ->
  sent s1 = sent s /\ integration_context s1 = integration_context s.
Proof.
  unfold now. destruct (date_to_timestamp_now P _) as [t' w]. by intros [= <- <-].
Qed.

(** One pass through [http_request] that ends at the 401 branch. *)
Lemma http_request_401_step fuel c a (s0 s1 s2 s3 : state P) res t expiry :
  use_oauth c = true ->
  authorize P c s0 = (Ok tt, s1) ->
  _http_request P by_http_request (api_request a) s1 = (Ok res, s2) ->
  status_code res = 401%Z ->
  now P s2 = (Ok t, s3) ->
  dict_get_or (integration_context s2) "expiry_time" (VInt 0) = VInt expiry ->
  http_request P (S fuel) c a s0
  = try_except
      (if (expiry <=? t)%Z
       then authorize P c >> http_request P fuel c (retry_call a)
       else raise DemistoException (msg_unauthorized P res))
      (on_exception P c) s3.
Proof.
  intros Hoauth Hauth Hreq Hstatus Hnow Hexp.
  simpl. unfold try_except. rewrite Hoauth.
  rewrite (bind_ok _ _ _ _ _ Hauth), (bind_ok _ _ _ _ _ Hreq), Hstatus.
  change (bool_decide (401%Z ∈ [200%Z; 201%Z])) with false.
  change (bool_decide (401%Z = 401%Z)) with true. cbv iota.
  unfold get_integration_context.
  rewrite bind_gets, (bind_ok _ _ _ _ _ Hnow).
  rewrite Hexp. unfold as_int. rewrite bind_ret. done.
Qed.

Lemma try_unauthorized c res (s : state P) :
  exists o : outcome (option (gmap string pyval)),
    try_except (raise DemistoException (msg_unauthorized P res))
               (on_exception P c) s = (o, s)
    /\ is_ok o = false
    /\ (_verify c = false ->
        o = Raise (Exn DemistoException (msg_unauthorized P res))).
Proof.
  unfold try_except, raise.
  pose proof (on_exception_state (A := option (gmap string pyval)) c
                (Exn DemistoException (msg_unauthorized P res)) s) as [Hs Hf].
  destruct (on_exception P c _ s) as [o s'] eqn:E. simpl in *. subst s'.
  exists o. repeat split; [done|]. intros V.
  rewrite on_exception_plain in E by done. by inversion E.
Qed.

(** C1, as the code has it.  A call in OAuth mode was answered 401.  If
    the stored expiry_time (0 when absent) is later than the clock, the
    error is raised at once: no token is requested and nothing is
    retried.  Otherwise a token is obtained through get_access_token and
    the request is issued again; when that request is answered 401 too
    and the expiry_time now stored is later than the clock, the error is
    raised, after exactly two requests. *)
Theorem http_request_retries_only_an_expired_token
        (fuel : nat) (c : client) (a : call) (s0 s1 s2 s3 : state P)
        (res : response) (t expiry : Z) :
  use_oauth c = true ->
  authorize P c s0 = (Ok tt, s1) ->
  _http_request P by_http_request (api_request a) s1 = (Ok res, s2) ->
  status_code res = 401%Z ->
  now P s2 = (Ok t, s3) ->
  dict_get_or (integration_context s2) "expiry_time" (VInt 0) = VInt expiry ->
  ((t < expiry)%Z ->
   exists o,
     http_request P (S fuel) c a s0 = (o, s3)
     /\ is_ok o = false
     /\ (_verify c = false ->
         o = Raise (Exn DemistoException (msg_unauthorized P res)))
     /\ integration_context s3 = integration_context s1
     /\ sent s3 = sent s1 ++ [(by_http_request, api_request a, Ok res)]
     /\ exists extra,
         sent s3 = sent s0 ++ extra /\ api_requests extra = [api_request a])
  /\
  ((expiry <= t)%Z ->
   forall (s4 s5 s6 s7 : state P) (res' : response) (t' expiry' : Z),
     authorize P c s3 = (Ok tt, s4) ->
     authorize P c s4 = (Ok tt, s5) ->
     _http_request P by_http_request (api_request (retry_call a)) s5
     = (Ok res', s6) ->
     status_code res' = 401%Z ->
     now P s6 = (Ok t', s7) ->
     dict_get_or (integration_context s6) "expiry_time" (VInt 0) = VInt expiry' ->
     (t' < expiry')%Z ->
     exists o,
       http_request P (S (S fuel)) c a s0 = (o, s7)
       /\ is_ok o = false
       /\ (_verify c = false ->
           o = Raise (Exn DemistoException (msg_unauthorized P res')))
       /\ exists extra,
           sent s7 = sent s0 ++ extra
           /\ api_requests extra
              = [api_request a; api_request (retry_call a)]).
Proof.
  intros Hoauth Hauth Hreq Hstatus Hnow Hexp.
  destruct (authorize_log _ _ _ _ Hauth) as (e1 & E1 & A1).
  destruct (api_request_log _ _ _ _ Hreq) as [E2 C2].
  destruct (now_log _ _ _ Hnow) as [E3 C3].
  split.
  - intros Hlt.
    rewrite (http_request_401_step fuel c a s0 s1 s2 s3 res t expiry) by done.
    apply Z.leb_gt in Hlt. rewrite Hlt.
    destruct (try_unauthorized c res s3) as (o & -> & Hf & Hplain).
    exists o. repeat split; try done.
    + by rewrite C3, C2.
    + by rewrite E3, E2.
    + eexists. rewrite E3, E2, E1, <- app_assoc. split; [done|].
      rewrite api_requests_app, A1. reflexivity.
  - intros Hle s4 s5 s6 s7 res' t' expiry' Hauth3 Hauth4 Hreq' Hstatus' Hnow' Hexp' Hlt'.
    rewrite (http_request_401_step (S fuel) c a s0 s1 s2 s3 res t expiry) by done.
    apply Z.leb_le in Hle. rewrite Hle.
    unfold try_except at 1. rewrite (bind_ok _ _ _ _ _ Hauth3).
    rewrite (http_request_401_step fuel c (retry_call a) s4 s5 s6 s7 res' t' expiry')
      by done.
    apply Z.leb_gt in Hlt'. rewrite Hlt'.
    destruct (authorize_log _ _ _ _ Hauth3) as (e3 & E4 & A3).
    destruct (authorize_log _ _ _ _ Hauth4) as (e4 & E5 & A4).
    destruct (api_request_log _ _ _ _ Hreq') as [E6 C6].
    destruct (now_log _ _ _ Hnow') as [E7 C7].
    pose proof (on_exception_twice (A := option (gmap string pyval)) c
                  (Exn DemistoException (msg_unauthorized P res')) s7) as Htwice.
    destruct (try_unauthorized c res' s7) as (o & Ho & Hf & Hplain).
    exists o. split; [|repeat split; try done].
    + unfold try_except at 1 in Ho. unfold raise in Ho.
      unfold try_except at 1. unfold raise at 1.
      unfold try_except in Htwice. rewrite Ho in Htwice.
      rewrite Ho. destruct o; try done.
    + eexists. rewrite E7, E6, E5, E4, E3, E2, E1, <- !app_assoc.
      split; [done|].
      rewrite !api_requests_app, A1, A3, A4. reflexivity.
Qed.
End Retry.

(** ** The token exchange *)

Section Tokens.
Variable P : platform.

Local Abbreviation quiet := (ServiceNowSpec.quiet P).
Local Abbreviation error_reply_fails := (ServiceNowSpec.error_reply_fails P).

#[local] Instance quiet_preorder : PreOrder quiet.
Proof.
  split.
  - by intros s.
  - intros s1 s2 s3 (?&?&?&?) (?&?&?&?). repeat split; congruence.
Qed.

Lemma quiet_now : preserves quiet (now P).
Proof. intros s. unfold now. by destruct (date_to_timestamp_now P (world s)). Qed.

Lemma quiet_token_is_valid ctx : preserves quiet (token_is_valid P ctx).
Proof.
  unfold token_is_valid.
  destruct (ctx !! "access_token"); [|apply preserves_ret, _].
  destruct (ctx !! "expiry_time"); [|apply preserves_raise, _].
  apply preserves_bind; [apply _ | apply quiet_now | intros t].
  apply preserves_bind; [apply _ | | intros e; apply preserves_ret, _].
  unfold as_int. destruct p0; (apply preserves_ret, _ || apply preserves_raise, _).
Qed.

Lemma token_is_valid_quiet ctx (s s1 : state P) o :
  token_is_valid P ctx s = (o, s1) -> quiet s s1.
Proof. intros H. pose proof (quiet_token_is_valid ctx s) as H'. by rewrite H in H'. Qed.

Lemma token_request_log o r (s s1 : state P) reply :
  _http_request P o r s = (reply, s1) ->
  sent s1 = sent s ++ [(o, r, reply)]
  /\ integration_context s1 = integration_context s.
Proof.
  unfold _http_request. destruct (transport P _ r _) as [x w]. by intros [= <- <-].
Qed.

Lemma msg_token_error_payload j : ends_with (msg_token_error P j) (str_dict P j).
Proof. unfold msg_token_error. do 4 apply ends_with_app. apply ends_with_refl. Qed.

(** The exchange when the response carries an [error] field. *)
Lemma exchange_error o r keep (s s1 : state P) res j :
  _http_request P o r s = (Ok res, s1) ->
  json res = Some j ->
  dict_has j "error" = true ->
  exists out,
    exchange P o r keep s = (out, s1)
    /\ is_ok out = false
    /\ exists msg, failure_message out = Some msg /\ ends_with msg (str_dict P j).
Proof.
  intros Hreq Hjson Herr. unfold exchange, try_except.
  rewrite (bind_ok _ _ _ _ _ Hreq). unfold parsed_json. rewrite Hjson, bind_ret, Herr.
  unfold return_error. destruct (server_handled P).
  - rewrite bind_fail. eexists. split; [reflexivity|]. split; [done|].
    eexists. split; [reflexivity|]. simpl. unfold msg_token_failed. simpl.
    do 3 apply ends_with_app. apply msg_token_error_payload.
  - unfold Py.bind. eexists. split; [reflexivity|]. split; [done|].
    eexists. split; [reflexivity|]. apply msg_token_error_payload.
Qed.

(** The exchange when the response carries an access token. *)
Lemma exchange_success o r keep (s s1 s2 : state P) res j T e :
  _http_request P o r s = (Ok res, s1) ->
  json res = Some j ->
  dict_has j "error" = false ->
  dict_has j "access_token" = true ->
  now P s1 = (Ok T, s2) ->
  dict_get_or j "expires_in" (VInt 0) = VInt e ->
  exchange P o r keep s
  = (Ok (dict_get j "access_token"),
     with_context P
       (if keep then
          {[ "access_token" := dict_get j "access_token";
             "refresh_token" := dict_get j "refresh_token";
             "expiry_time" := VInt (T + (e * 1000 - 10)) ]}
        else
          {[ "access_token" := dict_get j "access_token";
             "expiry_time" := VInt (T + (e * 1000 - 10)) ]}) s2).
Proof.
  intros Hreq Hjson Herr Htok Hnow Hexp. unfold exchange, try_except.
  rewrite (bind_ok _ _ _ _ _ Hreq). unfold parsed_json.
  rewrite Hjson, bind_ret, Herr, bind_ret, Htok.
  rewrite (bind_ok _ _ _ _ _ Hnow), Hexp. unfold as_int. rewrite bind_ret.
  reflexivity.
Qed.

(** Every run of the exchange logs its one request, and fails without
    writing when the reply carries an [error] field. *)
Lemma exchange_log o r keep (s : state P) :
  exists reply,
    sent (exchange P o r keep s).2 = sent s ++ [(o, r, reply)]
    /\ forall res j,
        reply = Ok res -> json res = Some j -> dict_has j "error" = true ->
        is_ok (exchange P o r keep s).1 = false
        /\ (exists msg, failure_message (exchange P o r keep s).1 = Some msg
                        /\ ends_with msg (str_dict P j))
        /\ integration_context (exchange P o r keep s).2 = integration_context s.
Proof.
  destruct (_http_request P o r s) as [reply s1] eqn:Hreq.
  destruct (token_request_log _ _ _ _ _ Hreq) as [Hlog Hctx].
  exists reply. split.
  - rewrite <- Hlog. clear Hlog Hctx.
    unfold exchange, try_except, Py.bind. rewrite Hreq.
    unfold parsed_json, return_error, as_int, now, set_integration_context,
      modify, with_context, ret, raise.
    repeat (case_match; simplify_eq/=); done.
  - intros res j -> Hjson Herr.
    destruct (exchange_error o r keep s s1 res j Hreq Hjson Herr)
      as (out & -> & Hf & Hmsg).
    done.
Qed.

(** *** get_access_token *)

Lemma get_access_token_cached c (s s1 : state P) :
  token_is_valid P (integration_context s) s = (Ok true, s1) ->
  get_access_token P c s = (Ok (dict_get (integration_context s) "access_token"), s1).
Proof.
  intros Hv. unfold get_access_token, get_integration_context.
  by rewrite bind_gets, (bind_ok _ _ _ _ _ Hv).
Qed.

Lemma get_access_token_refresh c (s s1 s2 s3 : state P) rt res j T e :
  token_is_valid P (integration_context s) s = (Ok false, s1) ->
  is_set (authentication_url c) = false ->
  integration_context s !! "refresh_token" = Some rt ->
  _http_request P by_get_access_token (refresh_request c rt) s1 = (Ok res, s2) ->
  json res = Some j ->
  dict_has j "error" = false ->
  dict_has j "access_token" = true ->
  now P s2 = (Ok T, s3) ->
  dict_get_or j "expires_in" (VInt 0) = VInt e ->
  get_access_token P c s
  = (Ok (dict_get j "access_token"),
     with_context P
       {[ "access_token" := dict_get j "access_token";
          "refresh_token" := dict_get j "refresh_token";
          "expiry_time" := VInt (T + (e * 1000 - 10)) ]} s3).
Proof.
  intros Hv Hurl Hrt Hreq Hjson Herr Htok Hnow Hexp.
  unfold get_access_token, get_integration_context.
  rewrite bind_gets, (bind_ok _ _ _ _ _ Hv), Hurl, Hrt.
  by rewrite (exchange_success _ _ true s1 s2 s3 res j T e).
Qed.

Lemma get_access_token_idp_grant c (s s1 s2 s3 : state P) u p res j T e :
  token_is_valid P (integration_context s) s = (Ok false, s1) ->
  is_set (authentication_url c) = true ->
  authentication_username s = Some u ->
  authentication_password s = Some p ->
  is_set (Some u) && is_set (Some p) = true ->
  _http_request P by_get_access_token_idp (idp_request c u p) s1 = (Ok res, s2) ->
  json res = Some j ->
  dict_has j "error" = false ->
  dict_has j "access_token" = true ->
  now P s2 = (Ok T, s3) ->
  dict_get_or j "expires_in" (VInt 0) = VInt e ->
  get_access_token P c s
  = (Ok (dict_get j "access_token"),
     with_context P
       {[ "access_token" := dict_get j "access_token";
          "expiry_time" := VInt (T + (e * 1000 - 10)) ]} s3).
Proof.
  intros Hv Hurl Hu Hp Hset Hreq Hjson Herr Htok Hnow Hexp.
  destruct (token_is_valid_quiet _ _ _ _ Hv) as (_ & _ & Hu1 & Hp1).
  unfold get_access_token, get_integration_context.
  rewrite bind_gets, (bind_ok _ _ _ _ _ Hv), Hurl.
  unfold _get_access_token_idp. rewrite !bind_gets, Hu1, Hp1, Hu, Hp, Hset.
  change (negb true) with false. cbv iota.
  change (default "" (Some u)) with u. change (default "" (Some p)) with p.
  by rewrite (exchange_success _ _ false s1 s2 s3 res j T e).
Qed.

Lemma get_access_token_not_logged_in c (s s1 : state P) :
  token_is_valid P (integration_context s) s = (Ok false, s1) ->
  (is_set (authentication_url c) = false
   /\ integration_context s !! "refresh_token" = None)
  \/ (is_set (authentication_url c) = true
      /\ is_set (authentication_username s)
         && is_set (authentication_password s) = false) ->
  get_access_token P c s = (Raise (Exn Exception msg_not_logged_in), s1).
Proof.
  intros Hv Hcase.
  destruct (token_is_valid_quiet _ _ _ _ Hv) as (_ & _ & Hu1 & Hp1).
  unfold get_access_token, get_integration_context.
  rewrite bind_gets, (bind_ok _ _ _ _ _ Hv).
  destruct Hcase as [[-> ->]|[-> Hunset]]; [done|].
  unfold _get_access_token_idp. by rewrite !bind_gets, Hu1, Hp1, Hunset.
Qed.

(** *** Replies that carry an [error] field *)

Lemma error_reply_fails_quiet {A} (run : outcome A * state P) s :
  sent run.2 = sent s -> error_reply_fails run s.
Proof.
  intros Hlog extra Hextra. rewrite Hlog in Hextra.
  rewrite <- (app_nil_r (sent s)) in Hextra at 1.
  apply app_inv_head in Hextra as <-. intros ? ? ? ? H. by apply elem_of_nil in H.
Qed.

Lemma error_reply_fails_exchange o r keep (s s1 : state P) :
  quiet s s1 -> error_reply_fails (exchange P o r keep s1) s.
Proof.
  intros (Hlog & Hctx & _) extra Hextra o' rq res j Hin Ho Hjson Herr.
  destruct (exchange_log o r keep s1) as (reply & Hsent & Hfail).
  rewrite Hsent, Hlog in Hextra. apply app_inv_head in Hextra as <-.
  apply list_elem_of_singleton in Hin as [= -> -> <-].
  rewrite <- Hctx. by eapply Hfail.
Qed.

Lemma get_access_token_error_reply c (s : state P) :
  error_reply_fails (get_access_token P c s) s.
Proof.
  unfold get_access_token, get_integration_context. rewrite bind_gets.
  destruct (token_is_valid P (integration_context s) s) as [ov s1] eqn:Hv.
  pose proof (token_is_valid_quiet _ _ _ _ Hv) as Hq.
  unfold Py.bind at 1. rewrite Hv.
  destruct ov as [[|]| | |];
    try (apply error_reply_fails_quiet; simpl; apply Hq).
  destruct (is_set (authentication_url c)).
  - unfold _get_access_token_idp. rewrite !bind_gets.
    destruct (negb _).
    + apply error_reply_fails_quiet. simpl. apply Hq.
    + by apply error_reply_fails_exchange.
  - destruct (integration_context s !! "refresh_token").
    + by apply error_reply_fails_exchange.
    + apply error_reply_fails_quiet. simpl. apply Hq.
Qed.

Lemma login_error_reply c u p (s : state P) :
  error_reply_fails (login P c u p s) s.
Proof.
  unfold login. destruct (is_set (authentication_url c)).
  - set (s' := State P (integration_context s) (_headers s) (Some u) (Some p)
                     (world s) (sent s)).
    change (error_reply_fails
              ((get_access_token P c >> ret tt) s') s).
    pose proof (get_access_token_error_reply c s') as H.
    unfold Py.bind, ret.
    destruct (get_access_token P c s') as [[tok| | |] s2]; exact H.
  - intros extra Hextra o rq res j Hin Ho Hjson Herr.
    revert Hextra.
    unfold try_except, Py.bind, _http_request, parsed_json, return_error,
      set_integration_context, modify, with_context, ret, raise.
    destruct (transport P _ _ _) as [reply w] eqn:Ht. simpl.
    assert (Hpay : forall front, ends_with (front +:+ nl +:+ str_dict P j) (str_dict P j)).
    { intros front. do 2 apply ends_with_app. apply ends_with_refl. }
    repeat (case_match; simplify_eq/=);
      intros Hextra; apply app_inv_head in Hextra as <-;
      apply list_elem_of_singleton in Hin; simplify_eq/=;
      try congruence;
      (repeat split; [eexists; split; [reflexivity|]]).
    all: repeat (apply ends_with_app); apply ends_with_refl.
Qed.
End Tokens.

End ServiceNowFacts.

(** * The Webex event collector *)

Module WebexFacts.
Import Webex WebexSpec PyFacts.

(** ** Pagination *)

Section Pagination.
Variable P : platform.
Variable client_function : client_function P.
Variable from_date : pyval.
Variable limit : Z.

Local Abbreviation page_run := (WebexSpec.page_run P client_function from_date limit).
Local Abbreviation returned_events := (WebexSpec.returned_events P client_function).
Local Abbreviation served := (WebexSpec.served P client_function from_date limit).

Lemma last_page_cons r r' pages : last_page r (r' :: pages) = last_page r' pages.
Proof.
  unfold last_page. rewrite last_cons. by destruct (last pages).
Qed.

Lemma response_items_ok r (s : state P) :
  is_Some (json r) -> response_items P r s = (Ok (page_items r), s).
Proof. intros [items H]. unfold response_items, page_items. by rewrite H. Qed.

Lemma continue_true r (events : list (gmap string pyval)) :
  truthy (next_link r) = true -> (Z.of_nat (length events) < limit)%Z ->
  truthy (next_link r) && (Z.of_nat (length events) <? limit)%Z = true.
Proof. intros -> H. by apply Z.ltb_lt in H as ->. Qed.

Lemma continue_false r (events : list (gmap string pyval)) :
  truthy (next_link r) = false \/ (limit <= Z.of_nat (length events))%Z ->
  truthy (next_link r) && (Z.of_nat (length events) <? limit)%Z = false.
Proof.
  intros [->|H]; [done|]. apply Z.ltb_ge in H as ->. apply andb_false_r.
Qed.

Lemma paginate_complete events r s pages s' :
  page_run events r s pages s' ->
  forall fuel, length pages <= fuel ->
    paginate P fuel client_function from_date limit events r s
    = (Ok (events ++ concat (page_items <$> pages),
           next_link (last_page r pages)), s').
Proof.
  induction 1 as [events r s Hstop
                 |events r s r' s1 pages s' Hlink Hcount Hcall Hjson Hrun IH];
    intros fuel Hfuel.
  - destruct fuel; simpl; rewrite continue_false by done;
      by rewrite app_nil_r.
  - destruct fuel as [|fuel]; [simpl in Hfuel; lia|].
    simpl. rewrite continue_true by done.
    rewrite (bind_ok _ _ _ _ _ Hcall).
    rewrite (bind_ok _ _ _ _ _ (response_items_ok r' s1 Hjson)).
    rewrite IH by (simpl in Hfuel; lia).
    by rewrite last_page_cons, <- app_assoc.
Qed.

Lemma paginate_sound fuel : forall events r s evs cursor s',
  paginate P fuel client_function from_date limit events r s
  = (Ok (evs, cursor), s') ->
  exists pages,
    length pages <= fuel
    /\ page_run events r s pages s'
    /\ evs = events ++ concat (page_items <$> pages)
    /\ cursor = next_link (last_page r pages).
Proof.
  induction fuel as [|fuel IH]; intros events r s evs cursor s'; simpl.
  - destruct (truthy (next_link r) && _) eqn:Hc; [done|].
    intros [= <- <- <-]. exists []. rewrite app_nil_r.
    split; [done|]. split; [|done]. constructor.
    apply andb_false_iff in Hc as [?|?%Z.ltb_ge]; auto.
  - destruct (truthy (next_link r) && _) eqn:Hc.
    + apply andb_true_iff in Hc as [Hlink Hcount%Z.ltb_lt].
      unfold Py.bind at 1.
      destruct (apply client_function from_date limit (next_link r) s)
        as [[r'| | |] s1] eqn:Hcall; try done.
      unfold response_items at 1.
      destruct (json r') as [items|] eqn:Hjson; [|done].
      rewrite bind_ret. intros Hrest.
      assert (Hitems : default [] items = page_items r')
        by (unfold page_items; by rewrite Hjson).
      rewrite Hitems in Hrest.
      apply IH in Hrest as (pages & Hlen & Hrun & -> & ->).
      exists (r' :: pages). rewrite last_page_cons. simpl.
      rewrite <- app_assoc.
      split; [lia|]. split; [|done]. econstructor; eauto.
    + intros [= <- <- <-]. exists []. rewrite app_nil_r.
      split; [simpl; lia|]. split; [|done]. constructor.
      apply andb_false_iff in Hc as [?|?%Z.ltb_ge]; auto.
Qed.

(** When the run stops, the last page has no next-link or the limit is
    reached. *)
Lemma page_run_stopped events r s pages s' :
  page_run events r s pages s' ->
  truthy (next_link (last_page r pages)) = false
  \/ (limit <= Z.of_nat (length (events ++ concat (page_items <$> pages))))%Z.
Proof.
  induction 1 as [events r s Hstop|events r s r' s1 pages s' _ _ _ _ _ IH].
  - simpl. by rewrite app_nil_r.
  - rewrite last_page_cons. simpl. by rewrite app_assoc.
Qed.

Lemma length_add_fields events ty :
  length (add_fields_to_events events ty) = length events.
Proof. unfold add_fields_to_events. apply length_fmap. Qed.

Lemma pagination_returns fuel next_url s first rest s' :
  served fuel next_url s first rest s' ->
  get_events_with_pagination P fuel client_function from_date limit next_url s
  = (Ok (returned_events first rest, returned_cursor first rest), s').
Proof.
  intros (s0 & Hcall & Hjson & Hlen & Hrun).
  unfold get_events_with_pagination.
  rewrite (bind_ok _ _ _ _ _ Hcall).
  rewrite (bind_ok _ _ _ _ _ (response_items_ok first s0 Hjson)).
  by rewrite (bind_ok _ _ _ _ _ (paginate_complete _ _ _ _ _ Hrun fuel Hlen)).
Qed.

Lemma pagination_pages fuel next_url s events cursor s' :
  get_events_with_pagination P fuel client_function from_date limit next_url s
  = (Ok (events, cursor), s') ->
  exists first rest,
    served fuel next_url s first rest s'
    /\ events = returned_events first rest
    /\ cursor = returned_cursor first rest.
Proof.
  unfold get_events_with_pagination. unfold Py.bind at 1.
  destruct (apply client_function from_date limit next_url s)
    as [[first| | |] s0] eqn:Hcall; try done.
  unfold response_items at 1.
  destruct (json first) as [items|] eqn:Hjson; [|done].
  rewrite bind_ret. unfold Py.bind at 1.
  destruct (paginate P fuel client_function from_date limit _ first s0)
    as [[[evs c]| | |] s1] eqn:Hpag; try done.
  intros [= <- <- <-].
  assert (Hitems : default [] items = page_items first)
    by (unfold page_items; by rewrite Hjson).
  rewrite Hitems in Hpag.
  apply paginate_sound in Hpag as (pages & Hlen & Hrun & -> & ->).
  exists first, pages. split; [|done]. exists s0. by rewrite Hjson.
Qed.

Lemma served_stopped fuel next_url s first rest s' :
  served fuel next_url s first rest s' ->
  truthy (returned_cursor first rest) = true ->
  (limit <= Z.of_nat (length (returned_events first rest)))%Z.
Proof.
  intros (s0 & _ & _ & _ & Hrun) Hc.
  unfold WebexSpec.returned_events. rewrite length_add_fields.
  destruct (page_run_stopped _ _ _ _ _ Hrun) as [Hno|Hlim]; [|done].
  unfold returned_cursor in Hc. congruence.
Qed.

(** C2.  The paginated fetch returns events and a cursor exactly when
    the listing served a first page and then the pages of a
    [page_run]: a further page is requested while the last one has a
    next-link and fewer than [limit] events are gathered, and only
    then.  The events are the items of those pages in page order, each
    with its two added fields; the cursor is the next-link of the last
    page requested, so it is non-empty only if the limit stopped the
    fetch. *)
Theorem get_events_with_pagination_pages
        (fuel : nat) (next_url : pyval) (s s' : state P)
        (events : list (gmap string pyval)) (cursor : pyval) :
  get_events_with_pagination P fuel client_function from_date limit next_url s
  = (Ok (events, cursor), s')
  <->
  exists first rest s0,
    apply client_function from_date limit next_url s = (Ok first, s0)
    /\ is_Some (json first)
    /\ length rest <= fuel
    /\ page_run (page_items first) first s0 rest s'
    /\ events
       = add_fields_to_events
           (concat (page_items <$> first :: rest))
           (COMMAND_FUNCTION_TO_EVENT_TYPE !! __name__ client_function)
    /\ cursor = next_link (last_page first rest)
    /\ (truthy cursor = true -> (limit <= Z.of_nat (length events))%Z).
Proof.
  split.
  - intros Hrun.
    destruct (pagination_pages _ _ _ _ _ _ Hrun)
      as (first & rest & Hserved & -> & ->).
    pose proof (served_stopped _ _ _ _ _ _ Hserved) as Hstop.
    destruct Hserved as (s0 & ? & ? & ? & ?).
    by exists first, rest, s0.
  - intros (first & rest & s0 & Hcall & Hjson & Hlen & Hrun & -> & -> & _).
    apply pagination_returns. by exists s0.
Qed.

End Pagination.

(** ** The fetch cycle *)

Section Cycle.
Variable P : platform.
Variable fuel : nat.
Variable max_fetch : Z.

Local Abbreviation fetched := (WebexSpec.fetched P).
Local Abbreviation event_type := (WebexSpec.event_type P).
Local Abbreviation listing := (WebexSpec.listing P).
Local Abbreviation events_of := (WebexSpec.events_of P).
Local Abbreviation cursor_of := (WebexSpec.cursor_of P).
Local Abbreviation cycle := (WebexSpec.cycle P fuel max_fetch).
Local Abbreviation timestamped := (WebexSpec.timestamped P).
Local Abbreviation advanced := (WebexSpec.advanced P).

Lemma demisto_get_lookup (lr lr' : gmap string (gmap string pyval)) et k d :
  lr !! et = lr' !! et -> demisto_get lr et k d = demisto_get lr' et k d.
Proof. unfold demisto_get. by intros ->. Qed.

Lemma fetch_event_type_run et cf all lr cp (s s1 : state P) first rest :
  lr !! et = Some cp ->
  served P cf (demisto_get lr et "since_datetime" VNone) max_fetch
         fuel (demisto_get lr et "next_url" (VStr "")) s first rest s1 ->
  timestamped (returned_events P cf first rest) ->
  exists cp',
    fetch_event_type P fuel max_fetch et cf (all, lr) s
    = (Ok (all ++ returned_events P cf first rest, <[et := cp']> lr), s1)
    /\ advanced cp (returned_events P cf first rest)
                (returned_cursor first rest) cp'.
Proof.
  intros Hcp Hserved Hts. unfold fetch_event_type.
  rewrite (bind_ok _ _ _ _ _ (pagination_returns P cf _ _ _ _ _ _ _ _ Hserved)).
  rewrite Hcp. unfold WebexSpec.advanced, WebexSpec.timestamped in *.
  destruct (returned_events P cf first rest) as [|e events] eqn:Hev.
  - eexists. rewrite app_nil_r. split; [reflexivity|]. simpl.
    split; [by rewrite lookup_insert_eq|]. by rewrite lookup_insert_ne.
  - unfold increase_datetime_for_next_fetch.
    destruct (last (e :: events)) as [l|] eqn:Hl; [|by apply last_None in Hl].
    destruct Hts as (created & t & Hc & Hp).
    unfold parser_parse. rewrite Hc, Hp.
    eexists. split; [reflexivity|]. split.
    + rewrite lookup_insert_ne by done. by rewrite lookup_insert_eq.
    + exists created, t. by rewrite lookup_insert_eq.
Qed.

Lemma fetch_event_types_run lr0 todo (s s' : state P) results :
  cycle lr0 todo s results s' ->
  NoDup todo.*1 ->
  Forall (fun f => is_Some (lr0 !! event_type f) /\ timestamped (events_of f))
         results ->
  forall all lr,
    (forall et, et ∈ todo.*1 -> lr !! et = lr0 !! et) ->
    exists lr',
      fetch_event_types P fuel max_fetch todo (all, lr) s
      = (Ok (all ++ concat (events_of <$> results), lr'), s')
      /\ (forall et, et ∉ todo.*1 -> lr' !! et = lr !! et)
      /\ Forall (fun f =>
                   exists cp cp',
                     lr0 !! event_type f = Some cp
                     /\ lr' !! event_type f = Some cp'
                     /\ advanced cp (events_of f) (cursor_of f) cp')
                results.
Proof.
  induction 1 as [s|et cf todo s first rest s1 results s' Hserved Hcycle IH];
    intros Hnodup Hres all lr Hsame.
  - exists lr. simpl. rewrite app_nil_r. by repeat split.
  - simpl in Hnodup. apply NoDup_cons in Hnodup as [Hfresh Hnodup].
    apply Forall_cons in Hres as [[[cp Hcp] Hts] Hres].
    simpl in Hcp, Hts.
    assert (Hlr : lr !! et = Some cp).
    { rewrite Hsame; [done|]. simpl. by left. }
    assert (Hserved' :
              served P cf (demisto_get lr et "since_datetime" VNone) max_fetch
                     fuel (demisto_get lr et "next_url" (VStr "")) s first rest s1).
    { rewrite !(demisto_get_lookup lr lr0) by (by rewrite Hlr, Hcp). done. }
    destruct (fetch_event_type_run et cf all lr cp s s1 first rest Hlr Hserved' Hts)
      as (cp' & Hstep & Hadv).
    destruct (IH Hnodup Hres (all ++ returned_events P cf first rest)
                 (<[et := cp']> lr)) as (lr' & Hrun & Hother & Hall).
    { intros et' Hin. rewrite lookup_insert_ne; [|by intros ->].
      apply Hsame. simpl. by right. }
    exists lr'. split; [|split].
    + simpl. rewrite (bind_ok _ _ _ _ _ Hstep), Hrun. by rewrite <- app_assoc.
    + intros et' Hnot. simpl in Hnot. apply not_elem_of_cons in Hnot as [Hne Hnot].
      rewrite Hother by done. by rewrite lookup_insert_ne.
    + constructor; [|done]. exists cp, cp'. simpl. split; [done|]. split; [|done].
      rewrite Hother by done. by rewrite lookup_insert_eq.
Qed.


End Cycle.

(** ** A cycle that breaks off *)

Section Failure.
Variable P : platform.
Variable fuel : nat.
Variable max_fetch : Z.

Local Abbreviation cycle := (WebexSpec.cycle P fuel max_fetch).
Local Abbreviation cycle_fails := (WebexSpec.cycle_fails P fuel max_fetch).
Local Abbreviation events_of := (WebexSpec.events_of P).

Lemma no_page_fails {A} cf from_date limit next_url (s : state P)
      (k : list (gmap string pyval) -> response -> M (state P) A) :
  no_page P cf from_date limit next_url s ->
  is_ok ((let* response := apply cf from_date limit next_url in
          let* items := response_items P response in
          k items response) s).1 = false.
Proof.
  unfold no_page, Py.bind.
  destruct (apply cf from_date limit next_url s) as [[r| | |] s1]; try done.
  simpl. intros Hjson. unfold response_items. by rewrite Hjson.
Qed.

Lemma paginate_fails cf from_date limit events r (s : state P) :
  page_run_fails P cf from_date limit events r s ->
  forall n, is_ok (paginate P n cf from_date limit events r s).1 = false.
Proof.
  induction 1 as [events r s Hlink Hcount Hno
                 |events r s r' s1 Hlink Hcount Hcall Hjson _ IH];
    intros [|n]; simpl; rewrite continue_true by done;
    try done.
  - by apply (no_page_fails cf from_date limit (next_link r) s
                (fun items response =>
                   paginate P n cf from_date limit (events ++ items) response)).
  - rewrite (bind_ok _ _ _ _ _ Hcall).
    rewrite (bind_ok _ _ _ _ _ (response_items_ok P r' s1 Hjson)). apply IH.
Qed.

Lemma pagination_fails_run cf from_date limit next_url (s : state P) n :
  pagination_fails P cf from_date limit next_url s ->
  is_ok (get_events_with_pagination P n cf from_date limit next_url s).1 = false.
Proof.
  intros [Hno|(first & s0 & Hcall & Hjson & Hrun)]; unfold get_events_with_pagination.
  - by apply (no_page_fails cf from_date limit next_url s
                (fun items response =>
                   let* '(events, next_url) :=
                     paginate P n cf from_date limit items response in
                   ret (add_fields_to_events events
                          (COMMAND_FUNCTION_TO_EVENT_TYPE !! __name__ cf),
                        next_url))).
  - rewrite (bind_ok _ _ _ _ _ Hcall).
    rewrite (bind_ok _ _ _ _ _ (response_items_ok P first s0 Hjson)).
    pose proof (paginate_fails _ _ _ _ _ _ Hrun n) as Hf.
    unfold Py.bind.
    by destruct (paginate P n cf from_date limit (page_items first) first s0)
      as [[[evs c]| | |] s1].
Qed.

Lemma increase_datetime_state events (s s' : state P) o :
  increase_datetime_for_next_fetch P events s = (o, s') -> s' = s.
Proof.
  unfold increase_datetime_for_next_fetch, parser_parse, Py.bind, ret, raise.
  intros H. repeat (case_match; simplify_eq/=); done.
Qed.

Lemma fetch_event_type_step et cf all lr (s s1 : state P) first rest :
  served P cf (demisto_get lr et "since_datetime" VNone) max_fetch
         fuel (demisto_get lr et "next_url" (VStr "")) s first rest s1 ->
  is_ok (fetch_event_type P fuel max_fetch et cf (all, lr) s).1 = false
  \/ exists all' cp',
      fetch_event_type P fuel max_fetch et cf (all, lr) s
      = (Ok (all', <[et := cp']> lr), s1).
Proof.
  intros Hserved. unfold fetch_event_type.
  rewrite (bind_ok _ _ _ _ _ (pagination_returns P cf _ _ _ _ _ _ _ _ Hserved)).
  destruct (lr !! et) as [cp|]; [|by left].
  destruct (returned_events P cf first rest) as [|e events]; [right; by eexists _, _|].
  unfold Py.bind.
  destruct (increase_datetime_for_next_fetch P (e :: events) s1)
    as [[since| | |] s2] eqn:Hinc; try (by left).
  right. eexists _, _.
  by rewrite (increase_datetime_state _ _ _ _ Hinc).
Qed.

Lemma fetch_event_types_fail lr0 todo (s : state P) :
  cycle_fails lr0 todo s ->
  NoDup todo.*1 ->
  forall all lr,
    (forall et, et ∈ todo.*1 -> lr !! et = lr0 !! et) ->
    is_ok (fetch_event_types P fuel max_fetch todo (all, lr) s).1 = false.
Proof.
  induction 1 as [et cf todo s Hfails|et cf todo s first rest s1 Hserved _ IH];
    intros Hnodup all lr Hsame; simpl in Hnodup;
    apply NoDup_cons in Hnodup as [Hfresh Hnodup];
    assert (Hlr : lr !! et = lr0 !! et) by (apply Hsame; simpl; by left);
    cbn [fetch_event_types].
  - apply bind_fails. unfold fetch_event_type.
    rewrite !(demisto_get_lookup lr lr0) by done.
    apply bind_fails. by apply pagination_fails_run.
  - rewrite <- !(demisto_get_lookup lr lr0) in Hserved by done.
    destruct (fetch_event_type_step et cf all lr s s1 first rest Hserved)
      as [Hf|(all' & cp' & Hstep)].
    + by apply bind_fails.
    + rewrite (bind_ok _ _ _ _ _ Hstep). apply IH; [done|].
      intros et' Hin. rewrite lookup_insert_ne; [|by intros ->].
      apply Hsame. simpl. by right.
Qed.

Lemma fetch_event_types_sound lr0 todo :
  NoDup todo.*1 ->
  forall all lr (s : state P) all' lr' s',
    (forall et, et ∈ todo.*1 -> lr !! et = lr0 !! et) ->
    fetch_event_types P fuel max_fetch todo (all, lr) s = (Ok (all', lr'), s') ->
    exists results,
      cycle lr0 todo s results s'
      /\ all' = all ++ concat (events_of <$> results).
Proof.
  induction todo as [|[et cf] todo IH]; intros Hnodup all lr s all' lr' s' Hsame;
    cbn [fetch_event_types].
  - intros [= <- <- <-]. exists []. split; [constructor|]. by rewrite app_nil_r.
  - simpl in Hnodup. apply NoDup_cons in Hnodup as [Hfresh Hnodup].
    assert (Hlr : lr !! et = lr0 !! et) by (apply Hsame; simpl; by left).
    unfold Py.bind at 1.
    destruct (fetch_event_type P fuel max_fetch et cf (all, lr) s)
      as [[[all1 lr1]| | |] s1] eqn:Hstep; try done.
    intros Hrest. unfold fetch_event_type in Hstep.
    unfold Py.bind at 1 in Hstep.
    destruct (get_events_with_pagination P fuel cf _ max_fetch _ s)
      as [[[evs c]| | |] s0] eqn:Hpag; try done.
    apply pagination_pages in Hpag as (first & rest & Hserved & -> & ->).
    rewrite !(demisto_get_lookup lr lr0) in Hserved by done.
    destruct (lr !! et) as [cp|]; [|done].
    assert (Hacc : all1 = all ++ returned_events P cf first rest
                   /\ s1 = s0 /\ exists cp', lr1 = <[et := cp']> lr).
    { destruct (returned_events P cf first rest) as [|e events].
      - injection Hstep as <- <- <-. rewrite app_nil_r.
        exact (conj eq_refl (conj eq_refl (ex_intro _ _ eq_refl))).
      - unfold Py.bind at 1 in Hstep.
        destruct (increase_datetime_for_next_fetch P (e :: events) s0)
          as [[since| | |] s2] eqn:Hinc; try done.
        apply increase_datetime_state in Hinc as ->.
        injection Hstep as <- <- <-.
        exact (conj eq_refl (conj eq_refl (ex_intro _ _ eq_refl))). }
    destruct Hacc as (-> & -> & cp' & ->).
    apply IH in Hrest as (results & Hcycle & ->); [|done|].
    + exists (Fetched P et cf first rest :: results). split.
      * by econstructor.
      * simpl. by rewrite <- app_assoc.
    + intros et' Hin. rewrite lookup_insert_ne; [|by intros ->].
      apply Hsame. simpl. by right.
Qed.

Lemma listings_nodup admin co :
  NoDup (event_type_to_client_function P admin co).*1.
Proof. apply (bool_decide_unpack _). vm_compute. exact I. Qed.

End Failure.

(** ** What main persists *)

Section Persist.
Variable P : platform.

Local Abbreviation unpersisted := (WebexSpec.unpersisted P).
Local Abbreviation tame := (WebexSpec.tame P).

#[local] Instance unpersisted_preorder : PreOrder unpersisted.
Proof.
  split.
  - intros s. split; [done|]. exists []. by rewrite app_nil_r.
  - intros s1 s2 s3 (H1 & e1 & T1 & F1) (H2 & e2 & T2 & F2). split; [congruence|].
    exists (e1 ++ e2). rewrite T2, T1, app_assoc. split; [done|].
    by apply Forall_app.
Qed.

Lemma unpersisted_with_world (s : state P) w new :
  Forall (fun e => forall lr, e <> SetLastRun lr) new ->
  unpersisted s (with_world P s w new).
Proof. intros H. split; [done|]. by exists new. Qed.

Lemma unpersisted_utcnow : preserves unpersisted (datetime_utcnow P).
Proof.
  intros s. unfold datetime_utcnow. destruct (utcnow P (world s)).
  by apply unpersisted_with_world.
Qed.

Lemma unpersisted_http_json c r : preserves unpersisted (_http_request_json P c r).
Proof.
  intros s. unfold _http_request_json. destruct (transport_json P _ r _).
  apply unpersisted_with_world. by repeat constructor.
Qed.

Lemma unpersisted_http c r : preserves unpersisted (_http_request P c r).
Proof.
  intros s. unfold _http_request. destruct (transport_response P _ r _).
  apply unpersisted_with_world. by repeat constructor.
Qed.

Lemma unpersisted_send events v p :
  preserves unpersisted (send_events_to_xsiam P events v p).
Proof.
  intros s. unfold send_events_to_xsiam. destruct (xsiam P events v p _) as [o w].
  apply unpersisted_with_world. destruct (is_ok o); by repeat constructor.
Qed.

Lemma unpersisted_return_error {A} msg : preserves unpersisted (@return_error P A msg).
Proof.
  unfold return_error. destruct (server_handled P).
  - apply preserves_raise, _.
  - intros s. reflexivity.
Qed.

Lemma unpersisted_set_context ctx : preserves unpersisted (set_integration_context P ctx).
Proof. intros s. split; [done|]. exists []. by rewrite app_nil_r. Qed.

Ltac unpersisting :=
  repeat first
    [ apply preserves_ret; apply _
    | apply preserves_raise; apply _
    | apply preserves_out_of_fuel; apply _
    | apply preserves_gets; apply _
    | apply unpersisted_utcnow
    | apply unpersisted_http_json
    | apply unpersisted_http
    | apply unpersisted_return_error
    | apply unpersisted_set_context
    | apply preserves_bind; [apply _ | | intros ?]
    | apply preserves_try_except; [apply _ | | intros ?]
    | match goal with
      | |- preserves _ (if ?b then _ else _) => destruct b
      | |- preserves _ (match ?x with _ => _ end) => destruct x
      | |- preserves _ (let '(_, _) := ?x in _) => destruct x
      end
    | progress unfold get_integration_context, getLastRun, parser_parse,
        timedelta_seconds, datetime_add, create_access_token, create_last_run,
        increase_datetime_for_next_fetch, response_items ].

Lemma unpersisted_save_tokens c result :
  preserves unpersisted (save_tokens_to_integration_context P c result).
Proof. unfold save_tokens_to_integration_context. unpersisting. Qed.

Lemma unpersisted_get_access_token c : preserves unpersisted (get_access_token P c).
Proof.
  pose proof unpersisted_save_tokens as Hsave.
  unfold get_access_token. unpersisting; apply Hsave.
Qed.

Lemma unpersisted_init_headers c : preserves unpersisted (init_headers P c).
Proof.
  unfold init_headers.
  apply preserves_bind; [apply _ | apply unpersisted_get_access_token | intros ?].
  unpersisting.
Qed.

Lemma unpersisted_get_listing c suffix fk tk org cap from_date limit next_url :
  preserves unpersisted
            (get_listing P c suffix fk tk org cap from_date limit next_url).
Proof. unfold get_listing. unpersisting. Qed.

Lemma unpersisted_paginate fuel cf from_date limit :
  tame cf ->
  forall events r,
    preserves unpersisted (paginate P fuel cf from_date limit events r).
Proof.
  intros Hcf. induction fuel as [|fuel IH]; intros events r; simpl.
  - unpersisting.
  - destruct (truthy _ && _); [|unpersisting].
    apply preserves_bind; [apply _ | apply Hcf | intros r'].
    apply preserves_bind; [apply _ | unpersisting | intros items]. apply IH.
Qed.

Lemma unpersisted_pagination fuel cf from_date limit next_url :
  tame cf ->
  preserves unpersisted
            (get_events_with_pagination P fuel cf from_date limit next_url).
Proof.
  intros Hcf. unfold get_events_with_pagination.
  apply preserves_bind; [apply _ | apply Hcf | intros r].
  apply preserves_bind; [apply _ | unpersisting | intros items].
  apply preserves_bind; [apply _ | by apply unpersisted_paginate | intros [evs c]].
  unpersisting.
Qed.

Lemma unpersisted_fetch_event_type fuel max_fetch et cf acc :
  tame cf ->
  preserves unpersisted (fetch_event_type P fuel max_fetch et cf acc).
Proof.
  intros Hcf. unfold fetch_event_type. destruct acc as [all lr].
  apply preserves_bind;
    [apply _ | by apply unpersisted_pagination | intros [evs c]].
  unpersisting.
Qed.

Lemma unpersisted_fetch_event_types fuel max_fetch todo :
  Forall (fun step => tame step.2) todo ->
  forall acc, preserves unpersisted (fetch_event_types P fuel max_fetch todo acc).
Proof.
  induction 1 as [|[et cf] todo Hcf _ IH]; intros acc; simpl; [unpersisting|].
  apply preserves_bind;
    [apply _ | by apply unpersisted_fetch_event_type | intros acc'; apply IH].
Qed.

Lemma unpersisted_fetch_events fuel admin co lr max_fetch :
  preserves unpersisted (fetch_events P fuel admin co lr max_fetch).
Proof.
  unfold fetch_events.
  apply preserves_bind; [apply _ | unpersisting | intros lr0].
  apply unpersisted_fetch_event_types.
  unfold event_type_to_client_function.
  repeat (apply Forall_cons; split; [intros ? ? ?; apply unpersisted_get_listing|]).
  apply Forall_nil_2.
Qed.

Lemma run_unpersisted {A} (m : M (state P) A) (s s' : state P) o :
  preserves unpersisted m -> m s = (o, s') -> unpersisted s s'.
Proof. intros H E. specialize (H s). by rewrite E in H. Qed.

Lemma send_delivered events v p (s s' : state P) :
  send_events_to_xsiam P events v p s = (Ok tt, s') ->
  last_run_store s' = last_run_store s
  /\ trace s' = trace s ++ [Delivered events v p].
Proof.
  unfold send_events_to_xsiam. destruct (xsiam P events v p _) as [o w].
  intros [= -> <-]. done.
Qed.

Lemma return_error_fails {A} msg (s : state P) :
  (@return_error P A msg s).2 = s /\ is_ok (@return_error P A msg s).1 = false.
Proof. unfold return_error. by destruct (server_handled P). Qed.

(** The two ways a run of [main] ends: it failed and nothing was
    persisted, or it delivered the events and then persisted the last
    run, as its last step. *)
Lemma main_cases fuel params arg (s : state P) :
  exists o sf,
    main P fuel params arg s = (o, sf)
    /\ ((is_ok o = false /\ unpersisted s sf)
        \/ (exists s1 events next_run,
              unpersisted s s1
              /\ o = Ok tt
              /\ last_run_store sf = next_run
              /\ trace sf
                 = trace s1 ++ [Delivered events VENDOR PRODUCT;
                                SetLastRun next_run])).
Proof.
  unfold main, try_except.
  assert (Hfail : forall msg (s0 s' : state P),
             unpersisted s0 s' ->
             exists (o : outcome unit) sf,
               return_error P msg s' = (o, sf)
               /\ ((is_ok o = false /\ unpersisted s0 sf)
                   \/ (exists s1 events next_run,
                         unpersisted s0 s1
                         /\ o = Ok tt
                         /\ last_run_store sf = next_run
                         /\ trace sf
                            = trace s1 ++ [Delivered events VENDOR PRODUCT;
                                           SetLastRun next_run]))).
  { intros msg s0 s' H.
    destruct (return_error_fails (A := unit) msg s') as [Hs Hf].
    destruct (return_error P msg s') as [o sf]. simpl in *. subst sf.
    exists o, s'. split; [done|]. by left. }
  assert (Hstop : forall (o : outcome unit) (s' : state P),
             is_ok o = false -> unpersisted s s' ->
             exists o' sf,
               (o, s') = (o', sf)
               /\ ((is_ok o' = false /\ unpersisted s sf)
                   \/ (exists s1 events next_run,
                         unpersisted s s1
                         /\ o' = Ok tt
                         /\ last_run_store sf = next_run
                         /\ trace sf
                            = trace s1 ++ [Delivered events VENDOR PRODUCT;
                                           SetLastRun next_run]))).
  { intros o s' Ho Hs. exists o, s'. split; [done|]. by left. }
  unfold Py.bind at 1.
  destruct (AdminClient P _ _ _ _ _ s) as [o1 s1] eqn:E1.
  pose proof (run_unpersisted _ _ _ _ (unpersisted_init_headers _) E1) as U1.
  destruct o1 as [admin|e| |];
    [|by apply Hfail|by apply Hstop|by apply Hstop].
  unfold Py.bind at 1.
  destruct (ComplianceOfficerClient P _ _ _ _ s1) as [o2 s2] eqn:E2.
  pose proof (run_unpersisted _ _ _ _ (unpersisted_init_headers _) E2) as U2.
  assert (U02 : unpersisted s s2) by (etrans; eauto).
  destruct o2 as [co|e| |];
    [|by apply Hfail|by apply Hstop|by apply Hstop].
  unfold getLastRun. rewrite bind_gets. unfold Py.bind at 1.
  destruct (fetch_events P fuel admin co _ _ s2) as [o3 s3] eqn:E3.
  pose proof (run_unpersisted _ _ _ _ (unpersisted_fetch_events _ _ _ _ _) E3) as U3.
  assert (U03 : unpersisted s s3) by (etrans; eauto).
  destruct o3 as [[events next_run]|e| |];
    [|by apply Hfail|by apply Hstop|by apply Hstop].
  unfold Py.bind at 1.
  destruct (send_events_to_xsiam P events VENDOR PRODUCT s3) as [o4 s4] eqn:E4.
  pose proof (run_unpersisted _ _ _ _ (unpersisted_send _ _ _) E4) as U4.
  assert (U04 : unpersisted s s4) by (etrans; eauto).
  destruct o4 as [[]|e| |];
    [|by apply Hfail|by apply Hstop|by apply Hstop].
  eexists _, _. split; [reflexivity|]. right. exists s3, events, next_run.
  destruct (send_delivered _ _ _ _ _ E4) as [_ Htrace].
  simpl. rewrite Htrace, <- app_assoc. done.
Qed.

(** A run of [main] that fails, wherever it fails, leaves the stored
    last run as it was and never calls setLastRun; setLastRun is called
    only by a run that succeeds, as its last step, right after the events
    were delivered. *)
Lemma setLastRun_follows_delivery
        (fuel : nat) (params : demisto_params) (max_fetch_arg : option Z)
        (s : state P) :
  let r := main P fuel params max_fetch_arg s in
  exists extra,
    trace r.2 = trace s ++ extra
    /\ (is_ok r.1 = false ->
        last_run_store r.2 = last_run_store s
        /\ forall lr, SetLastRun lr ∉ extra)
    /\ (forall lr,
          SetLastRun lr ∈ extra ->
          r.1 = Ok tt
          /\ last_run_store r.2 = lr
          /\ exists before events,
              extra = before ++ [Delivered events VENDOR PRODUCT; SetLastRun lr]
              /\ forall lr', SetLastRun lr' ∉ before)
    /\ (is_ok r.1 = true -> exists lr, SetLastRun lr ∈ extra).
Proof.
  intros r. subst r.
  destruct (main_cases fuel params max_fetch_arg s)
    as (o & sf & -> &
        [[Hfail (Hstore & extra & Htrace & Hnone)]
        |(s1 & events & next_run & (Hstore & before & Htrace & Hnone)
          & Hok & Hnext & Hlast)]); simpl.
  - exists extra. split; [done|].
    assert (Hnot : forall lr, SetLastRun lr ∉ extra).
    { intros lr Hin. rewrite Forall_forall in Hnone. by eapply Hnone. }
    split; [done|]. split.
    + intros lr Hin. by apply Hnot in Hin.
    + intros Hok. congruence.
  - assert (Hnot : forall lr, SetLastRun lr ∉ before).
    { intros lr Hin. rewrite Forall_forall in Hnone. by eapply Hnone. }
    exists (before ++ [Delivered events VENDOR PRODUCT; SetLastRun next_run]).
    split; [by rewrite Hlast, Htrace, <- app_assoc|].
    split; [rewrite Hok; done|]. split.
    + intros lr Hin. apply elem_of_app in Hin as [Hin|Hin]; [by apply Hnot in Hin|].
      apply elem_of_cons in Hin as [Hin|Hin]; [done|].
      apply list_elem_of_singleton in Hin as [= ->].
      repeat split; try done. by exists before, events.
    + intros _. exists next_run. apply elem_of_app. right.
      apply elem_of_cons. right. by apply list_elem_of_singleton.
Qed.

Lemma report_fails {A} (m : M (state P) A) (msg : exn -> string) (s : state P) :
  is_ok (m s).1 = false ->
  is_ok (try_except m (fun e => return_error P (msg e)) s).1 = false.
Proof.
  unfold try_except. destruct (m s) as [[a|e| |] s'] eqn:E; try done.
  intros _. apply return_error_fails.
Qed.

(** What is left of [main] once both clients are built. *)
Lemma main_with_clients fuel params arg (s s1 s2 : state P) admin co :
  AdminClient P (admin_identifier params) (admin_password params)
              (admin_app_redirect_uri params)
              (Some "audit:events_read spark:kms") (admin_org_id params) s
  = (Ok admin, s1) ->
  ComplianceOfficerClient
    P (compliance_officer_identifier params)
    (compliance_officer_password params)
    (compliance_officer_redirect_uri params)
    (Some "spark-compliance:events_read spark:kms") s1
  = (Ok co, s2) ->
  last_run_store s2 = last_run_store s
  /\ main P fuel params arg s
     = try_except
         (let* '(events, next_run) :=
            fetch_events P fuel admin co (last_run_store s) (max_fetch_of arg) in
          send_events_to_xsiam P events VENDOR PRODUCT >>
          setLastRun P next_run)
         (fun e =>
            return_error
              P ("Failed to execute fetch-events command." +:+ nl +:+ "Error:"
                 +:+ nl +:+ str_exn e)) s2.
Proof.
  intros Ha Hco.
  destruct (run_unpersisted _ _ _ _ (unpersisted_init_headers _) Ha) as [U1 _].
  destruct (run_unpersisted _ _ _ _ (unpersisted_init_headers _) Hco) as [U2 _].
  assert (U : last_run_store s2 = last_run_store s) by congruence.
  split; [done|].
  unfold main, try_except.
  rewrite (bind_ok _ _ _ _ _ Ha), (bind_ok _ _ _ _ _ Hco).
  unfold getLastRun. by rewrite bind_gets, U.
Qed.

(** C7.  A run of [main] on fetch-events that fails, wherever it
    fails, leaves the stored last run as it was and never calls
    setLastRun; setLastRun is called only by a run that succeeds, as its
    last step, right after the events were delivered.  And the run does
    fail whenever a step of the cycle does: when a client cannot be built
    (authentication), when a listing raises or the body of a response
    does not parse at any page of any event type, when [fetch_events]
    fails otherwise, and when the delivery fails.  When every step
    succeeds, what is persisted is the last run [fetch_events] returned,
    after a cycle that served every event type. *)
Theorem checkpoint_persisted_only_after_delivery
        (fuel : nat) (params : demisto_params) (max_fetch_arg : option Z)
        (s : state P) :
  let r := main P fuel params max_fetch_arg s in
  let max_fetch := max_fetch_of max_fetch_arg in
  let admin_client :=
    AdminClient P (admin_identifier params) (admin_password params)
                (admin_app_redirect_uri params)
                (Some "audit:events_read spark:kms") (admin_org_id params) in
  let co_client :=
    ComplianceOfficerClient
      P (compliance_officer_identifier params)
      (compliance_officer_password params)
      (compliance_officer_redirect_uri params)
      (Some "spark-compliance:events_read spark:kms") in
  let start : M (state P) (gmap string (gmap string pyval)) :=
    if bool_decide (last_run_store s = ∅) then create_last_run P
    else ret (last_run_store s) in
  (exists extra,
      trace r.2 = trace s ++ extra
      /\ (is_ok r.1 = false ->
          last_run_store r.2 = last_run_store s
          /\ forall lr, SetLastRun lr ∉ extra)
      /\ (forall lr,
            SetLastRun lr ∈ extra ->
            r.1 = Ok tt
            /\ last_run_store r.2 = lr
            /\ exists before events,
                extra = before ++ [Delivered events VENDOR PRODUCT; SetLastRun lr]
                /\ forall lr', SetLastRun lr' ∉ before)
      /\ (is_ok r.1 = true -> exists lr, SetLastRun lr ∈ extra))
  /\ (is_ok (admin_client s).1 = false -> is_ok r.1 = false)
  /\ (forall admin s1,
        admin_client s = (Ok admin, s1) ->
        (is_ok (co_client s1).1 = false -> is_ok r.1 = false)
        /\ forall co s2,
            co_client s1 = (Ok co, s2) ->
            (forall lr0 s3,
                start s2 = (Ok lr0, s3) ->
                cycle_fails P fuel max_fetch lr0
                            (event_type_to_client_function P admin co) s3 ->
                is_ok r.1 = false)
            /\ (is_ok (fetch_events P fuel admin co (last_run_store s) max_fetch s2).1
                = false ->
                is_ok r.1 = false)
            /\ forall events next_run s4,
                fetch_events P fuel admin co (last_run_store s) max_fetch s2
                = (Ok (events, next_run), s4) ->
                (is_ok (send_events_to_xsiam P events VENDOR PRODUCT s4).1 = false ->
                 is_ok r.1 = false)
                /\ forall s5,
                    send_events_to_xsiam P events VENDOR PRODUCT s4 = (Ok tt, s5) ->
                    r.1 = Ok tt
                    /\ last_run_store r.2 = next_run
                    /\ trace r.2
                       = trace s4 ++ [Delivered events VENDOR PRODUCT;
                                      SetLastRun next_run]
                    /\ exists lr0 s3 results,
                        start s2 = (Ok lr0, s3)
                        /\ cycle P fuel max_fetch lr0
                                 (event_type_to_client_function P admin co)
                                 s3 results s4
                        /\ events = concat (events_of P <$> results)).
Proof.
  intros r max_fetch admin_client co_client start.
  split; [apply setLastRun_follows_delivery|].
  split.
  { intros Hadmin. apply report_fails. by apply bind_fails. }
  intros admin s1 Ha. split.
  { intros Hco. apply report_fails. rewrite (bind_ok _ _ _ _ _ Ha).
    by apply bind_fails. }
  intros co s2 Hco.
  destruct (main_with_clients fuel params max_fetch_arg s s1 s2 admin co Ha Hco)
    as [U Hmain].
  subst r. rewrite Hmain. clear Hmain.
  assert (Hfetch : is_ok (fetch_events P fuel admin co (last_run_store s)
                                       max_fetch s2).1 = false ->
                   is_ok (try_except
                            (let* '(events, next_run) :=
                               fetch_events P fuel admin co (last_run_store s)
                                            max_fetch in
                             send_events_to_xsiam P events VENDOR PRODUCT >>
                             setLastRun P next_run)
                            (fun e =>
                               return_error
                                 P ("Failed to execute fetch-events command."
                                    +:+ nl +:+ "Error:" +:+ nl +:+ str_exn e))
                            s2).1 = false).
  { intros Hf. apply report_fails. by apply bind_fails. }
  split; [|split; [done|]].
  - intros lr0 s3 Hstart Hfails. apply Hfetch. unfold fetch_events.
    fold start. rewrite (bind_ok _ _ _ _ _ Hstart).
    apply fetch_event_types_fail with (lr0 := lr0); [done| |done].
    apply listings_nodup.
  - intros events next_run s4 Hrun. split.
    + intros Hsend. apply report_fails. rewrite (bind_ok _ _ _ _ _ Hrun).
      by apply bind_fails.
    + intros s5 Hsend. unfold try_except.
      rewrite (bind_ok _ _ _ _ _ Hrun), (bind_ok _ _ _ _ _ Hsend).
      destruct (send_delivered _ _ _ _ _ Hsend) as [_ Htrace].
      simpl. split; [done|]. split; [done|].
      split; [by rewrite Htrace, <- app_assoc|].
      unfold fetch_events in Hrun. fold start in Hrun.
      unfold Py.bind at 1 in Hrun.
      destruct (start s2) as [[lr0| | |] s3] eqn:Hstart; try done.
      apply (fetch_event_types_sound P fuel max_fetch lr0) in Hrun
        as (results & Hcycle & ->); [|apply listings_nodup|done].
      by exists lr0, s3, results.
Qed.

End Persist.

(** ** Checkpoints and tokens *)

Section Checkpoints.
Variable P : platform.
Variable fuel : nat.
Variable max_fetch : Z.

Local Abbreviation within_window := (WebexSpec.within_window P).
Local Abbreviation reads_back := (WebexSpec.reads_back P).


Lemma within_window_timestamped lr0 f :
  within_window lr0 f ->
  is_Some (lr0 !! event_type P f) /\ timestamped P (events_of P f).
Proof.
  intros (cp & since & T & Hcp & _ & _ & Hall). split; [by eexists|].
  unfold timestamped. destruct (last (events_of P f)) as [e|] eqn:Hl; [|done].
  apply last_Some_elem_of in Hl. rewrite Forall_forall in Hall.
  destruct (Hall _ Hl) as (created & t & ? & ? & _). by exists created, t.
Qed.

Lemma next_link_exhausted (r : response) :
  links r !! "next" = None -> next_link r = VStr "".
Proof. unfold next_link, demisto_get. by intros ->. Qed.

(** C9.  Provided every event returned was created at or after the
    since_datetime its fetch started from, a fetch cycle leaves the
    since_datetime of every event type at or after its former value;
    and next_url holds the next-link of the last page fetched, the empty
    string when that page has none. *)
Theorem fetch_events_checkpoints_monotone
        (admin_client co_client : client)
        (last_run lr0 : gmap string (gmap string pyval))
        (s s0 s' : state P) (results : list (fetched P)) :
  (if bool_decide (last_run = ∅) then create_last_run P else ret last_run) s
  = (Ok lr0, s0) ->
  cycle P fuel max_fetch lr0
        (event_type_to_client_function P admin_client co_client) s0 results s' ->
  Forall (fun f => within_window lr0 f /\ reads_back f) results ->
  exists lr',
    fetch_events P fuel admin_client co_client last_run max_fetch s
    = (Ok (concat (events_of P <$> results), lr'), s')
    /\ Forall (fun f =>
                 exists cp cp' since since' T T',
                   lr0 !! event_type P f = Some cp
                   /\ lr' !! event_type P f = Some cp'
                   /\ cp !! "since_datetime" = Some (VStr since)
                   /\ parse P since = Some T
                   /\ cp' !! "since_datetime" = Some (VStr since')
                   /\ parse P since' = Some T'
                   /\ (T <= T')%Z
                   /\ cp' !! "next_url"
                      = Some (next_link (last_page (first_page P f)
                                                   (more_pages P f)))
                   /\ (links (last_page (first_page P f) (more_pages P f))
                       !! "next" = None ->
                       cp' !! "next_url" = Some (VStr "")))
              results.
Proof.
  intros Hstart Hcycle Hres.
  assert (Hts : Forall (fun f => is_Some (lr0 !! event_type P f)
                                 /\ timestamped P (events_of P f)) results).
  { eapply Forall_impl; [exact Hres|]. intros f [Hw _].
    by apply within_window_timestamped. }
  destruct (fetch_event_types_run P fuel max_fetch lr0 _ s0 s' results Hcycle)
    with (all := @nil (gmap string pyval)) (lr := lr0)
    as (lr' & Hrun & _ & Hadv); [| done | done |].
  { apply (bool_decide_unpack _). by vm_compute. }
  exists lr'. split.
  { unfold fetch_events. by rewrite (bind_ok _ _ _ _ _ Hstart), Hrun. }
  assert (Hboth := proj2 (Forall_and _ _) (conj Hres Hadv)).
  eapply Forall_impl; [exact Hboth|]. clear.
  intros f [[(cp & since & T & Hcp & Hsince & HT & Hall) Hback]
              (cp0 & cp' & Hcp0 & Hcp' & Hnext & Hadv)].
  rewrite Hcp in Hcp0. injection Hcp0 as <-.
  unfold WebexSpec.reads_back in Hback.
  assert (Hcursor : cp' !! "next_url"
                    = Some (next_link (last_page (first_page P f)
                                                 (more_pages P f)))) by exact Hnext.
  destruct (last (events_of P f)) as [e|] eqn:Hl.
  - destruct Hadv as (created & t & Hc & Hp & Hnew).
    apply last_Some_elem_of in Hl. rewrite Forall_forall in Hall.
    destruct (Hall _ Hl) as (created' & t' & Hc' & Hp' & Hle).
    rewrite Hc in Hc'. injection Hc' as <-. rewrite Hp in Hp'. injection Hp' as <-.
    exists cp, cp', since, (date_time_to_iso_format P (t + 1000)), T,
           ((t + 1000) / 1000 * 1000)%Z.
    repeat split; try done.
    + by apply (Hback created t).
    + pose proof (Z.mod_pos_bound (t + 1000) 1000 ltac:(lia)).
      pose proof (Z.div_mod (t + 1000) 1000 ltac:(lia)). lia.
    + intros Hno. by rewrite Hcursor, next_link_exhausted.
  - exists cp, cp', since, since, T, T.
    repeat split; try done.
    + by rewrite Hadv.
    + intros Hno. by rewrite Hcursor, next_link_exhausted.
Qed.

End Checkpoints.

Section Tokens.
Variable P : platform.

Local Abbreviation token_record := (WebexSpec.token_record P).

Lemma utcnow_context (s s1 : state P) o :
  datetime_utcnow P s = (o, s1) ->
  integration_context s1 = integration_context s.
Proof.
  unfold datetime_utcnow. destruct (utcnow P (world s)). by intros [= <- <-].
Qed.

Lemma create_access_token_context c g code rt (s s1 : state P) o :
  create_access_token P c g code rt s = (o, s1) ->
  integration_context s1 = integration_context s.
Proof.
  unfold create_access_token, _http_request_json.
  destruct (transport_json P _ _ _). by intros [= <- <-].
Qed.

(** Nothing stored for the user: no error, the token is [None]. *)
Lemma webex_token_absent c (s : state P) :
  integration_context s !! user c = None ->
  get_access_token P c s = (Ok VNone, s).
Proof.
  intros H. unfold get_access_token, get_integration_context.
  by rewrite bind_gets, H.
Qed.

Lemma timedelta_seconds_run now n (s : state P) :
  in_calendar now n -> timedelta_seconds P (VInt n) s = (Ok (n * 1000000)%Z, s).
Proof.
  intros [Hdays _]. unfold timedelta_seconds.
  apply Z.leb_le in Hdays. by rewrite Hdays.
Qed.

Lemma datetime_add_run now n (s : state P) :
  in_calendar now n ->
  datetime_add P now (n * 1000000) s = (Ok (now + n * 1000000)%Z, s).
Proof.
  intros [_ [Hmin Hmax]]. unfold datetime_add.
  apply Z.leb_le in Hmin, Hmax. by rewrite Hmin, Hmax.
Qed.

Lemma save_tokens_run c result (s s1 : state P) now e re :
  datetime_utcnow P s = (Ok now, s1) ->
  dict_get_or result "expires_in" (VInt 0) = VInt e ->
  dict_get_or result "refresh_token_expires_in" (VInt 0) = VInt re ->
  in_calendar now e ->
  in_calendar now re ->
  save_tokens_to_integration_context P c result s
  = (Ok tt,
     with_context P
       (<[user c := token_record result now (e * 1000000) (re * 1000000)]>
          (integration_context s)) s1).
Proof.
  intros Hnow He Hre Hce Hcre. unfold save_tokens_to_integration_context.
  rewrite (bind_ok _ _ _ _ _ Hnow), He, Hre.
  rewrite (bind_ok _ _ _ _ _ (timedelta_seconds_run now e s1 Hce)).
  rewrite (bind_ok _ _ _ _ _ (datetime_add_run now e s1 Hce)).
  rewrite (bind_ok _ _ _ _ _ (timedelta_seconds_run now re s1 Hcre)).
  rewrite (bind_ok _ _ _ _ _ (datetime_add_run now re s1 Hcre)).
  unfold get_integration_context. rewrite bind_gets.
  by rewrite (utcnow_context _ _ _ Hnow).
Qed.

(** When the lifetime of the access token is one the calendar does not
    hold, nothing is stored. *)
Lemma save_tokens_overflow c result (s s1 : state P) now e :
  datetime_utcnow P s = (Ok now, s1) ->
  dict_get_or result "expires_in" (VInt 0) = VInt e ->
  ~ in_calendar now e ->
  exists msg,
    save_tokens_to_integration_context P c result s
    = (Raise (Exn OverflowError msg), s1).
Proof.
  intros Hnow He Hout. unfold save_tokens_to_integration_context.
  rewrite (bind_ok _ _ _ _ _ Hnow), He. unfold timedelta_seconds, datetime_add.
  destruct (Z.abs (e / 86400) <=? MAX_DELTA_DAYS)%Z eqn:Hdays;
    [|by eexists].
  rewrite bind_ret.
  destruct ((datetime_min <=? now + e * 1000000)%Z
            && (now + e * 1000000 <=? datetime_max)%Z) eqn:Hsum; [|by eexists].
  destruct Hout. apply andb_true_iff in Hsum as [Hmin Hmax].
  apply Z.leb_le in Hdays, Hmin, Hmax. by repeat split.
Qed.

(** The refresh of an expired access token. *)
Lemma webex_token_refresh c (s s1 s2 s3 s4 : state P) uic
      t1 t2 refresh_expiry access_expiry result now e re sr sa :
  integration_context s !! user c = Some uic ->
  uic <> ∅ ->
  datetime_utcnow P s = (Ok t1, s1) ->
  dict_get uic "refresh_token_expires_in" = VStr sr ->
  parse P sr = Some refresh_expiry ->
  (t1 <= refresh_expiry)%Z ->
  datetime_utcnow P s1 = (Ok t2, s2) ->
  dict_get uic "access_token_expires_in" = VStr sa ->
  parse P sa = Some access_expiry ->
  (access_expiry < t2)%Z ->
  create_access_token P c "refresh_token" VNone (dict_get uic "refresh_token") s2
  = (Ok result, s3) ->
  datetime_utcnow P s3 = (Ok now, s4) ->
  dict_get_or result "expires_in" (VInt 0) = VInt e ->
  dict_get_or result "refresh_token_expires_in" (VInt 0) = VInt re ->
  in_calendar now e ->
  in_calendar now re ->
  get_access_token P c s
  = (Ok (dict_get result "access_token"),
     with_context P
       (<[user c := token_record result now (e * 1000000) (re * 1000000)]>
          (integration_context s)) s4).
Proof.
  intros Huic Hne Ht1 Hsr Hre Hrle Ht2 Hsa Hae Halt Hcreate Hnow He Hr Hce Hcre.
  unfold get_access_token, get_integration_context.
  rewrite bind_gets, Huic, bool_decide_eq_false_2 by done.
  rewrite (bind_ok _ _ _ _ _ Ht1). unfold parser_parse.
  rewrite Hsr, Hre, bind_ret.
  apply Z.ltb_ge in Hrle. rewrite Hrle.
  rewrite (bind_ok _ _ _ _ _ Ht2), Hsa, Hae, bind_ret.
  apply Z.ltb_lt in Halt. rewrite Halt.
  rewrite (bind_ok _ _ _ _ _ Hcreate).
  rewrite (bind_ok _ _ _ _ _
             (save_tokens_run c result s3 s4 now e re Hnow He Hr Hce Hcre)).
  unfold ret.
  rewrite (create_access_token_context _ _ _ _ _ _ _ Hcreate).
  rewrite (utcnow_context _ _ _ Ht2), (utcnow_context _ _ _ Ht1). done.
Qed.

(** A failed [get_access_token] or [oauth_complete] wrote nothing. *)
Lemma webex_token_failure c (s : state P) :
  is_ok (get_access_token P c s).1 = false ->
  integration_context (get_access_token P c s).2 = integration_context s.
Proof.
  unfold get_access_token, get_integration_context, save_tokens_to_integration_context,
    create_access_token, _http_request_json, datetime_utcnow, parser_parse,
    timedelta_seconds, datetime_add, set_integration_context, modify,
    with_context, with_world, Py.bind, gets, ret, raise.
  repeat (case_match; simplify_eq/=); done.
Qed.

Lemma oauth_complete_failure c code (s : state P) :
  is_ok (oauth_complete P c code s).1 = false ->
  integration_context (oauth_complete P c code s).2 = integration_context s.
Proof.
  unfold oauth_complete, get_integration_context, save_tokens_to_integration_context,
    create_access_token, _http_request_json, datetime_utcnow, parser_parse,
    timedelta_seconds, datetime_add, set_integration_context, modify,
    with_context, with_world, Py.bind, gets, ret, raise.
  repeat (case_match; simplify_eq/=); done.
Qed.
End Tokens.

End WebexFacts.

(** * The tokens of both clients *)

Module TokenClaims.
Import ServiceNowSpec WebexSpec PyFacts ServiceNowFacts WebexFacts.

Module SN := ServiceNow.
Module WX := Webex.

Lemma assign_params_lookup kwargs k v :
  WX.assign_params kwargs !! k = Some v ->
  (k, v) ∈ kwargs /\ v <> VNone /\ v <> VStr "".
Proof.
  unfold WX.assign_params. intros H.
  apply elem_of_list_to_map_2 in H. apply list_elem_of_filter in H as [[? ?] ?].
  done.
Qed.

Lemma token_record_refresh P result now a r v :
  result !! "refresh_token" = None ->
  token_record P result now a r !! "refresh_token" = Some v -> False.
Proof.
  intros Hnone H. apply assign_params_lookup in H as (Hin & Hv & _).
  unfold dict_get in Hin. rewrite Hnone in Hin. simpl in Hin.
  repeat (apply elem_of_cons in Hin as [Hin|Hin]; [by simplify_eq|]).
  by apply elem_of_nil in Hin.
Qed.

Lemma token_record_access_expiry P result now a r :
  token_record P result now a r !! "access_token_expires_in"
  = Some (VStr (WX.date_time_to_iso_format P (now + a))).
Proof.
  unfold token_record, WX.assign_params.
  assert (Hne : WX.date_time_to_iso_format P (now + a) <> "").
  { unfold WX.date_time_to_iso_format. by destruct (WX.isoformat P (now + a)). }
  apply elem_of_list_to_map_1'.
  - intros v' Hin. apply list_elem_of_filter in Hin as [_ Hin].
    repeat (apply elem_of_cons in Hin as [Hin|Hin]; [by simplify_eq|]).
    by apply elem_of_nil in Hin.
  - apply list_elem_of_filter. split.
    + simpl. split; [done|]. intros [= H]. done.
    + apply elem_of_cons. right. apply elem_of_cons. by left.
Qed.

(** C4, as the code has it.  When get_access_token refreshes an expired
    access token, the new token replaces the stored record as a whole and
    the new access_token is returned; the record is built from the
    response alone, so a response without a refresh_token leaves no
    refresh token in store: [None] in the ServiceNow client, no entry in
    the Webex client.  The Webex client writes its expiry times as dates,
    so there the lifetimes the response names are ones the calendar
    holds. *)
Theorem refresh_overwrites_the_stored_record
        (PS : SN.platform) (PW : WX.platform) :
  (forall (c : SN.client) (s s1 s2 s3 : SN.state PS)
          (rt : pyval) (res : SN.response) (j : gmap string pyval) (T e : Z),
      SN.token_is_valid PS (SN.integration_context s) s = (Ok false, s1) ->
      SN.is_set (SN.authentication_url c) = false ->
      SN.integration_context s !! "refresh_token" = Some rt ->
      SN._http_request PS SN.by_get_access_token (SN.refresh_request c rt) s1
      = (Ok res, s2) ->
      SN.json res = Some j ->
      dict_has j "error" = false ->
      dict_has j "access_token" = true ->
      SN.now PS s2 = (Ok T, s3) ->
      dict_get_or j "expires_in" (VInt 0) = VInt e ->
      exists s',
        SN.get_access_token PS c s = (Ok (dict_get j "access_token"), s')
        /\ SN.integration_context s'
           = {[ "access_token" := dict_get j "access_token";
                "refresh_token" := dict_get j "refresh_token";
                "expiry_time" := VInt (T + (e * 1000 - 10)) ]}
        /\ (j !! "refresh_token" = None ->
            SN.integration_context s' !! "refresh_token" = Some VNone))
  /\
  (forall (c : WX.client) (s s1 s2 s3 s4 : WX.state PW)
          (uic result : gmap string pyval)
          (t1 t2 refresh_expiry access_expiry now e re : Z) (sr sa : string),
      WX.integration_context s !! WX.user c = Some uic ->
      uic <> ∅ ->
      WX.datetime_utcnow PW s = (Ok t1, s1) ->
      dict_get uic "refresh_token_expires_in" = VStr sr ->
      WX.parse PW sr = Some refresh_expiry ->
      (t1 <= refresh_expiry)%Z ->
      WX.datetime_utcnow PW s1 = (Ok t2, s2) ->
      dict_get uic "access_token_expires_in" = VStr sa ->
      WX.parse PW sa = Some access_expiry ->
      (access_expiry < t2)%Z ->
      WX.create_access_token PW c "refresh_token" VNone
                             (dict_get uic "refresh_token") s2
      = (Ok result, s3) ->
      WX.datetime_utcnow PW s3 = (Ok now, s4) ->
      dict_get_or result "expires_in" (VInt 0) = VInt e ->
      dict_get_or result "refresh_token_expires_in" (VInt 0) = VInt re ->
      in_calendar now e ->
      in_calendar now re ->
      exists s',
        WX.get_access_token PW c s = (Ok (dict_get result "access_token"), s')
        /\ WX.integration_context s'
           = <[WX.user c := token_record PW result now (e * 1000000)
                                         (re * 1000000)]>
               (WX.integration_context s)
        /\ (result !! "refresh_token" = None ->
            forall record,
              WX.integration_context s' !! WX.user c = Some record ->
              record !! "refresh_token" = None)).
Proof.
  split.
  - intros c s s1 s2 s3 rt res j T e Hv Hurl Hrt Hreq Hjson Herr Htok Hnow Hexp.
    eexists. split;
      [by apply (get_access_token_refresh PS c s s1 s2 s3 rt res j T e)|].
    split; [done|]. intros Hnone. simpl.
    unfold dict_get at 2. rewrite Hnone. simpl.
    rewrite lookup_insert_ne by done. by rewrite lookup_insert_eq.
  - intros c s s1 s2 s3 s4 uic result t1 t2 rexp aexp now e re sr sa
           Huic Hne Ht1 Hsr Hre Hrle Ht2 Hsa Hae Halt Hcreate Hnow He Hr Hce Hcre.
    eexists. split;
      [by apply (webex_token_refresh PW c s s1 s2 s3 s4 uic t1 t2
                   rexp aexp result now e re sr sa)|].
    split; [done|]. intros Hnone record. simpl.
    rewrite lookup_insert_eq. intros [= <-].
    apply eq_None_not_Some. intros [v Hv].
    by eapply token_record_refresh.
Qed.

(** C8, as the code has it.  The ServiceNow client stores an expiry_time
    ten milliseconds short of the clock reading plus expires_in, for the
    refresh grant and for the grant at an identity provider alike.  The
    Webex client subtracts nothing: it stores the clock reading plus
    expires_in, written at millisecond precision, when that is a date
    the calendar holds. *)
Theorem stored_expiry_margin (PS : SN.platform) (PW : WX.platform) :
  (forall (c : SN.client) (s s1 s2 s3 : SN.state PS)
          (rt : pyval) (res : SN.response) (j : gmap string pyval) (T e : Z),
      SN.token_is_valid PS (SN.integration_context s) s = (Ok false, s1) ->
      SN.is_set (SN.authentication_url c) = false ->
      SN.integration_context s !! "refresh_token" = Some rt ->
      SN._http_request PS SN.by_get_access_token (SN.refresh_request c rt) s1
      = (Ok res, s2) ->
      SN.json res = Some j ->
      dict_has j "error" = false ->
      dict_has j "access_token" = true ->
      SN.now PS s2 = (Ok T, s3) ->
      dict_get_or j "expires_in" (VInt 0) = VInt e ->
      exists s' stored,
        SN.get_access_token PS c s = (Ok (dict_get j "access_token"), s')
        /\ SN.integration_context s' !! "expiry_time" = Some (VInt stored)
        /\ stored = (T + e * 1000 - 10)%Z
        /\ (stored < T + e * 1000)%Z)
  /\
  (forall (c : SN.client) (s s1 s2 s3 : SN.state PS) (u p : string)
          (res : SN.response) (j : gmap string pyval) (T e : Z),
      SN.token_is_valid PS (SN.integration_context s) s = (Ok false, s1) ->
      SN.is_set (SN.authentication_url c) = true ->
      SN.authentication_username s = Some u ->
      SN.authentication_password s = Some p ->
      SN.is_set (Some u) && SN.is_set (Some p) = true ->
      SN._http_request PS SN.by_get_access_token_idp (SN.idp_request c u p) s1
      = (Ok res, s2) ->
      SN.json res = Some j ->
      dict_has j "error" = false ->
      dict_has j "access_token" = true ->
      SN.now PS s2 = (Ok T, s3) ->
      dict_get_or j "expires_in" (VInt 0) = VInt e ->
      exists s' stored,
        SN.get_access_token PS c s = (Ok (dict_get j "access_token"), s')
        /\ SN.integration_context s' !! "expiry_time" = Some (VInt stored)
        /\ stored = (T + e * 1000 - 10)%Z
        /\ (stored < T + e * 1000)%Z)
  /\
  (forall (c : WX.client) (result : gmap string pyval) (s s1 : WX.state PW)
          (now e re : Z),
      WX.datetime_utcnow PW s = (Ok now, s1) ->
      dict_get_or result "expires_in" (VInt 0) = VInt e ->
      dict_get_or result "refresh_token_expires_in" (VInt 0) = VInt re ->
      in_calendar now e ->
      in_calendar now re ->
      exists s' record,
        WX.save_tokens_to_integration_context PW c result s = (Ok tt, s')
        /\ WX.integration_context s' !! WX.user c = Some record
        /\ record !! "access_token_expires_in"
           = Some (VStr (WX.date_time_to_iso_format PW (now + e * 1000000)))).
Proof.
  split; [|split].
  - intros c s s1 s2 s3 rt res j T e Hv Hurl Hrt Hreq Hjson Herr Htok Hnow Hexp.
    eexists _, (T + (e * 1000 - 10))%Z. split;
      [by apply (get_access_token_refresh PS c s s1 s2 s3 rt res j T e)|].
    split; [|lia]. simpl.
    do 2 (rewrite lookup_insert_ne by done). by rewrite lookup_singleton_eq.
  - intros c s s1 s2 s3 u p res j T e Hv Hurl Hu Hp Hset Hreq Hjson Herr Htok
           Hnow Hexp.
    eexists _, (T + (e * 1000 - 10))%Z. split;
      [by apply (get_access_token_idp_grant PS c s s1 s2 s3 u p res j T e)|].
    split; [|lia]. simpl.
    rewrite lookup_insert_ne by done. by rewrite lookup_singleton_eq.
  - intros c result s s1 now e re Hnow He Hre Hce Hcre.
    eexists _, _. split; [by apply (save_tokens_run PW c result s s1 now e re)|].
    simpl. split; [by rewrite lookup_insert_eq|].
    apply token_record_access_expiry.
Qed.

(** C5, as the code has it.  In the ServiceNow client every reply to a
    token request, of get_access_token or of login, that carries an
    [error] field makes the call fail with a message ending in the
    reply's payload, and leaves the stored token as it was.  The Webex
    client does not look for an [error] field: its exchange fails only
    when the transport raises, and a failed call stores nothing. *)
Theorem error_reply_fails_without_writing
        (PS : SN.platform) (PW : WX.platform) :
  (forall (c : SN.client) (s : SN.state PS),
      error_reply_fails PS (SN.get_access_token PS c s) s)
  /\ (forall (c : SN.client) (username password : string) (s : SN.state PS),
        error_reply_fails PS (SN.login PS c username password s) s)
  /\ (forall (c : WX.client) (s : WX.state PW),
        is_ok (WX.get_access_token PW c s).1 = false ->
        WX.integration_context (WX.get_access_token PW c s).2
        = WX.integration_context s)
  /\ (forall (c : WX.client) (code : pyval) (s : WX.state PW),
        is_ok (WX.oauth_complete PW c code s).1 = false ->
        WX.integration_context (WX.oauth_complete PW c code s).2
        = WX.integration_context s).
Proof.
  split; [|split; [|split]].
  - apply get_access_token_error_reply.
  - apply login_error_reply.
  - apply webex_token_failure.
  - apply oauth_complete_failure.
Qed.

Lemma msg_not_logged_in_names_the_command :
  contains "servicenow-oauth-login" SN.msg_not_logged_in = true.
Proof. reflexivity. Qed.

(** C6, as the code has it.  The ServiceNow client, without a valid
    cached token, raises the error that names the login command when no
    refresh_token is stored, or, with an identity provider configured,
    when login has not supplied a username and a password; http_request
    then fails before it sends anything.  The Webex client raises
    nothing when no token is stored for its user: get_access_token
    returns [None] and the client is built with the header
    [Bearer None]. *)
Theorem missing_token (PS : SN.platform) (PW : WX.platform) :
  (forall (c : SN.client) (s s1 : SN.state PS),
      SN.token_is_valid PS (SN.integration_context s) s = (Ok false, s1) ->
      (SN.is_set (SN.authentication_url c) = false
       /\ SN.integration_context s !! "refresh_token" = None)
      \/ (SN.is_set (SN.authentication_url c) = true
          /\ SN.is_set (SN.authentication_username s)
             && SN.is_set (SN.authentication_password s) = false) ->
      SN.get_access_token PS c s
      = (Raise (Exn Exception SN.msg_not_logged_in), s1)
      /\ contains "servicenow-oauth-login" SN.msg_not_logged_in = true
      /\ forall (fuel : nat) (a : SN.call),
          SN.use_oauth c = true ->
          exists o,
            SN.http_request PS (S fuel) c a s = (o, s1)
            /\ is_ok o = false
            /\ SN.sent s1 = SN.sent s
            /\ (SN._verify c = false ->
                o = Raise (Exn DemistoException SN.msg_not_logged_in)))
  /\
  (forall (c : WX.client) (s : WX.state PW),
      WX.integration_context s !! WX.user c = None ->
      WX.get_access_token PW c s = (Ok VNone, s)
      /\ exists c',
          WX.init_headers PW c s = (Ok c', s)
          /\ WX._headers c' = Some {[ "Authorization" := "Bearer None" ]}).
Proof.
  split.
  - intros c s s1 Hv Hcase.
    pose proof (get_access_token_not_logged_in PS c s s1 Hv Hcase) as Hget.
    split; [done|]. split; [reflexivity|].
    intros fuel a Hoauth.
    destruct (token_is_valid_quiet PS _ _ _ _ Hv) as (Hlog & _).
    pose proof (on_exception_state PS (A := option (gmap string pyval)) c
                  (Exn Exception SN.msg_not_logged_in) s1) as [Hs Hf].
    destruct (SN.on_exception PS c (Exn Exception SN.msg_not_logged_in) s1)
      as [o sf] eqn:E. simpl in Hs, Hf. subst sf.
    exists o. split; [|split; [done|split; [done|]]].
    + assert (Hauth : SN.authorize PS c s
                      = (Raise (Exn Exception SN.msg_not_logged_in), s1)).
      { unfold SN.authorize. by rewrite (bind_raise _ _ _ _ _ Hget). }
      simpl. unfold try_except. by rewrite Hoauth, (bind_raise _ _ _ _ _ Hauth).
    + intros V. rewrite on_exception_plain in E by done. by inversion E.
  - intros c s Habs.
    pose proof (webex_token_absent PW c s Habs) as Hget.
    split; [done|]. eexists. unfold WX.init_headers.
    rewrite (bind_ok _ _ _ _ _ Hget). split; [reflexivity|]. done.
Qed.

End TokenClaims.

(** * The ServiceNow client: caching, modes and edges *)

Module ServiceNowEdges.
Import ServiceNow ServiceNowSpec ServiceNowTerms PyFacts ServiceNowFacts.

Section Edges.
Variable P : platform.

Lemma token_is_valid_run ctx (s s1 : state P) v t :
  ctx !! "access_token" = Some v ->
  forall expiry,
    ctx !! "expiry_time" = Some (VInt expiry) ->
    now P s = (Ok t, s1) ->
    token_is_valid P ctx s = (Ok (t <? expiry)%Z, s1).
Proof.
  intros Htok expiry Hexp Hnow. unfold token_is_valid.
  rewrite Htok, Hexp, (bind_ok _ _ _ _ _ Hnow). reflexivity.
Qed.

Lemma now_frame (s s1 : state P) o :
  now P s = (o, s1) ->
  sent s1 = sent s /\ integration_context s1 = integration_context s
  /\ _headers s1 = _headers s.
Proof.
  unfold now. destruct (date_to_timestamp_now P _) as [t w]. by intros [= <- <-].
Qed.

(** X1.  A cached access token whose expiry_time is later than the clock
    is returned as it is: nothing is sent, and the stored token and the
    headers stay as they were, with or without an identity provider. *)
Theorem valid_cached_token_is_reused
        (c : client) (s s1 : state P) (tok : pyval) (expiry t : Z) :
  integration_context s !! "access_token" = Some tok ->
  integration_context s !! "expiry_time" = Some (VInt expiry) ->
  now P s = (Ok t, s1) ->
  (t < expiry)%Z ->
  get_access_token P c s = (Ok tok, s1)
  /\ sent s1 = sent s
  /\ integration_context s1 = integration_context s
  /\ _headers s1 = _headers s.
Proof.
  intros Htok Hexp Hnow Hlt.
  pose proof (token_is_valid_run _ s s1 tok t Htok expiry Hexp Hnow) as Hv.
  apply Z.ltb_lt in Hlt. rewrite Hlt in Hv.
  split; [|by apply (now_frame s s1 (Ok t))].
  rewrite (get_access_token_cached P c s s1 Hv). unfold dict_get. by rewrite Htok.
Qed.

(** X2.  Whatever goes wrong inside [http_request], the exception that
    leaves it is a DemistoException; the one exception to this is the
    error [return_error] raises, under a server-handled command, to advise
    on certificate verification. *)
Theorem http_request_raises_only_DemistoException
        (fuel : nat) (c : client) (a : call) (s : state P) (e : exn) :
  (http_request P fuel c a s).1 = Raise e -> surfaced P c e.
Proof.
  destruct fuel as [|fuel]; [done|]. simpl. unfold try_except.
  match goal with |- context [match ?m s with _ => _ end] => destruct (m s) as [[j|e0| |] s0] end;
    try done.
  unfold on_exception, return_error.
  destruct (_verify c) eqn:V; simpl;
    [destruct (contains _ (exn_arg0 e0)); [destruct (server_handled P) eqn:S|]|].
  - intros [= <-]. right. done.
  - done.
  - intros [= <-]. by left.
  - intros [= <-]. by left.
Qed.

(** What is left of [http_request] under basic authorization once the
    request has been answered. *)
Lemma basic_step fuel c a (s s1 : state P) reply :
  use_oauth c = false ->
  _http_request P by_http_request (api_request a) s = (reply, s1) ->
  http_request P (S fuel) c a s
  = match reply with
    | Ok res =>
        try_except
          (if bool_decide (status_code res ∈ [200; 201]%Z) then
             let* j := parsed_json P res in ret (Some j)
           else if bool_decide (status_code res = 401%Z) then
             raise Exception (msg_authorization_failed P res)
           else ret None)
          (on_exception P c) s1
    | Raise e => on_exception P c e s1
    | Exit msg => (Exit msg, s1)
    | OutOfFuel => (OutOfFuel, s1)
    end.
Proof.
  intros Hbasic Hreq. simpl. rewrite Hbasic. unfold try_except.
  rewrite bind_ret. unfold Py.bind at 1. rewrite Hreq.
  destruct reply; reflexivity.
Qed.

Lemma basic_tail c res (s1 : state P) :
  let m : M (state P) (option (gmap string pyval)) :=
    if bool_decide (status_code res ∈ [200; 201]%Z) then
      let* j := parsed_json P res in ret (Some j)
    else if bool_decide (status_code res = 401%Z) then
      raise Exception (msg_authorization_failed P res)
    else ret None in
  (try_except m (on_exception P c) s1).2 = s1
  /\ (status_code res ∈ [200; 201]%Z ->
      forall j, json res = Some j ->
                (try_except m (on_exception P c) s1).1 = Ok (Some j))
  /\ (status_code res ∈ [200; 201]%Z -> json res = None ->
      is_ok (try_except m (on_exception P c) s1).1 = false
      /\ (_verify c = false ->
          (try_except m (on_exception P c) s1).1
          = Raise (Exn DemistoException (msg_unparsed res))))
  /\ (status_code res = 401%Z ->
      is_ok (try_except m (on_exception P c) s1).1 = false
      /\ (_verify c = false ->
          (try_except m (on_exception P c) s1).1
          = Raise (Exn DemistoException (msg_authorization_failed P res)))).
Proof.
  intros m. subst m. unfold try_except.
  destruct (bool_decide (status_code res ∈ [200%Z; 201%Z])) eqn:H200.
  - apply bool_decide_eq_true in H200.
    assert (H401 : status_code res <> 401%Z).
    { intros E. rewrite E in H200.
      apply elem_of_cons in H200 as [?|H200]; [done|].
      apply elem_of_cons in H200 as [?|H200]; [done|]. by apply elem_of_nil in H200. }
    unfold parsed_json. destruct (json res) as [j|] eqn:Hj.
    + rewrite bind_ret. simpl.
      split; [done|]. split; [by intros _ j' [= <-]|]. split; [done|]. done.
    + rewrite bind_fail. fold (msg_unparsed res). cbv beta iota.
      destruct (on_exception_state P (A := option (gmap string pyval)) c
                  (Exn DemistoException (msg_unparsed res)) s1) as [Hs Hf].
      split; [done|]. split; [done|]. split; [|done].
      intros _ _. split; [done|]. intros V.
      exact (f_equal fst (on_exception_plain P c _ s1 V)).
  - apply bool_decide_eq_false in H200.
    destruct (bool_decide (status_code res = 401%Z)) eqn:H401.
    + unfold raise at 1. cbv beta iota.
      destruct (on_exception_state P (A := option (gmap string pyval)) c
                  (Exn Exception (msg_authorization_failed P res)) s1) as [Hs Hf].
      split; [done|]. split; [done|]. split; [done|].
      intros _. split; [done|]. intros V.
      exact (f_equal fst (on_exception_plain P c _ s1 V)).
    + apply bool_decide_eq_false in H401. simpl.
      split; [done|]. split; [done|]. split; done.
Qed.

(** X3.  Under basic authorization [http_request] sends the one request
    it was called for and nothing else: no token is requested, the stored
    context and the headers are left alone.  A reply 200 or 201 yields
    its parsed body; a body that does not parse and a reply 401 fail the
    call, with the errors below when certificates are not verified. *)
Theorem basic_auth_sends_the_request_only
        (fuel : nat) (c : client) (a : call) (s : state P) :
  use_oauth c = false ->
  let r := http_request P (S fuel) c a s in
  let reply := (transport P (_headers s) (api_request a) (world s)).1 in
  sent r.2 = sent s ++ [(by_http_request, api_request a, reply)]
  /\ integration_context r.2 = integration_context s
  /\ _headers r.2 = _headers s
  /\ (forall res j,
        reply = Ok res -> status_code res ∈ [200; 201]%Z -> json res = Some j ->
        r.1 = Ok (Some j))
  /\ (forall res,
        reply = Ok res -> status_code res ∈ [200; 201]%Z -> json res = None ->
        is_ok r.1 = false
        /\ (_verify c = false ->
            r.1 = Raise (Exn DemistoException (msg_unparsed res))))
  /\ (forall res,
        reply = Ok res -> status_code res = 401%Z ->
        is_ok r.1 = false
        /\ (_verify c = false ->
            r.1 = Raise (Exn DemistoException (msg_authorization_failed P res)))).
Proof.
  intros Hbasic r reply. subst r reply.
  destruct (_http_request P by_http_request (api_request a) s) as [reply s1] eqn:Hreq.
  rewrite (basic_step fuel c a s s1 reply Hbasic Hreq).
  unfold _http_request in Hreq.
  destruct (transport P (_headers s) (api_request a) (world s)) as [reply' w].
  injection Hreq as -> <-. simpl fst.
  destruct reply as [res|e| |].
  - destruct (basic_tail c res
                (State P (integration_context s) (_headers s)
                       (authentication_username s) (authentication_password s) w
                       (sent s ++ [(by_http_request, api_request a, Ok res)])))
      as (Hs & Hok & Hbad & H401).
    rewrite Hs. simpl.
    split; [done|]. split; [done|]. split; [done|].
    split; [intros res' j [= <-] Hin Hj; by apply Hok|].
    split; [intros res' [= <-] Hin Hj; by apply Hbad|].
    intros res' [= <-] Hst. by apply H401.
  - destruct (on_exception_state P (A := option (gmap string pyval)) c e
                (State P (integration_context s) (_headers s)
                       (authentication_username s) (authentication_password s) w
                       (sent s ++ [(by_http_request, api_request a, Raise e)])))
      as [Hs _].
    rewrite Hs. simpl.
    split; [done|]. split; [done|]. split; [done|]. split; [done|]. split; done.
  - simpl.
    split; [done|]. split; [done|]. split; [done|]. split; [done|]. split; done.
  - simpl.
    split; [done|]. split; [done|]. split; [done|]. split; [done|]. split; done.
Qed.

(** X4.  Without an identity provider, a login whose reply carries no
    [error] succeeds whatever else the reply holds.  When the reply names
    a refresh_token the stored context is replaced by that one entry, so
    an access token cached before is gone; when it names none, or an empty
    one, nothing is stored and the login succeeds all the same. *)
Theorem login_keeps_only_the_refresh_token
        (c : client) (username password : string) (s s1 : state P)
        (res : response) (j : gmap string pyval) :
  is_set (authentication_url c) = false ->
  _http_request P by_login (password_grant_request c username password) s
  = (Ok res, s1) ->
  json res = Some j ->
  dict_has j "error" = false ->
  (truthy (dict_get j "refresh_token") = true ->
   login P c username password s
   = (Ok tt, with_context P {[ "refresh_token" := dict_get j "refresh_token" ]} s1)
   /\ integration_context
        (with_context P {[ "refresh_token" := dict_get j "refresh_token" ]} s1)
      !! "access_token" = None)
  /\ (truthy (dict_get j "refresh_token") = false ->
      login P c username password s = (Ok tt, s1)
      /\ integration_context s1 = integration_context s).
Proof.
  intros Hurl Hreq Hjson Herr.
  destruct (token_request_log P _ _ _ _ _ Hreq) as [_ Hctx].
  unfold password_grant_request in Hreq.
  unfold login. rewrite Hurl. unfold try_except. cbv zeta.
  rewrite (bind_ok _ _ _ _ _ Hreq). unfold parsed_json.
  rewrite Hjson, bind_ret, Herr, bind_ret.
  split; intros Hrt; rewrite Hrt; (split; [reflexivity|]); [|exact Hctx].
  simpl. by rewrite lookup_singleton_ne.
Qed.

(** X5.  With an identity provider configured and no valid cached
    token, the token is obtained by the password grant at the provider's
    URL, whatever refresh_token is in store: the one request sent goes to
    [authentication_url], and the record stored afterwards holds the
    access token and its expiry_time and no refresh_token. *)
Theorem identity_provider_grant_stores_no_refresh_token
        (c : client) (s s1 s2 s3 : state P) (u p : string)
        (res : response) (j : gmap string pyval) (T e : Z) :
  token_is_valid P (integration_context s) s = (Ok false, s1) ->
  is_set (authentication_url c) = true ->
  authentication_username s = Some u ->
  authentication_password s = Some p ->
  is_set (Some u) && is_set (Some p) = true ->
  _http_request P by_get_access_token_idp (idp_request c u p) s1 = (Ok res, s2) ->
  json res = Some j ->
  dict_has j "error" = false ->
  dict_has j "access_token" = true ->
  now P s2 = (Ok T, s3) ->
  dict_get_or j "expires_in" (VInt 0) = VInt e ->
  exists s',
    get_access_token P c s = (Ok (dict_get j "access_token"), s')
    /\ sent s' = sent s ++ [(by_get_access_token_idp, idp_request c u p, Ok res)]
    /\ full_url (idp_request c u p) = authentication_url c
    /\ integration_context s' !! "refresh_token" = None
    /\ integration_context s' !! "access_token" = Some (dict_get j "access_token")
    /\ dom (integration_context s') = {[ "access_token"; "expiry_time" ]}.
Proof.
  intros Hv Hurl Hu Hp Hset Hreq Hjson Herr Htok Hnow Hexp.
  eexists. split;
    [by apply (get_access_token_idp_grant P c s s1 s2 s3 u p res j T e)|].
  destruct (token_is_valid_quiet P _ _ _ _ Hv) as (Hlog1 & _).
  destruct (token_request_log P _ _ _ _ _ Hreq) as [Hlog2 _].
  destruct (now_frame _ _ _ Hnow) as (Hlog3 & _).
  simpl. split; [by rewrite Hlog3, Hlog2, Hlog1|]. split; [done|].
  split; [done|]. split; [by rewrite lookup_insert_eq|].
  rewrite dom_insert_L, dom_singleton_L. done.
Qed.

(** The exchange when the reply carries neither an [error] nor an
    access token: nothing is stored and the call returns [None]. *)
Lemma exchange_without_token o r keep (s s1 : state P) res j :
  _http_request P o r s = (Ok res, s1) ->
  json res = Some j ->
  dict_has j "error" = false ->
  dict_has j "access_token" = false ->
  exchange P o r keep s = (Ok VNone, s1).
Proof.
  intros Hreq Hjson Herr Htok. unfold exchange, try_except.
  rewrite (bind_ok _ _ _ _ _ Hreq). unfold parsed_json.
  by rewrite Hjson, bind_ret, Herr, bind_ret, Htok.
Qed.

(** X6.  A reply to the refresh grant that carries neither an [error]
    nor an access_token is not treated as a failure by get_access_token:
    it returns [None] and stores nothing.  [http_request] then fails
    while building the Authorization header, before the request it was
    called for is sent. *)
Theorem refresh_reply_without_access_token
        (c : client) (s s1 s2 : state P) (rt : pyval)
        (res : response) (j : gmap string pyval) :
  token_is_valid P (integration_context s) s = (Ok false, s1) ->
  is_set (authentication_url c) = false ->
  integration_context s !! "refresh_token" = Some rt ->
  _http_request P by_get_access_token (refresh_request c rt) s1 = (Ok res, s2) ->
  json res = Some j ->
  dict_has j "error" = false ->
  dict_has j "access_token" = false ->
  get_access_token P c s = (Ok VNone, s2)
  /\ integration_context s2 = integration_context s
  /\ forall (fuel : nat) (a : call),
      use_oauth c = true ->
      exists o,
        http_request P (S fuel) c a s = (o, s2)
        /\ is_ok o = false
        /\ sent s2 = sent s ++ [(by_get_access_token, refresh_request c rt, Ok res)]
        /\ (_verify c = false ->
            o = Raise (Exn DemistoException (type_error_text P))).
Proof.
  intros Hv Hurl Hrt Hreq Hjson Herr Htok.
  destruct (token_is_valid_quiet P _ _ _ _ Hv) as (Hlog1 & Hctx1 & _).
  destruct (token_request_log P _ _ _ _ _ Hreq) as [Hlog2 Hctx2].
  assert (Hget : get_access_token P c s = (Ok VNone, s2)).
  { unfold get_access_token, get_integration_context.
    rewrite bind_gets, (bind_ok _ _ _ _ _ Hv), Hurl, Hrt.
    by apply (exchange_without_token _ _ true s1 s2 res j). }
  split; [done|]. split; [by rewrite Hctx2, Hctx1|].
  intros fuel a Hoauth.
  assert (Hauth : authorize P c s = (Raise (Exn TypeError (type_error_text P)), s2)).
  { unfold authorize. by rewrite (bind_ok _ _ _ _ _ Hget). }
  destruct (on_exception_state P (A := option (gmap string pyval)) c
              (Exn TypeError (type_error_text P)) s2) as [Hs Hf].
  destruct (on_exception P c (Exn TypeError (type_error_text P)) s2)
    as [o sf] eqn:E. simpl in Hs, Hf. subst sf.
  exists o. split; [|split; [done|split; [by rewrite Hlog2, Hlog1|]]].
  - simpl. unfold try_except. by rewrite Hoauth, (bind_raise _ _ _ _ _ Hauth).
  - intros V. rewrite (on_exception_plain P c _ s2 V) in E. by inversion E.
Qed.

(** An exception whose text does not speak of certificates leaves
    [http_request] as a DemistoException of the same text, whether or not
    certificates are verified. *)
Lemma on_exception_other {A} c e (s : state P) :
  contains "SSL Certificate Verification Failed" (exn_arg0 e) = false ->
  @on_exception P A c e s = (Raise (Exn DemistoException (exn_arg0 e)), s).
Proof. intros H. unfold on_exception. by rewrite H, andb_false_r. Qed.

(** X7.  A stored context that holds an access_token and no
    expiry_time cannot be read: get_access_token raises
    KeyError('expiry_time') before the clock is read or anything is sent,
    and [http_request] in OAuth mode reports it as a DemistoException of
    that text, whether or not certificates are verified. *)
Theorem cached_token_without_expiry_time
        (c : client) (s : state P) (tok : pyval) :
  integration_context s !! "access_token" = Some tok ->
  integration_context s !! "expiry_time" = None ->
  get_access_token P c s = (Raise (Exn KeyError "expiry_time"), s)
  /\ forall (fuel : nat) (a : call),
      use_oauth c = true ->
      http_request P (S fuel) c a s
      = (Raise (Exn DemistoException "expiry_time"), s).
Proof.
  intros Htok Hexp.
  assert (Hget : get_access_token P c s = (Raise (Exn KeyError "expiry_time"), s)).
  { unfold get_access_token, get_integration_context, token_is_valid.
    by rewrite bind_gets, Htok, Hexp, bind_fail. }
  split; [done|]. intros fuel a Hoauth.
  assert (Hauth : authorize P c s = (Raise (Exn KeyError "expiry_time"), s)).
  { unfold authorize. by rewrite (bind_raise _ _ _ _ _ Hget). }
  simpl. unfold try_except. rewrite Hoauth, (bind_raise _ _ _ _ _ Hauth).
  by rewrite (on_exception_other c (Exn KeyError "expiry_time") s eq_refl).
Qed.

(** X8.  In OAuth mode with a valid cached token, the request goes out
    under the header [Authorization: Bearer <token>], once; a reply 200
    or 201 with a body that parses is the result, no token is requested
    and the stored context is left alone. *)
Theorem cached_token_is_sent_as_bearer
        (fuel : nat) (c : client) (a : call) (s s1 : state P)
        (tok : string) (expiry t : Z) (res : response) (w : env P)
        (j : gmap string pyval) :
  use_oauth c = true ->
  integration_context s !! "access_token" = Some (VStr tok) ->
  integration_context s !! "expiry_time" = Some (VInt expiry) ->
  now P s = (Ok t, s1) ->
  (t < expiry)%Z ->
  transport P (<["Authorization" := "Bearer " +:+ tok]> (_headers s))
            (api_request a) (world s1) = (Ok res, w) ->
  status_code res ∈ [200; 201]%Z ->
  json res = Some j ->
  let r := http_request P (S fuel) c a s in
  r.1 = Ok (Some j)
  /\ sent r.2 = sent s ++ [(by_http_request, api_request a, Ok res)]
  /\ integration_context r.2 = integration_context s
  /\ _headers r.2 !! "Authorization" = Some ("Bearer " +:+ tok).
Proof.
  intros Hoauth Htok Hexp Hnow Hlt Ht H200 Hjson r. subst r.
  pose proof (token_is_valid_run _ s s1 (VStr tok) t Htok expiry Hexp Hnow) as Hv.
  apply Z.ltb_lt in Hlt. rewrite Hlt in Hv.
  destruct (now_frame _ _ _ Hnow) as (Hlog & Hctx & Hhd).
  assert (Hauth : authorize P c s
                  = (Ok tt, State P (integration_context s1)
                                  (<["Authorization" := "Bearer " +:+ tok]> (_headers s))
                                  (authentication_username s1)
                                  (authentication_password s1)
                                  (world s1) (sent s1))).
  { unfold authorize. rewrite (bind_ok _ _ _ _ _ (get_access_token_cached P c s s1 Hv)).
    unfold dict_get. rewrite Htok. simpl. rewrite bind_ret.
    unfold headers_update, modify. by rewrite Hhd. }
  assert (Hrun : http_request P (S fuel) c a s
                 = (Ok (Some j),
                    State P (integration_context s1)
                          (<["Authorization" := "Bearer " +:+ tok]> (_headers s))
                          (authentication_username s1) (authentication_password s1)
                          w (sent s1 ++ [(by_http_request, api_request a, Ok res)]))).
  { simpl. unfold try_except. rewrite Hoauth, (bind_ok _ _ _ _ _ Hauth).
    unfold Py.bind at 1. unfold _http_request. simpl. rewrite Ht.
    rewrite bool_decide_eq_true_2 by done.
    unfold parsed_json. by rewrite Hjson, bind_ret. }
  rewrite Hrun. simpl.
  split; [done|]. split; [by rewrite Hlog|]. split; [done|].
  by rewrite lookup_insert_eq.
Qed.

End Edges.
End ServiceNowEdges.

(** * The Webex collector: tokens, listings and edges *)

Module WebexEdges.
Import Webex WebexSpec WebexTerms PyFacts WebexFacts.

(** X9.  [add_fields_to_events] keeps the events in number and order and
    gives each one two fields: [_time], the value of its [created] field
    ([None] when it has none), and [source_log_type]; a field of either
    name the event had is overwritten, every other field is kept. *)
Theorem add_fields_to_events_fields
        (events : list (gmap string pyval)) (evnet_type : option string) :
  length (add_fields_to_events events evnet_type) = length events
  /\ forall (i : nat) (event : gmap string pyval),
      events !! i = Some event ->
      exists event',
        add_fields_to_events events evnet_type !! i = Some event'
        /\ event' !! "_time" = Some (dict_get event "created")
        /\ event' !! "source_log_type"
           = Some (from_option VStr VNone evnet_type)
        /\ forall k, k <> "_time" -> k <> "source_log_type" ->
                     event' !! k = event !! k.
Proof.
  split; [apply length_add_fields|].
  intros i event Hi. unfold add_fields_to_events.
  eexists. split; [by rewrite list_lookup_fmap, Hi|].
  split; [|split].
  - rewrite lookup_insert_ne by done. by rewrite lookup_insert_eq.
  - by rewrite lookup_insert_eq.
  - intros k H1 H2. by rewrite !lookup_insert_ne.
Qed.

(** X10.  The number of events per fetch that [main] settles on lies in
    1..2000 whatever the argument: an argument in that range is taken as
    it is; one that is absent, zero, negative or above 2000 gives the
    default of 200, not the nearest bound. *)
Theorem max_fetch_falls_back_to_the_default (arg : option Z) :
  (0 < max_fetch_of arg <= 2000)%Z
  /\ (forall n, arg = Some n -> (0 < n <= 2000)%Z -> max_fetch_of arg = n)
  /\ (forall n, arg = Some n -> (n <= 0 \/ 2000 < n)%Z ->
                max_fetch_of arg = DEFAULT_MAX_FETCH)
  /\ (arg = None -> max_fetch_of arg = DEFAULT_MAX_FETCH).
Proof.
  unfold max_fetch_of, DEFAULT_MAX_FETCH.
  split; [|split; [|split]].
  - destruct arg as [n|]; [|done].
    destruct (n =? 0)%Z eqn:E0; [done|].
    destruct (0 <? n)%Z eqn:E1, (n <=? 2000)%Z eqn:E2; simpl; try done.
    apply Z.ltb_lt in E1. apply Z.leb_le in E2. lia.
  - intros n -> [H1 H2].
    destruct (n =? 0)%Z eqn:E0; [apply Z.eqb_eq in E0; lia|].
    apply Z.ltb_lt in H1. apply Z.leb_le in H2. by rewrite H1, H2.
  - intros n -> H. destruct (n =? 0)%Z eqn:E0; [done|].
    destruct (0 <? n)%Z eqn:E1, (n <=? 2000)%Z eqn:E2; simpl; try done.
    apply Z.ltb_lt in E1. apply Z.leb_le in E2. lia.
  - by intros ->.
Qed.

Section Edges.
Variable P : platform.

Ltac listing :=
  unfold listing_sends, get_admin_audits, get_security_audits,
    get_compliance_officer_events, get_listing;
  match goal with |- context [truthy ?u] => destruct (truthy u) eqn:Hn end;
  [ unfold _http_request;
    match goal with |- context [transport_response ?P ?h ?r ?w] =>
      destruct (transport_response P h r w) as [o w'] end;
    eexists; simpl; split; [reflexivity|]; repeat split; done
  | unfold Py.bind, datetime_utcnow, _http_request;
    match goal with |- context [utcnow ?P ?w] =>
      destruct (utcnow P w) as [t w0] end; simpl;
    match goal with |- context [transport_response ?P ?h ?r ?w] =>
      destruct (transport_response P h r w) as [o w'] end; simpl;
    eexists; split; [by rewrite app_nil_r|]; repeat split; try done;
    eexists; split; [reflexivity|];
    repeat split; try (by simplify_map_eq);
    intros k ? ? ? ?; by simplify_map_eq ].

Lemma admin_audits_sends c from_date limit next_url (s : state P) :
  listing_sends P (get_admin_audits P c from_date limit next_url) s
                "adminAudit/events" "from" "to" (Some (org_id c))
                DEFAULT_MAX_FETCH from_date limit next_url.
Proof. listing. Qed.

Lemma security_audits_sends c from_date limit next_url (s : state P) :
  listing_sends P (get_security_audits P c from_date limit next_url) s
                "admin/securityAudit/events" "startTime" "endTime"
                (Some (org_id c)) 1000 from_date limit next_url.
Proof. listing. Qed.

Lemma officer_events_sends c from_date limit next_url (s : state P) :
  listing_sends P (get_compliance_officer_events P c from_date limit next_url) s
                "events" "from" "to" None 1000 from_date limit next_url.
Proof. listing. Qed.

(** X11.  Each of the three listing methods sends exactly one GET
    request and writes nothing.  Given a [next_url] it requests that URL
    and passes no parameter, so [from_date] and [limit] play no part;
    otherwise it asks its endpoint for the window from [from_date] to the
    clock reading, with [max] at the smaller of [limit] and 200 for admin
    audits and of [limit] and 1000 for security audits and for events;
    only the two audit listings name the organisation. *)
Theorem listings_send_one_request
        (c : client) (from_date : pyval) (limit : Z) (next_url : pyval)
        (s : state P) :
  listing_sends P (get_admin_audits P c from_date limit next_url) s
                "adminAudit/events" "from" "to" (Some (org_id c))
                DEFAULT_MAX_FETCH from_date limit next_url
  /\ listing_sends P (get_security_audits P c from_date limit next_url) s
                   "admin/securityAudit/events" "startTime" "endTime"
                   (Some (org_id c)) 1000 from_date limit next_url
  /\ listing_sends P (get_compliance_officer_events P c from_date limit next_url) s
                   "events" "from" "to" None 1000 from_date limit next_url.
Proof.
  split; [apply admin_audits_sends|].
  split; [apply security_audits_sends | apply officer_events_sends].
Qed.

Lemma utcnow_frame (s s1 : state P) o :
  datetime_utcnow P s = (o, s1) ->
  trace s1 = trace s /\ integration_context s1 = integration_context s
  /\ last_run_store s1 = last_run_store s.
Proof.
  unfold datetime_utcnow. destruct (utcnow P (world s)) as [t w].
  intros [= <- <-]. simpl. by rewrite app_nil_r.
Qed.

(** The run of get_access_token when the stored refresh token has
    expired. *)
Lemma refresh_expired_run c (s s1 : state P) uic t refresh_expiry sr :
  integration_context s !! user c = Some uic ->
  uic <> ∅ ->
  datetime_utcnow P s = (Ok t, s1) ->
  dict_get uic "refresh_token_expires_in" = VStr sr ->
  parse P sr = Some refresh_expiry ->
  (refresh_expiry < t)%Z ->
  get_access_token P c s
  = (Raise (Exn DemistoException (msg_refresh_expired c)), s1).
Proof.
  intros Huic Hne Ht Hsr Hre Hlt.
  unfold get_access_token, get_integration_context.
  rewrite bind_gets, Huic, bool_decide_eq_false_2 by done.
  rewrite (bind_ok _ _ _ _ _ Ht). unfold parser_parse.
  rewrite Hsr, Hre, bind_ret. apply Z.ltb_lt in Hlt. by rewrite Hlt.
Qed.

(** X12.  Once the stored refresh token of a user has expired,
    get_access_token raises the error that asks for a new authorization
    and names the user; nothing is requested from the server and the
    stored tokens stay as they are.  The client object cannot be built
    either: its constructor fails with the same error. *)
Theorem expired_refresh_token_is_an_error
        (c : client) (s s1 : state P) (uic : gmap string pyval)
        (t refresh_expiry : Z) (sr : string) :
  integration_context s !! user c = Some uic ->
  uic <> ∅ ->
  datetime_utcnow P s = (Ok t, s1) ->
  dict_get uic "refresh_token_expires_in" = VStr sr ->
  parse P sr = Some refresh_expiry ->
  (refresh_expiry < t)%Z ->
  get_access_token P c s
  = (Raise (Exn DemistoException (msg_refresh_expired c)), s1)
  /\ init_headers P c s
     = (Raise (Exn DemistoException (msg_refresh_expired c)), s1)
  /\ trace s1 = trace s
  /\ integration_context s1 = integration_context s
  /\ ends_with (msg_refresh_expired c)
               ("with the `user` argument set to " +:+ user c +:+ ".").
Proof.
  intros Huic Hne Ht Hsr Hre Hlt.
  pose proof (refresh_expired_run c s s1 uic t refresh_expiry sr
                Huic Hne Ht Hsr Hre Hlt) as Hget.
  split; [done|]. split.
  { unfold init_headers. by rewrite (bind_raise _ _ _ _ _ Hget). }
  destruct (utcnow_frame _ _ _ Ht) as (? & ? & _).
  split; [done|]. split; [done|].
  unfold msg_refresh_expired. apply ends_with_app, ends_with_refl.
Qed.

(** X13.  While neither stored token has expired, get_access_token
    returns the stored access token: the clock is read twice, nothing is
    requested and nothing is written.  A token counts as expired only
    when the clock is past its expiry, so at the very instant of expiry
    it is still used. *)
Theorem unexpired_access_token_is_reused
        (c : client) (s s1 s2 : state P) (uic : gmap string pyval)
        (t1 t2 refresh_expiry access_expiry : Z) (sr sa : string) :
  integration_context s !! user c = Some uic ->
  uic <> ∅ ->
  datetime_utcnow P s = (Ok t1, s1) ->
  dict_get uic "refresh_token_expires_in" = VStr sr ->
  parse P sr = Some refresh_expiry ->
  (t1 <= refresh_expiry)%Z ->
  datetime_utcnow P s1 = (Ok t2, s2) ->
  dict_get uic "access_token_expires_in" = VStr sa ->
  parse P sa = Some access_expiry ->
  (t2 <= access_expiry)%Z ->
  get_access_token P c s = (Ok (dict_get uic "access_token"), s2)
  /\ trace s2 = trace s
  /\ integration_context s2 = integration_context s
  /\ init_headers P c s
     = (Ok (Client (user c) (client_id c) (client_secret c) (redirect_uri c)
                   (scope c) (org_id c)
                   (Some {[ "Authorization" :=
                              "Bearer " +:+ py_str (dict_get uic "access_token") ]})),
        s2).
Proof.
  intros Huic Hne Ht1 Hsr Hre Hrle Ht2 Hsa Hae Hale.
  assert (Hget : get_access_token P c s = (Ok (dict_get uic "access_token"), s2)).
  { unfold get_access_token, get_integration_context.
    rewrite bind_gets, Huic, bool_decide_eq_false_2 by done.
    rewrite (bind_ok _ _ _ _ _ Ht1). unfold parser_parse.
    rewrite Hsr, Hre, bind_ret. apply Z.ltb_ge in Hrle. rewrite Hrle.
    rewrite (bind_ok _ _ _ _ _ Ht2), Hsa, Hae, bind_ret.
    apply Z.ltb_ge in Hale. by rewrite Hale. }
  destruct (utcnow_frame _ _ _ Ht1) as (T1 & C1 & _).
  destruct (utcnow_frame _ _ _ Ht2) as (T2 & C2 & _).
  split; [done|]. split; [by rewrite T2, T1|]. split; [by rewrite C2, C1|].
  unfold init_headers. by rewrite (bind_ok _ _ _ _ _ Hget).
Qed.

(** X14.  The two users share one integration context, and each client
    writes its own entry only: whatever get_access_token and
    oauth_complete do for one user, the tokens stored for any other user
    are as they were. *)
Theorem tokens_of_other_users_are_kept
        (c : client) (s : state P) (u : string) :
  u <> user c ->
  integration_context (get_access_token P c s).2 !! u = integration_context s !! u
  /\ (forall result,
        integration_context (save_tokens_to_integration_context P c result s).2 !! u
        = integration_context s !! u)
  /\ (forall code,
        integration_context (oauth_complete P c code s).2 !! u
        = integration_context s !! u).
Proof.
  intros Hu. split; [|split; [intros result|intros code]].
  - unfold get_access_token, get_integration_context, save_tokens_to_integration_context,
      create_access_token, _http_request_json, datetime_utcnow, parser_parse,
      timedelta_seconds, datetime_add, set_integration_context, modify,
      with_context, with_world, Py.bind, gets, ret, raise.
    repeat (case_match; simplify_eq/=); try done; by rewrite lookup_insert_ne.
  - unfold save_tokens_to_integration_context, get_integration_context,
      datetime_utcnow, timedelta_seconds, datetime_add, set_integration_context,
      modify, with_context, with_world, Py.bind, gets, ret, raise.
    repeat (case_match; simplify_eq/=); try done; by rewrite lookup_insert_ne.
  - unfold oauth_complete, get_integration_context, save_tokens_to_integration_context,
      create_access_token, _http_request_json, datetime_utcnow, parser_parse,
      timedelta_seconds, datetime_add, set_integration_context, modify,
      with_context, with_world, Py.bind, gets, ret, raise.
    repeat (case_match; simplify_eq/=); try done; by rewrite lookup_insert_ne.
Qed.

(** The pages before the last one never reach the limit. *)
Lemma page_run_before_last cf from_date limit events r (s s' : state P) pages :
  page_run P cf from_date limit events r s pages s' ->
  forall front final,
    pages = front ++ [final] ->
    (Z.of_nat (length (events ++ concat (page_items <$> front))) < limit)%Z.
Proof.
  induction 1 as [events r s Hstop
                 |events r s r' s1 pages s' Hlink Hcount Hcall Hjson Hrun IH];
    intros front final Hpages.
  - by destruct front.
  - destruct front as [|r0 front]; simpl in Hpages.
    + simpl. by rewrite app_nil_r.
    + injection Hpages as <- Hpages. simpl.
      rewrite app_assoc. by eapply IH.
Qed.

Lemma page_run_limit cf from_date limit events r (s s' : state P) pages :
  page_run P cf from_date limit events r s pages s' ->
  (limit <= Z.of_nat (length events))%Z -> pages = [].
Proof. destruct 1; [done|intros; lia]. Qed.

(** X15.  The paginated fetch always requests the first page, and
    returns every item of every page it requested: the limit stops
    further requests and cuts nothing off.  So the events returned may
    number more than [limit], but those of the pages before the last one
    number less; and with a [limit] of zero or less the first page is the
    only one requested. *)
Theorem pagination_overshoots_by_less_than_a_page
        (fuel : nat) (client_function : client_function P)
        (from_date : pyval) (limit : Z) (next_url : pyval) (s s' : state P)
        (events : list (gmap string pyval)) (cursor : pyval) :
  get_events_with_pagination P fuel client_function from_date limit next_url s
  = (Ok (events, cursor), s') ->
  exists (first : response) (rest : list response),
    served P client_function from_date limit fuel next_url s first rest s'
    /\ length events = length (concat (page_items <$> first :: rest))
    /\ (forall front final,
          rest = front ++ [final] ->
          (Z.of_nat (length (concat (page_items <$> first :: front))) < limit)%Z)
    /\ ((limit <= 0)%Z -> rest = []).
Proof.
  intros Hrun.
  destruct (pagination_pages P client_function from_date limit _ _ _ _ _ _ Hrun)
    as (first & rest & Hserved & -> & _).
  exists first, rest. split; [done|].
  destruct Hserved as (s0 & Hcall & Hjson & Hlen & Hpages).
  split; [|split].
  - unfold returned_events. by rewrite length_add_fields.
  - intros front final ->. simpl.
    by apply (page_run_before_last _ _ _ _ _ _ _ _ Hpages front final).
  - intros Hlim. apply (page_run_limit _ _ _ _ _ _ _ _ Hpages). lia.
Qed.

(** X16.  A stored last run that lacks the entry of an event type fails
    the fetch cycle with KeyError of that type, and only after the events
    of that type were requested; shown for the first type the cycle
    visits. *)
Theorem last_run_without_an_event_type
        (fuel : nat) (admin_client co_client : client)
        (last_run : gmap string (gmap string pyval)) (max_fetch : Z)
        (s s1 : state P) (events : list (gmap string pyval)) (cursor : pyval) :
  last_run <> ∅ ->
  last_run !! "admin_audits" = None ->
  get_events_with_pagination
    P fuel (ClientFunction P "get_admin_audits" (get_admin_audits P admin_client))
    VNone max_fetch (VStr "") s
  = (Ok (events, cursor), s1) ->
  fetch_events P fuel admin_client co_client last_run max_fetch s
  = (Raise (Exn KeyError "admin_audits"), s1)
  /\ str_exn (Exn KeyError "admin_audits") = "'admin_audits'"
  /\ exists r extra, trace s1 = trace s ++ Requested r :: extra.
Proof.
  intros Hne Hnone Hrun.
  split; [|split; [reflexivity|]].
  - assert (Hstep : fetch_event_type
                      P fuel max_fetch "admin_audits"
                      (ClientFunction P "get_admin_audits"
                                      (get_admin_audits P admin_client))
                      ([], last_run) s
                    = (Raise (Exn KeyError "admin_audits"), s1)).
    { unfold fetch_event_type, demisto_get. rewrite Hnone.
      by rewrite (bind_ok _ _ _ _ _ Hrun). }
    unfold fetch_events. rewrite bool_decide_eq_false_2 by done.
    rewrite bind_ret. unfold event_type_to_client_function.
    cbn [fetch_event_types]. by rewrite (bind_raise _ _ _ _ _ Hstep).
  - destruct (pagination_pages P _ _ _ _ _ _ _ _ _ Hrun)
      as (first & rest & (s0 & Hcall & _ & _ & Hpages) & _).
    simpl in Hcall.
    destruct (admin_audits_sends admin_client VNone max_fetch (VStr "") s)
      as (r & Htrace & _).
    rewrite Hcall in Htrace. simpl in Htrace.
    assert (Hgrow : forall ev r0 (sa sb : state P) pages,
               page_run P (ClientFunction P "get_admin_audits"
                                          (get_admin_audits P admin_client))
                        VNone max_fetch ev r0 sa pages sb ->
               exists extra, trace sb = trace sa ++ extra).
    { clear. induction 1 as [|ev r0 sa r' s1 pages sb _ _ Hcall _ _ [extra IH]].
      - exists []. by rewrite app_nil_r.
      - simpl in Hcall.
        destruct (admin_audits_sends admin_client VNone max_fetch
                    (next_link r0) sa) as (r1 & Htr & _).
        rewrite Hcall in Htr. simpl in Htr.
        exists (Requested r1 :: extra). by rewrite IH, Htr, <- app_assoc. }
    destruct (Hgrow _ _ _ _ _ Hpages) as [extra Hextra].
    exists r, extra. by rewrite Hextra, Htrace, <- app_assoc.
Qed.

(** X17.  On the first fetch, when nothing is stored, the cycle starts
    from a last run that [create_last_run] makes: it has an entry for
    every event type the cycle visits, each with the instant one week
    before the clock reading as [since_datetime] and an empty [next_url].
    So the first cycle asks every listing for the past week, and none of
    its checkpoints is missing. *)
Theorem first_fetch_looks_back_one_week
        (fuel : nat) (admin_client co_client : client) (max_fetch : Z)
        (s s0 : state P) (t : Z) :
  datetime_utcnow P s = (Ok t, s0) ->
  exists lr0,
    fetch_events P fuel admin_client co_client ∅ max_fetch s
    = fetch_event_types P fuel max_fetch
        (event_type_to_client_function P admin_client co_client) ([], lr0) s0
    /\ Forall (fun step =>
                 lr0 !! step.1
                 = Some {[ "since_datetime" :=
                             VStr (date_time_to_iso_format
                                     P (t - 7 * 24 * 3600 * 1000000));
                           "next_url" := VStr "" ]})
              (event_type_to_client_function P admin_client co_client)
    /\ dom lr0
       = list_to_set (event_type_to_client_function P admin_client co_client).*1.
Proof.
  intros Ht.
  set (fresh := ({[ "since_datetime" :=
                      VStr (date_time_to_iso_format P (t - one_week));
                    "next_url" := VStr "" ]} : gmap string pyval)).
  assert (Hcreate : create_last_run P s
                    = (Ok ({[ "admin_audits" := fresh;
                              "security_audits" := fresh;
                              "compliance_officer_events" := fresh ]}
                           : gmap string (gmap string pyval)), s0)).
  { unfold create_last_run. by rewrite (bind_ok _ _ _ _ _ Ht). }
  eexists. split; [|split].
  - unfold fetch_events. rewrite bool_decide_eq_true_2 by done.
    by rewrite (bind_ok _ _ _ _ _ Hcreate).
  - unfold event_type_to_client_function, fresh, one_week.
    repeat apply Forall_cons_2; try apply Forall_nil_2; simpl; by simplify_map_eq.
  - unfold event_type_to_client_function. simpl.
    rewrite !dom_insert_L, dom_singleton_L. set_solver.
Qed.

(** X23.  A token reply whose expires_in leads outside the calendar, by
    a timedelta of more than 999999999 days or by an expiry outside the
    years 1 to 9999, makes save_tokens_to_integration_context raise
    OverflowError after the clock was read and before anything is stored;
    oauth_complete then fails with it, having sent its one request, and
    the stored tokens are as they were. *)
Theorem lifetime_beyond_the_calendar_stores_nothing
        (c : client) (result : gmap string pyval) (s s1 : state P) (now e : Z) :
  datetime_utcnow P s = (Ok now, s1) ->
  dict_get_or result "expires_in" (VInt 0) = VInt e ->
  ~ in_calendar now e ->
  exists msg,
    save_tokens_to_integration_context P c result s
    = (Raise (Exn OverflowError msg), s1)
    /\ integration_context s1 = integration_context s
    /\ trace s1 = trace s
    /\ forall code s0,
        create_access_token P c "authorization_code" code VNone s0
        = (Ok result, s) ->
        oauth_complete P c code s0 = (Raise (Exn OverflowError msg), s1)
        /\ integration_context s1 = integration_context s0.
Proof.
  intros Hnow He Hout.
  destruct (save_tokens_overflow P c result s s1 now e Hnow He Hout)
    as [msg Hsave].
  destruct (utcnow_frame _ _ _ Hnow) as (Htrace & Hctx & _).
  exists msg. split; [done|]. split; [done|]. split; [done|].
  intros code s0 Hcreate. split.
  - unfold oauth_complete. by rewrite (bind_ok _ _ _ _ _ Hcreate).
  - by rewrite Hctx, (create_access_token_context P _ _ _ _ _ _ _ Hcreate).
Qed.

End Edges.
End WebexEdges.

(** * The commands of the Webex collector *)

Module WebexCommandFacts.
Import Webex WebexSpec WebexTerms WebexCommands PyFacts WebexFacts WebexEdges.

Section Commands.
Variable P : platform.
Variable H : host P.

#[local] Instance only_requests_preorder : PreOrder (only_requests P).
Proof.
  split.
  - intros s. split; [done|]. exists []. by rewrite app_nil_r.
  - intros s1 s2 s3 (H1 & e1 & T1 & F1) (H2 & e2 & T2 & F2). split; [congruence|].
    exists (e1 ++ e2). rewrite T2, T1, app_assoc. split; [done|].
    by apply Forall_app.
Qed.

Lemma only_requests_with_world (s : state P) w new :
  Forall (fun e => exists r, e = Requested r) new ->
  only_requests P s (with_world P s w new).
Proof. intros Hnew. split; [done|]. by exists new. Qed.

Lemma requests_utcnow : preserves (only_requests P) (datetime_utcnow P).
Proof.
  intros s. unfold datetime_utcnow. destruct (utcnow P (world s)).
  by apply only_requests_with_world.
Qed.

Lemma requests_http_json c r : preserves (only_requests P) (_http_request_json P c r).
Proof.
  intros s. unfold _http_request_json. destruct (transport_json P _ r _).
  apply only_requests_with_world. repeat constructor. by eexists.
Qed.

Lemma requests_http c r : preserves (only_requests P) (_http_request P c r).
Proof.
  intros s. unfold _http_request. destruct (transport_response P _ r _).
  apply only_requests_with_world. repeat constructor. by eexists.
Qed.

Lemma requests_return_error {A} msg :
  preserves (only_requests P) (@return_error P A msg).
Proof.
  unfold return_error. destruct (server_handled P).
  - apply preserves_raise, _.
  - intros s. reflexivity.
Qed.

Lemma requests_set_context ctx :
  preserves (only_requests P) (set_integration_context P ctx).
Proof. intros s. split; [done|]. exists []. by rewrite app_nil_r. Qed.

Lemma requests_return_results results :
  preserves (only_requests P) (return_results P H results).
Proof. intros s. by apply only_requests_with_world. Qed.

Lemma requests_lift {A} (o : outcome A) : preserves (only_requests P) (lift P o).
Proof. intros s. reflexivity. Qed.

Ltac requests :=
  repeat first
    [ apply preserves_ret; apply _
    | apply preserves_raise; apply _
    | apply preserves_out_of_fuel; apply _
    | apply preserves_gets; apply _
    | apply requests_utcnow
    | apply requests_http_json
    | apply requests_http
    | apply requests_return_error
    | apply requests_set_context
    | apply requests_return_results
    | apply requests_lift
    | apply preserves_bind; [apply _ | | intros ?]
    | apply preserves_try_except; [apply _ | | intros ?]
    | match goal with
      | |- preserves _ (if ?b then _ else _) => destruct b
      | |- preserves _ (match ?x with _ => _ end) => destruct x
      | |- preserves _ (let '(_, _) := ?x in _) => destruct x
      end
    | progress unfold get_integration_context, getLastRun, parser_parse,
        timedelta_seconds, datetime_add, create_access_token, create_last_run,
        increase_datetime_for_next_fetch, response_items, test_module ].

Lemma requests_save_tokens c result :
  preserves (only_requests P) (save_tokens_to_integration_context P c result).
Proof. unfold save_tokens_to_integration_context. requests. Qed.

Lemma requests_get_access_token c :
  preserves (only_requests P) (get_access_token P c).
Proof.
  pose proof requests_save_tokens as Hsave.
  unfold get_access_token. requests; apply Hsave.
Qed.

Lemma requests_init_headers c : preserves (only_requests P) (init_headers P c).
Proof.
  unfold init_headers.
  apply preserves_bind; [apply _ | apply requests_get_access_token | intros ?].
  requests.
Qed.

Lemma requests_get_listing c suffix fk tk org cap from_date limit next_url :
  preserves (only_requests P)
            (get_listing P c suffix fk tk org cap from_date limit next_url).
Proof. unfold get_listing. requests. Qed.

Lemma requests_paginate fuel cf from_date limit :
  requesting P cf ->
  forall events r,
    preserves (only_requests P) (paginate P fuel cf from_date limit events r).
Proof.
  intros Hcf. induction fuel as [|fuel IH]; intros events r; simpl.
  - requests.
  - destruct (truthy _ && _); [|requests].
    apply preserves_bind; [apply _ | apply Hcf | intros r'].
    apply preserves_bind; [apply _ | requests | intros items]. apply IH.
Qed.

Lemma requests_pagination fuel cf from_date limit next_url :
  requesting P cf ->
  preserves (only_requests P)
            (get_events_with_pagination P fuel cf from_date limit next_url).
Proof.
  intros Hcf. unfold get_events_with_pagination.
  apply preserves_bind; [apply _ | apply Hcf | intros r].
  apply preserves_bind; [apply _ | requests | intros items].
  apply preserves_bind; [apply _ | by apply requests_paginate | intros [evs c]].
  requests.
Qed.

Lemma requests_oauth_complete c args :
  preserves (only_requests P) (oauth_complete P c args).
Proof.
  unfold oauth_complete, Webex.oauth_complete.
  apply preserves_bind; [apply _ | | intros ?; requests].
  apply preserves_bind; [apply _ | requests | intros ?].
  apply requests_save_tokens.
Qed.

Lemma requests_oauth_test cls c :
  preserves (only_requests P) (oauth_test P cls c).
Proof.
  unfold oauth_test, Client_oauth_test, AdminClient_oauth_test,
    ComplianceOfficerClient_oauth_test, get_admin_audits,
    get_compliance_officer_events.
  destruct cls;
    (apply preserves_bind; [apply _ | | intros ?; requests];
     apply preserves_bind; [apply _ | apply requests_utcnow | intros t];
     apply preserves_bind; [apply _ | apply requests_get_listing | intros ?];
     requests).
Qed.

Lemma requests_get_events_command fuel cf args :
  requesting P cf ->
  preserves (only_requests P) (get_events_command P H fuel cf args).
Proof.
  intros Hcf. unfold get_events_command.
  apply preserves_bind; [apply _ | apply requests_utcnow | intros t].
  apply preserves_bind; [apply _ | apply requests_lift | intros n].
  apply preserves_bind;
    [apply _ | by apply requests_pagination | intros [evs c]].
  requests.
Qed.

Lemma run_only_requests {A} (m : M (state P) A) (s s' : state P) o :
  preserves (only_requests P) m -> m s = (o, s') -> only_requests P s s'.
Proof. intros Hm E. specialize (Hm s). by rewrite E in Hm. Qed.

Lemma requesting_admin_audits c :
  requesting P (ClientFunction P "get_admin_audits" (get_admin_audits P c)).
Proof. intros ? ? ?. apply requests_get_listing. Qed.

Lemma requesting_security_audits c :
  requesting P (ClientFunction P "get_security_audits" (get_security_audits P c)).
Proof. intros ? ? ?. apply requests_get_listing. Qed.

Lemma requesting_officer_events c :
  requesting P (ClientFunction P "get_compliance_officer_events"
                               (get_compliance_officer_events P c)).
Proof. intros ? ? ?. apply requests_get_listing. Qed.

Lemma main_attempt fuel command params args (s : state P) n :
  arg_to_number H (dict_get_or args "max_fetch" (VInt DEFAULT_MAX_FETCH)) = Ok n ->
  main P H fuel command params args s
  = try_except (attempt P H fuel command params args (max_fetch_of n))
               (fun e => return_error P (msg_failed command e)) s.
Proof. intros Hn. unfold main, lift, Py.bind at 1. by rewrite Hn. Qed.

(** Under fetch-events, [main] is the run of the fetch cycle. *)
Lemma main_fetch_events fuel params args (s : state P) n :
  arg_to_number H (dict_get_or args "max_fetch" (VInt DEFAULT_MAX_FETCH)) = Ok n ->
  WebexCommands.main P H fuel "fetch-events" params args s
  = Webex.main P fuel params n s.
Proof. intros Hn. rewrite (main_attempt _ _ _ _ _ n Hn). reflexivity. Qed.

Lemma main_without_max_fetch fuel command params args (s : state P) :
  (forall n, arg_to_number H (dict_get_or args "max_fetch" (VInt DEFAULT_MAX_FETCH))
             <> Ok n) ->
  main P H fuel command params args s
  = (match arg_to_number H (dict_get_or args "max_fetch" (VInt DEFAULT_MAX_FETCH)) with
     | Ok _ => Ok tt
     | Raise e => Raise e
     | Exit msg => Exit msg
     | OutOfFuel => OutOfFuel
     end, s).
Proof.
  intros Hn. unfold main, lift, Py.bind at 1.
  destruct (arg_to_number H _) as [n| | |]; [by destruct (Hn n)|done..].
Qed.

(** X18.  An exception raised while [main] runs a command is reported
    through [return_error], under the heading that names the command; so
    the only exceptions that leave [main] are that of [return_error]
    itself, under a server-handled command, and the one [arg_to_number]
    raises on the [max_fetch] argument, which is read before the [try]
    block. *)
Theorem main_reports_its_failures
        (fuel : nat) (command : string) (params : demisto_params)
        (args : gmap string pyval) (s : state P) (e : exn) :
  (main P H fuel command params args s).1 = Raise e ->
  arg_to_number H (dict_get_or args "max_fetch" (VInt DEFAULT_MAX_FETCH)) = Raise e
  \/ (server_handled P = true
      /\ exists e0, e = Exn Exception (msg_failed command e0)).
Proof.
  destruct (arg_to_number H (dict_get_or args "max_fetch" (VInt DEFAULT_MAX_FETCH)))
    as [n|e'| |] eqn:Hn.
  - rewrite (main_attempt _ _ _ _ _ n Hn). unfold try_except.
    destruct (attempt P H fuel command params args (max_fetch_of n) s)
      as [[|e0| |] s0]; try done.
    unfold return_error. destruct (server_handled P); [|done].
    intros [= <-]. right. split; [done|]. by exists e0.
  - unfold main, lift, Py.bind at 1. rewrite Hn. intros [= <-]. by left.
  - unfold main, lift, Py.bind at 1. by rewrite Hn.
  - unfold main, lift, Py.bind at 1. by rewrite Hn.
Qed.

(** The run of [main] once both clients are built. *)
Lemma attempt_with_clients fuel command params args max_fetch
      (s s1 s2 : state P) a co :
  AdminClient P (admin_identifier params) (admin_password params)
              (admin_app_redirect_uri params)
              (Some "audit:events_read spark:kms") (admin_org_id params) s
  = (Ok a, s1) ->
  ComplianceOfficerClient
    P (compliance_officer_identifier params)
    (compliance_officer_password params)
    (compliance_officer_redirect_uri params)
    (Some "spark-compliance:events_read spark:kms") s1
  = (Ok co, s2) ->
  attempt P H fuel command params args max_fetch s
  = (let by_user := bool_decide (dict_get args "user" = VStr "admin") in
     let cls := if by_user then IsAdminClient else IsComplianceOfficerClient in
     let client := if by_user then a else co in
     if String.eqb command "test-module" then test_module P
     else if String.eqb command "cisco-webex-oauth-start" then
       return_results P H (oauth_start P H client)
     else if String.eqb command "cisco-webex-oauth-complete" then
       let* result := oauth_complete P client args in
       return_results P H result
     else if String.eqb command "cisco-webex-oauth-test" then
       let* result := oauth_test P cls client in
       return_results P H result
     else if String.eqb command "cisco-webex-get-admin-audit-events" then
       events_command
         P H fuel (ClientFunction P "get_admin_audits" (get_admin_audits P a)) args
     else if String.eqb command "cisco-webex-get-security-audit-events" then
       events_command
         P H fuel (ClientFunction P "get_security_audits" (get_security_audits P a))
         args
     else if String.eqb command "cisco-webex-get-compliance-officer-events" then
       events_command
         P H fuel (ClientFunction P "get_compliance_officer_events"
                                  (get_compliance_officer_events P co))
         args
     else if String.eqb command "fetch-events" then
       let* last_run := getLastRun P in
       let* '(events, next_run) :=
         fetch_events P fuel a co last_run max_fetch in
       send_events_to_xsiam P events VENDOR PRODUCT >>
       setLastRun P next_run
     else ret tt) s2.
Proof.
  intros Ha Hco. unfold attempt.
  by rewrite (bind_ok _ _ _ _ _ Ha), (bind_ok _ _ _ _ _ Hco).
Qed.

Lemma eqb_known (command known : string) :
  command <> known -> String.eqb command known = false.
Proof. intros Hne. by apply String.eqb_neq. Qed.

(** X19.  The command test-module never succeeds: when both clients
    can be built it fails with the instructions for the authorization,
    reported under its own heading.  A command [main] does not know is
    accepted without a word: the clients are built and [main] returns. *)
Theorem test_module_fails_and_unknown_commands_pass
        (fuel : nat) (params : demisto_params) (args : gmap string pyval)
        (s : state P) :
  is_ok (main P H fuel "test-module" params args s).1 = false
  /\ forall (n : option Z) (a co : client) (s1 s2 : state P),
      arg_to_number H (dict_get_or args "max_fetch" (VInt DEFAULT_MAX_FETCH))
      = Ok n ->
      AdminClient P (admin_identifier params) (admin_password params)
                  (admin_app_redirect_uri params)
                  (Some "audit:events_read spark:kms") (admin_org_id params) s
      = (Ok a, s1) ->
      ComplianceOfficerClient
        P (compliance_officer_identifier params)
        (compliance_officer_password params)
        (compliance_officer_redirect_uri params)
        (Some "spark-compliance:events_read spark:kms") s1
      = (Ok co, s2) ->
      main P H fuel "test-module" params args s
      = return_error
          P (msg_failed "test-module" (Exn DemistoException msg_test_module)) s2
      /\ forall command,
          command ∉ commands ->
          main P H fuel command params args s = (Ok tt, s2).
Proof.
  split.
  - destruct (arg_to_number H (dict_get_or args "max_fetch" (VInt DEFAULT_MAX_FETCH)))
      as [n|e'| |] eqn:Hn.
    + rewrite (main_attempt _ _ _ _ _ n Hn). unfold try_except, attempt.
      unfold Py.bind at 1.
      destruct (AdminClient P _ _ _ _ _ s) as [[a|e| |] s1];
        [|apply return_error_fails|done|done].
      unfold Py.bind at 1.
      destruct (ComplianceOfficerClient P _ _ _ _ s1) as [[co|e| |] s2];
        [|apply return_error_fails|done|done].
      simpl. apply return_error_fails.
    + unfold main, lift, Py.bind at 1. by rewrite Hn.
    + unfold main, lift, Py.bind at 1. by rewrite Hn.
    + unfold main, lift, Py.bind at 1. by rewrite Hn.
  - intros n a co s1 s2 Hn Ha Hco. split.
    + rewrite (main_attempt _ _ _ _ _ n Hn). unfold try_except.
      by rewrite (attempt_with_clients _ _ _ _ _ _ _ _ _ _ Ha Hco).
    + intros command Hnot.
      rewrite (main_attempt _ _ _ _ _ n Hn). unfold try_except.
      rewrite (attempt_with_clients _ _ _ _ _ _ _ _ _ _ Ha Hco).
      unfold commands, events_commands in Hnot. simpl in Hnot.
      repeat (apply not_elem_of_cons in Hnot as [?%eqb_known Hnot]).
      cbv zeta. by repeat match goal with Heq : String.eqb _ _ = false |- _ =>
                                  rewrite Heq; clear Heq end.
Qed.

(** X20.  Once the refresh token stored for the admin has expired, no
    command can be run: [main] builds both clients before it looks at the
    command, so every command, cisco-webex-oauth-start and
    cisco-webex-oauth-complete among them, fails with the error that asks
    to run cisco-webex-oauth-start; nothing is requested and the expired
    tokens stay in store. *)
Theorem expired_refresh_token_blocks_every_command
        (fuel : nat) (command : string) (params : demisto_params)
        (args : gmap string pyval) (s s1 : state P) (n : option Z)
        (uic : gmap string pyval) (t refresh_expiry : Z) (sr : string) :
  arg_to_number H (dict_get_or args "max_fetch" (VInt DEFAULT_MAX_FETCH)) = Ok n ->
  integration_context s !! "admin" = Some uic ->
  uic <> ∅ ->
  datetime_utcnow P s = (Ok t, s1) ->
  dict_get uic "refresh_token_expires_in" = VStr sr ->
  parse P sr = Some refresh_expiry ->
  (refresh_expiry < t)%Z ->
  let admin :=
    Client "admin" (admin_identifier params) (admin_password params)
           (admin_app_redirect_uri params) (Some "audit:events_read spark:kms")
           (admin_org_id params) None in
  main P H fuel command params args s
  = return_error
      P (msg_failed command (Exn DemistoException (msg_refresh_expired admin))) s1
  /\ is_ok (main P H fuel command params args s).1 = false
  /\ trace s1 = trace s
  /\ integration_context s1 = integration_context s
  /\ contains "cisco-webex-oauth-start" (msg_refresh_expired admin) = true.
Proof.
  intros Hn Huic Hne Ht Hsr Hre Hlt admin.
  pose proof (refresh_expired_run P admin s s1 uic t refresh_expiry sr
                Huic Hne Ht Hsr Hre Hlt) as Hget.
  assert (Hmain : main P H fuel command params args s
                  = return_error
                      P (msg_failed command
                           (Exn DemistoException (msg_refresh_expired admin))) s1).
  { rewrite (main_attempt _ _ _ _ _ n Hn). unfold try_except, attempt.
    unfold AdminClient at 1, init_headers at 1. fold admin.
    by rewrite (bind_raise _ _ _ _ _ (bind_raise _ _ _ _ _ Hget)). }
  split; [done|]. rewrite Hmain. split; [apply return_error_fails|].
  destruct (utcnow_frame P _ _ _ Ht) as (? & ? & _).
  split; [done|]. split; [done|]. reflexivity.
Qed.

Lemma requests_then_nothing (s s' : state P) :
  only_requests P s s' -> at_most_a_delivery P s s' None.
Proof.
  intros (Hstore & extra & Htrace & Hreq). split; [done|].
  exists extra. by rewrite app_nil_r.
Qed.

Lemma delivery_after_requests (s s1 s2 : state P) delivered :
  only_requests P s s1 -> at_most_a_delivery P s1 s2 delivered ->
  at_most_a_delivery P s s2 delivered.
Proof.
  intros (Hstore & e1 & T1 & F1) (Hstore2 & e2 & F2 & T2). split; [congruence|].
  exists (e1 ++ e2). split; [by apply Forall_app|].
  by rewrite T2, T1, <- !app_assoc.
Qed.

(** What a command that lists events leaves in the trace. *)
Lemma events_command_run fuel cf args (s : state P) :
  requesting P cf ->
  exists delivered,
    at_most_a_delivery P s (events_command P H fuel cf args s).2 delivered
    /\ (is_Some delivered ->
        argToBoolean H (args !! "should_push_events") = Ok true
        /\ (events_command P H fuel cf args s).1 = Ok tt).
Proof.
  intros Hcf.
  remember (events_command P H fuel cf args s) as run eqn:Hrun.
  unfold events_command in Hrun.
  destruct (get_events_command P H fuel cf args s) as [o s1] eqn:E.
  pose proof (run_only_requests _ _ _ _ (requests_get_events_command fuel cf args Hcf) E)
    as Hreq.
  unfold Py.bind at 1 in Hrun. rewrite E in Hrun.
  destruct o as [[command_results events]|e| |];
    try (subst run; exists None;
         split; [by apply requests_then_nothing | by intros [? ?]]).
  unfold Py.bind at 1, return_results at 1 in Hrun.
  set (s2 := with_world P s1 _ []) in Hrun.
  assert (Hreq2 : only_requests P s s2).
  { etrans; [exact Hreq|]. by apply only_requests_with_world. }
  unfold Py.bind at 1, lift in Hrun.
  destruct (argToBoolean H (args !! "should_push_events")) as [[|]|e| |];
    try (subst run; exists None;
         split; [by apply requests_then_nothing | by intros [? ?]]).
  unfold send_events_to_xsiam in Hrun.
  destruct (xsiam P events VENDOR PRODUCT (world s2)) as [o w].
  destruct o as [[]|e| |]; simpl in Hrun; subst run;
    try (exists None; split; [|by intros [? ?]];
         apply requests_then_nothing; etrans; [exact Hreq2|];
         by apply only_requests_with_world).
  exists (Some events). split; [|done].
  apply (delivery_after_requests s s2); [done|].
  split; [done|]. exists []. by split.
Qed.

(** What a command other than fetch-events leaves in the trace. *)
Lemma attempt_run fuel command params args max_fetch (s : state P) :
  command <> "fetch-events" ->
  exists delivered,
    at_most_a_delivery
      P s (attempt P H fuel command params args max_fetch s).2 delivered
    /\ (is_Some delivered ->
        command ∈ events_commands
        /\ argToBoolean H (args !! "should_push_events") = Ok true
        /\ (attempt P H fuel command params args max_fetch s).1 = Ok tt).
Proof.
  intros Hcommand.
  remember (attempt P H fuel command params args max_fetch s) as run eqn:Hrun.
  unfold attempt in Hrun. unfold Py.bind at 1 in Hrun.
  destruct (AdminClient P _ _ _ _ _ s) as [oa s1] eqn:Ea.
  pose proof (run_only_requests _ _ _ _ (requests_init_headers _) Ea) as R1.
  destruct oa as [a|e| |];
    try (subst run; exists None;
         split; [by apply requests_then_nothing | by intros [? ?]]).
  unfold Py.bind at 1 in Hrun.
  destruct (ComplianceOfficerClient P _ _ _ _ s1) as [oc s2] eqn:Ec.
  pose proof (run_only_requests _ _ _ _ (requests_init_headers _) Ec) as R2.
  assert (R02 : only_requests P s s2) by (etrans; eauto).
  destruct oc as [co|e| |];
    try (subst run; exists None;
         split; [by apply requests_then_nothing | by intros [? ?]]).
  cbv zeta in Hrun.
  assert (Hquiet : forall m : M (state P) unit,
             preserves (only_requests P) m ->
             exists delivered,
               at_most_a_delivery P s (m s2).2 delivered
               /\ (is_Some delivered ->
                   command ∈ events_commands
                   /\ argToBoolean H (args !! "should_push_events") = Ok true
                   /\ (m s2).1 = Ok tt)).
  { intros m Hm. exists None. split; [|by intros [? ?]].
    apply requests_then_nothing. etrans; [exact R02 | apply Hm]. }
  assert (Hevents : forall cf,
             requesting P cf -> command ∈ events_commands ->
             exists delivered,
               at_most_a_delivery P s (events_command P H fuel cf args s2).2 delivered
               /\ (is_Some delivered ->
                   command ∈ events_commands
                   /\ argToBoolean H (args !! "should_push_events") = Ok true
                   /\ (events_command P H fuel cf args s2).1 = Ok tt)).
  { intros cf Hcf Hin.
    destruct (events_command_run fuel cf args s2 Hcf) as (delivered & Hd & Hpush).
    exists delivered. split; [by apply (delivery_after_requests s s2)|].
    intros Hsome. by destruct (Hpush Hsome). }
  destruct (String.eqb command "test-module").
  { subst run. apply (Hquiet (test_module P)). requests. }
  destruct (String.eqb command "cisco-webex-oauth-start").
  { subst run. apply (Hquiet (return_results P H _)). requests. }
  destruct (String.eqb command "cisco-webex-oauth-complete").
  { subst run. apply (Hquiet (Py.bind (oauth_complete P _ args) _)).
    apply preserves_bind; [apply _ | apply requests_oauth_complete | intros ?; requests]. }
  destruct (String.eqb command "cisco-webex-oauth-test").
  { subst run. apply (Hquiet (Py.bind (oauth_test P _ _) _)).
    apply preserves_bind; [apply _ | apply requests_oauth_test | intros ?; requests]. }
  destruct (String.eqb command "cisco-webex-get-admin-audit-events") eqn:E1.
  { apply String.eqb_eq in E1 as ->. subst run.
    apply Hevents; [apply requesting_admin_audits|]. unfold events_commands.
    set_solver. }
  destruct (String.eqb command "cisco-webex-get-security-audit-events") eqn:E2.
  { apply String.eqb_eq in E2 as ->. subst run.
    apply Hevents; [apply requesting_security_audits|]. unfold events_commands.
    set_solver. }
  destruct (String.eqb command "cisco-webex-get-compliance-officer-events") eqn:E3.
  { apply String.eqb_eq in E3 as ->. subst run.
    apply Hevents; [apply requesting_officer_events|]. unfold events_commands.
    set_solver. }
  destruct (String.eqb command "fetch-events") eqn:E4.
  { by apply String.eqb_eq in E4. }
  subst run. apply (Hquiet (ret tt)). requests.
Qed.

(** X21.  Only fetch-events touches the checkpoints: under every other
    command [main] leaves the stored last run alone and never calls
    setLastRun.  And events are delivered under the three listing
    commands only, when [should_push_events] is true, as the last thing a
    successful run does; before that [main] only sends requests. *)
Theorem only_fetch_events_persists
        (fuel : nat) (command : string) (params : demisto_params)
        (args : gmap string pyval) (s : state P) :
  command <> "fetch-events" ->
  let r := main P H fuel command params args s in
  exists delivered,
    at_most_a_delivery P s r.2 delivered
    /\ (is_Some delivered ->
        command ∈ events_commands
        /\ argToBoolean H (args !! "should_push_events") = Ok true
        /\ r.1 = Ok tt).
Proof.
  intros Hcommand r. subst r.
  destruct (arg_to_number H (dict_get_or args "max_fetch" (VInt DEFAULT_MAX_FETCH)))
    as [n|e'| |] eqn:Hn.
  - rewrite (main_attempt _ _ _ _ _ n Hn). unfold try_except.
    destruct (attempt_run fuel command params args (max_fetch_of n) s Hcommand)
      as (delivered & Hd & Hpush).
    destruct (attempt P H fuel command params args (max_fetch_of n) s)
      as [[[]|e| |] s0]; simpl in *.
    + exists delivered. done.
    + destruct (return_error_fails P (A := unit) (msg_failed command e) s0)
        as [Hs _].
      rewrite Hs. exists None. split; [|by intros [? ?]].
      destruct delivered as [events|]; [|done].
      by destruct (Hpush (mk_is_Some _ _ eq_refl)) as (_ & _ & ?).
    + exists delivered. done.
    + exists delivered. done.
  - unfold main, lift, Py.bind at 1. rewrite Hn. simpl.
    exists None. split; [by apply requests_then_nothing | by intros [? ?]].
  - unfold main, lift, Py.bind at 1. rewrite Hn. simpl.
    exists None. split; [by apply requests_then_nothing | by intros [? ?]].
  - unfold main, lift, Py.bind at 1. rewrite Hn. simpl.
    exists None. split; [by apply requests_then_nothing | by intros [? ?]].
Qed.

Lemma init_headers_user c (s s' : state P) c' :
  init_headers P c s = (Ok c', s') -> user c' = user c.
Proof.
  unfold init_headers, Py.bind.
  destruct (get_access_token P c s) as [[tok| | |] s0]; try done.
  by intros [= <- <-].
Qed.

(** X22.  cisco-webex-oauth-complete exchanges the [code] argument for
    tokens and stores them under the user the [user] argument selects:
    under [admin] when the argument is exactly that word, and under
    [compliance_officer] for every other value and when the argument is
    missing; the lifetimes the reply names are ones the calendar holds. *)
Theorem oauth_complete_stores_under_the_selected_user
        (fuel : nat) (params : demisto_params) (args : gmap string pyval)
        (s s1 s2 s3 s4 : state P) (n : option Z) (a co : client)
        (result : gmap string pyval) (now e re : Z) :
  arg_to_number H (dict_get_or args "max_fetch" (VInt DEFAULT_MAX_FETCH)) = Ok n ->
  AdminClient P (admin_identifier params) (admin_password params)
              (admin_app_redirect_uri params)
              (Some "audit:events_read spark:kms") (admin_org_id params) s
  = (Ok a, s1) ->
  ComplianceOfficerClient
    P (compliance_officer_identifier params)
    (compliance_officer_password params)
    (compliance_officer_redirect_uri params)
    (Some "spark-compliance:events_read spark:kms") s1
  = (Ok co, s2) ->
  create_access_token
    P (if bool_decide (dict_get args "user" = VStr "admin") then a else co)
    "authorization_code" (dict_get args "code") VNone s2
  = (Ok result, s3) ->
  datetime_utcnow P s3 = (Ok now, s4) ->
  dict_get_or result "expires_in" (VInt 0) = VInt e ->
  dict_get_or result "refresh_token_expires_in" (VInt 0) = VInt re ->
  in_calendar now e ->
  in_calendar now re ->
  exists s',
    main P H fuel "cisco-webex-oauth-complete" params args s = (Ok tt, s')
    /\ integration_context s'
       = <[(if bool_decide (dict_get args "user" = VStr "admin")
            then "admin" else "compliance_officer")
           := token_record P result now (e * 1000000) (re * 1000000)]>
           (integration_context s2).
Proof.
  intros Hn Ha Hco Hcreate Hnow He Hre Hce Hcre.
  pose proof (init_headers_user _ _ _ _ Ha) as Hua.
  pose proof (init_headers_user _ _ _ _ Hco) as Huc. simpl in Hua, Huc.
  set (chosen := if bool_decide (dict_get args "user" = VStr "admin") then a else co)
    in *.
  assert (Huser : user chosen
                  = if bool_decide (dict_get args "user" = VStr "admin")
                    then "admin" else "compliance_officer").
  { unfold chosen. by destruct (bool_decide _). }
  pose proof (save_tokens_run P chosen result s3 s4 now e re Hnow He Hre Hce Hcre)
    as Hsave.
  rewrite (create_access_token_context P _ _ _ _ _ _ _ Hcreate), Huser in Hsave.
  eexists. split.
  - rewrite (main_attempt _ _ _ _ _ n Hn). unfold try_except.
    rewrite (attempt_with_clients _ _ _ _ _ _ _ _ _ _ Ha Hco).
    cbv zeta. fold chosen.
    change (String.eqb "cisco-webex-oauth-complete" "test-module") with false.
    change (String.eqb "cisco-webex-oauth-complete" "cisco-webex-oauth-start")
      with false.
    change (String.eqb "cisco-webex-oauth-complete" "cisco-webex-oauth-complete")
      with true.
    cbv iota.
    assert (Hstore : Webex.oauth_complete P chosen (dict_get args "code") s2
                     = (Ok tt,
                        with_context
                          P (<[(if bool_decide (dict_get args "user" = VStr "admin")
                                then "admin" else "compliance_officer")
                               := token_record P result now (e * 1000000)
                                               (re * 1000000)]>
                               (integration_context s2)) s4)).
    { unfold Webex.oauth_complete. by rewrite (bind_ok _ _ _ _ _ Hcreate). }
    assert (Hcommand : oauth_complete P chosen args s2
                       = (Ok (Results
         ("### Logged in successfully." +:+ nl
          +:+ "A refresh token was saved to the integration context. This token will be used to "
          +:+ "generate a new access token once the current one expires." +:+ nl
          +:+ "In order to complete the test process please run the `!cisco-oauth-test command`.")),
                          with_context
                            P (<[(if bool_decide (dict_get args "user" = VStr "admin")
                                  then "admin" else "compliance_officer")
                                 := token_record P result now (e * 1000000)
                                                 (re * 1000000)]>
                                 (integration_context s2)) s4)).
    { unfold oauth_complete. by rewrite (bind_ok _ _ _ _ _ Hstore). }
    rewrite (bind_ok _ _ _ _ _ Hcommand). reflexivity.
  - reflexivity.
Qed.

End Commands.
End WebexCommandFacts.

(** * The runs, checked *)

Module ServiceNowCases.
Import ServiceNow ServiceNowSpec PyFacts ServiceNowFacts ServiceNowRuns.

(** Two calls whose 401 is not followed by exactly one retry.  In the
    first the stored token is good until 5000 and the clock reads 1000
    when the request is answered 401: the error is raised after that one
    request, and the stored token is the one there was.  In the second
    every token obtained has expired by the time the request is answered:
    the request goes out three times. *)
Lemma a_401_is_not_retried_exactly_once :
  (let r := http_request P 5 oauth_client list_incidents fresh0 in
   r.1 = Raise (Exn DemistoException (msg_unauthorized P unauthorized))
   /\ sent r.2 = [(by_http_request, api_request list_incidents, Ok unauthorized)]
   /\ integration_context r.2 = stored 5000)
  /\ (let r := http_request P 5 oauth_client list_incidents brief0 in
      r.1 = Ok (Some {[ "result" := VStr "INC0010001" ]})
      /\ api_requests (sent r.2)
         = [ api_request list_incidents;
             api_request (retry_call list_incidents);
             api_request (retry_call list_incidents) ]).
Proof. split; intros r; conjuncts; computed. Qed.

(** Both cases of the 401 branch: a token still good, no retry; a token
    that expired while the request was under way, one retry. *)
Lemma http_request_401_witness :
  (exists o,
      http_request P 1 oauth_client list_incidents fresh0 = (o, fresh3)
      /\ is_ok o = false
      /\ (_verify oauth_client = false ->
          o = Raise (Exn DemistoException (msg_unauthorized P unauthorized)))
      /\ integration_context fresh3 = integration_context fresh1
      /\ sent fresh3
         = sent fresh1
           ++ [(by_http_request, api_request list_incidents, Ok unauthorized)]
      /\ exists extra,
          sent fresh3 = sent fresh0 ++ extra
          /\ api_requests extra = [api_request list_incidents])
  /\ (exists o,
        http_request P 2 oauth_client list_incidents stale0 = (o, stale7)
        /\ is_ok o = false
        /\ (_verify oauth_client = false ->
            o = Raise (Exn DemistoException (msg_unauthorized P unauthorized)))
        /\ exists extra,
            sent stale7 = sent stale0 ++ extra
            /\ api_requests extra
               = [api_request list_incidents;
                  api_request (retry_call list_incidents)]).
Proof.
  split.
  - apply (proj1 (http_request_retries_only_an_expired_token
                    P 0 oauth_client list_incidents fresh0 fresh1 fresh2 fresh3
                    unauthorized 1000 5000
                    eq_refl ltac:(ran)
                    ltac:(ran) eq_refl
                    ltac:(ran)
                    ltac:(computed))).
    lia.
  - apply (proj2 (http_request_retries_only_an_expired_token
                    P 0 oauth_client list_incidents stale0 stale1 stale2 stale3
                    unauthorized 1001 1001
                    eq_refl ltac:(ran)
                    ltac:(ran) eq_refl
                    ltac:(ran)
                    ltac:(computed)))
      with (s4 := stale4) (s5 := stale5) (s6 := stale6) (res' := unauthorized)
           (t' := 1005%Z) (expiry' := 3600993%Z);
      first [ran | computed].
Defined.

End ServiceNowCases.

Module WebexCases.
Import Webex WebexSpec PyFacts WebexFacts WebexRuns.

Lemma cycle_run : cycle P 5 2 stored_last_run listings c0 fetched_pages c4.
Proof.
  apply cycle_step with (s1 := c1).
  { exists c1. split; [ran|].
    split; [by eexists|]. split; [simpl; lia|].
    apply page_run_stop. left. reflexivity. }
  apply cycle_step with (s1 := c2).
  { exists c2. split; [ran|].
    split; [by eexists|]. split; [simpl; lia|].
    apply page_run_stop. left. reflexivity. }
  apply cycle_step with (s1 := c4).
  { exists c3. split; [ran|].
    split; [by eexists|]. split; [simpl; lia|].
    apply page_run_next with (s1 := c4);
      [ reflexivity | simpl; lia | ran
      | by eexists | ].
    apply page_run_stop. right. simpl. lia. }
  apply cycle_done.
Defined.

Lemma start_run :
  (if bool_decide (stored_last_run = ∅) then create_last_run P
   else ret stored_last_run) c0
  = (Ok stored_last_run, c0).
Proof. reflexivity. Defined.





Lemma tagged_admin :
  events_of P (Fetched P "admin_audits" admin_audits page1 [])
  = [ tagged "Admin Audit Events" (event "1" "2023-01-01T01:00:00.000Z");
      tagged "Admin Audit Events" (event "2" "2023-01-01T02:00:00.123Z") ].
Proof. reflexivity. Defined.

Lemma tagged_officer :
  events_of P (Fetched P "compliance_officer_events" officer_events page3 [page4])
  = [ tagged "Events" (event "3" "2023-01-01T03:00:00.000Z");
      tagged "Events" (event "4" "2023-01-01T04:00:00.000Z") ].
Proof. reflexivity. Defined.

Ltac created_at c t :=
  exists c, t; split; [reflexivity | split; [reflexivity | vm_compute; discriminate]].

Ltac window :=
  exists (checkpoint "2023-01-01T00:00:00.000Z" ""),
         "2023-01-01T00:00:00.000Z", 1672531200000000%Z;
  split; [reflexivity | split; [reflexivity | split; [reflexivity|]]].

Lemma fetch_events_monotone_witness :
  exists lr',
    fetch_events P 5 admin officer stored_last_run 2 c0
    = (Ok (concat (events_of P <$> fetched_pages), lr'), c4)
    /\ Forall (fun f =>
                 exists cp cp' since since' T T',
                   stored_last_run !! event_type P f = Some cp
                   /\ lr' !! event_type P f = Some cp'
                   /\ cp !! "since_datetime" = Some (VStr since)
                   /\ parse P since = Some T
                   /\ cp' !! "since_datetime" = Some (VStr since')
                   /\ parse P since' = Some T'
                   /\ (T <= T')%Z
                   /\ cp' !! "next_url"
                      = Some (next_link (last_page (first_page P f)
                                                   (more_pages P f)))
                   /\ (links (last_page (first_page P f) (more_pages P f))
                       !! "next" = None ->
                       cp' !! "next_url" = Some (VStr "")))
              fetched_pages.
Proof.
  apply (fetch_events_checkpoints_monotone
           P 5 2 admin officer stored_last_run stored_last_run c0 c0 c4
           fetched_pages start_run cycle_run).
  repeat apply Forall_cons_2; try apply Forall_nil_2; split.
  - window. rewrite tagged_admin.
    repeat apply Forall_cons_2; try apply Forall_nil_2.
    + created_at "2023-01-01T01:00:00.000Z" 1672534800000000%Z.
    + created_at "2023-01-01T02:00:00.123Z" 1672538400123000%Z.
  - unfold reads_back. rewrite tagged_admin. simpl last.
    intros created t Hc Hp.
    assert (created = "2023-01-01T02:00:00.123Z") as -> by (by injection Hc).
    assert (t = 1672538400123000%Z) as -> by (by injection Hp).
    reflexivity.
  - window. apply Forall_nil_2.
  - exact I.
  - window. rewrite tagged_officer.
    repeat apply Forall_cons_2; try apply Forall_nil_2.
    + created_at "2023-01-01T03:00:00.000Z" 1672542000000000%Z.
    + created_at "2023-01-01T04:00:00.000Z" 1672545600000000%Z.
  - unfold reads_back. rewrite tagged_officer. simpl last.
    intros created t Hc Hp.
    assert (created = "2023-01-01T04:00:00.000Z") as -> by (by injection Hc).
    assert (t = 1672545600000000%Z) as -> by (by injection Hp).
    reflexivity.
Defined.

(** The request for the second page of events is answered with an
    error: the run fails and the stored last run is the one there was. *)
Lemma broken_cycle_witness :
  let r := main P 5 instance_params (Some 2%Z) b0 in
  is_ok r.1 = false /\ last_run_store r.2 = stored_last_run.
Proof.
  intros r.
  destruct (checkpoint_persisted_only_after_delivery
              P 5 instance_params (Some 2%Z) b0)
    as ((extra & _ & Hfail & _) & _ & Hsteps).
  destruct (Hsteps admin b1 ltac:(ran)) as [_ Hofficer].
  destruct (Hofficer officer b2 ltac:(ran)) as (Hcycle & _).
  assert (Hr : is_ok r.1 = false).
  { apply (Hcycle stored_last_run b2 eq_refl).
    apply cycle_fails_later with (first := page1) (rest := []) (s1 := b3).
    { exists b3. split; [ran|].
      split; [by eexists|]. split; [simpl; lia|].
      apply page_run_stop. left. reflexivity. }
    apply cycle_fails_later with (first := page2) (rest := []) (s1 := b4).
    { exists b4. split; [ran|].
      split; [by eexists|]. split; [simpl; lia|].
      apply page_run_stop. left. reflexivity. }
    apply cycle_fails_now. right. exists page3, b5.
    split; [ran|]. split; [by eexists|].
    apply page_fails_now; [reflexivity | computed | exact I]. }
  split; [exact Hr|]. by apply Hfail.
Defined.

Lemma pagination_witness :
  get_events_with_pagination P 5 officer_events since0 2 (VStr "") c2
  = (Ok ([ tagged "Events" (event "3" "2023-01-01T03:00:00.000Z");
           tagged "Events" (event "4" "2023-01-01T04:00:00.000Z") ],
         VStr "https://webexapis.com/v1/events?p=3"), c4).
Proof.
  apply (proj2 (get_events_with_pagination_pages
                  P officer_events since0 2 5 (VStr "") c2 c4 _ _)).
  exists page3, [page4], c3.
  split; [ran|].
  split; [by eexists|]. split; [simpl; lia|].
  split; [|split; [reflexivity|split; [reflexivity|intros _; simpl; lia]]].
  apply page_run_next with (s1 := c4);
    [ reflexivity | simpl; lia | ran
    | by eexists | ].
  apply page_run_stop. right. simpl. lia.
Defined.

End WebexCases.

Module TokenCases.
Import WebexSpec PyFacts TokenRuns.

(** *** Counterexamples *)

(** The refresh token R0 is in store; the refresh response names none;
    afterwards the store holds [None] for it. *)
Lemma refresh_drops_stored_refresh_token :
  let r := SN.get_access_token PS SR.oauth_client e0 in
  SN.integration_context e0 !! "refresh_token" = Some (VStr "R0")
  /\ r.1 = Ok (VStr "A1")
  /\ SN.integration_context r.2 !! "refresh_token" = Some VNone.
Proof. intros r. conjuncts; computed. Qed.

(** The token exchange of the Webex client is answered with a body that
    carries an [error] field: the call returns, and the stored token of
    the admin is replaced by a record without tokens. *)
Lemma webex_error_body_is_stored :
  let r := WX.get_access_token PW WR.admin
             (w0 {[ "error" := VStr "invalid_grant" ]}) in
  r.1 = Ok VNone
  /\ expired_tokens !! "admin"
     = Some (WR.token "A" "2023-01-01T09:00:00.000Z" "R" "2023-03-01T00:00:00.000Z")
  /\ WX.integration_context r.2 !! "admin"
     = Some {[ "access_token_expires_in" := VStr "2023-01-01T10:00:00.000Z";
               "refresh_token_expires_in" := VStr "2023-01-01T10:00:00.000Z" ]}.
Proof. intros r. conjuncts; computed. Qed.

(** With nothing in store the Webex client obtains [None] for a token,
    raises nothing, and goes on to request events with it. *)
Lemma webex_missing_token_is_not_an_error :
  let r := WX.AdminClient PW "id" "secret" VNone None (VStr "org") h0 in
  WX.get_access_token PW WR.admin h0 = (Ok VNone, h0)
  /\ WX._headers <$> (match r.1 with Ok c => Some c | _ => None end)
     = Some (Some {[ "Authorization" := "Bearer None" ]})
  /\ r.2 = h0.
Proof. repeat split. Qed.

(** At ten o'clock sharp a token good for 3600 seconds is stored as
    expiring at eleven o'clock sharp: nothing is subtracted. *)
Lemma webex_expiry_has_no_margin :
  let r := WX.save_tokens_to_integration_context PW WR.admin refreshed h0 in
  r.1 = Ok tt
  /\ (WX.integration_context r.2 !! "admin") ≫= (.!! "access_token_expires_in")
     = Some (VStr "2023-01-01T11:00:00.000Z")
  /\ Iso8601.parse "2023-01-01T11:00:00.000Z"
     = Some (WR.ten_o_clock + 3600 * 1000000)%Z.
Proof. intros r. conjuncts; computed. Qed.

(** *** Witnesses *)

Lemma refresh_overwrites_witness :
  (exists s',
      SN.get_access_token PS SR.oauth_client e0
      = (Ok (dict_get refreshed "access_token"), s')
      /\ SN.integration_context s'
         = {[ "access_token" := dict_get refreshed "access_token";
              "refresh_token" := dict_get refreshed "refresh_token";
              "expiry_time" := VInt (1000 + (3600 * 1000 - 10)) ]}
      /\ (refreshed !! "refresh_token" = None ->
          SN.integration_context s' !! "refresh_token" = Some VNone))
  /\ (exists s',
        WX.get_access_token PW WR.admin g0
        = (Ok (dict_get refreshed "access_token"), s')
        /\ WX.integration_context s'
           = <[WX.user WR.admin :=
                 token_record PW refreshed WR.ten_o_clock (3600 * 1000000)
                              (0 * 1000000)]>
               (WX.integration_context g0)
        /\ (refreshed !! "refresh_token" = None ->
            forall record,
              WX.integration_context s' !! WX.user WR.admin = Some record ->
              record !! "refresh_token" = None)).
Proof.
  split.
  - apply (proj1 (TokenClaims.refresh_overwrites_the_stored_record PS PW)
                 SR.oauth_client e0 e1 e2 e3 (VStr "R0") (SR.token_reply 3600)
                 refreshed 1000%Z 3600%Z);
      first [ ran | computed ].
  - apply (proj2 (TokenClaims.refresh_overwrites_the_stored_record PS PW)
                 WR.admin g0 g1 g2 g3 g4
                 (WR.token "A" "2023-01-01T09:00:00.000Z" "R"
                           "2023-03-01T00:00:00.000Z")
                 refreshed WR.ten_o_clock WR.ten_o_clock
                 1677628800000000%Z 1672563600000000%Z WR.ten_o_clock
                 3600%Z 0%Z
                 "2023-03-01T00:00:00.000Z" "2023-01-01T09:00:00.000Z");
      first [ ran | computed ].
Defined.

Lemma stored_expiry_margin_witness :
  (exists s' stored,
      SN.get_access_token PS SR.oauth_client e0
      = (Ok (dict_get refreshed "access_token"), s')
      /\ SN.integration_context s' !! "expiry_time" = Some (VInt stored)
      /\ stored = (1000 + 3600 * 1000 - 10)%Z
      /\ (stored < 1000 + 3600 * 1000)%Z)
  /\ (exists s' record,
        WX.save_tokens_to_integration_context PW WR.admin refreshed h0
        = (Ok tt, s')
        /\ WX.integration_context s' !! WX.user WR.admin = Some record
        /\ record !! "access_token_expires_in"
           = Some (VStr (WX.date_time_to_iso_format
                           PW (WR.ten_o_clock + 3600 * 1000000)))).
Proof.
  split.
  - apply (proj1 (TokenClaims.stored_expiry_margin PS PW)
                 SR.oauth_client e0 e1 e2 e3 (VStr "R0") (SR.token_reply 3600)
                 refreshed 1000%Z 3600%Z);
      first [ ran | computed ].
  - apply (proj2 (proj2 (TokenClaims.stored_expiry_margin PS PW))
                 WR.admin refreshed h0 h0 WR.ten_o_clock 3600%Z 0%Z);
      first [ ran | computed ].
Defined.

Lemma error_reply_witness :
  let r := SN.get_access_token PS SR.oauth_client f0 in
  is_ok r.1 = false
  /\ (exists msg,
         failure_message r.1 = Some msg
         /\ ends_with msg (SN.str_dict PS {[ "error" := VStr "invalid_grant" ]}))
  /\ SN.integration_context r.2 = SN.integration_context f0.
Proof.
  apply (proj1 (TokenClaims.error_reply_fails_without_writing PS PW)
               SR.oauth_client f0
               [(SN.by_get_access_token,
                 SN.refresh_request SR.oauth_client (VStr "R0"),
                 Ok SR.error_reply)]
               ltac:(computed)
               SN.by_get_access_token
               (SN.refresh_request SR.oauth_client (VStr "R0"))
               SR.error_reply {[ "error" := VStr "invalid_grant" ]}).
  - apply list_elem_of_singleton. reflexivity.
  - discriminate.
  - reflexivity.
  - reflexivity.
Defined.

Lemma missing_token_witness :
  (SN.get_access_token PS SR.oauth_client n0
   = (Raise (Exn Exception SN.msg_not_logged_in), n0)
   /\ contains "servicenow-oauth-login" SN.msg_not_logged_in = true
   /\ forall (fuel : nat) (a : SN.call),
       SN.use_oauth SR.oauth_client = true ->
       exists o,
         SN.http_request PS (S fuel) SR.oauth_client a n0 = (o, n0)
         /\ is_ok o = false
         /\ SN.sent n0 = SN.sent n0
         /\ (SN._verify SR.oauth_client = false ->
             o = Raise (Exn DemistoException SN.msg_not_logged_in)))
  /\ (WX.get_access_token PW WR.admin h0 = (Ok VNone, h0)
      /\ exists c',
          WX.init_headers PW WR.admin h0 = (Ok c', h0)
          /\ WX._headers c' = Some {[ "Authorization" := "Bearer None" ]}).
Proof.
  split.
  - apply (proj1 (TokenClaims.missing_token PS PW) SR.oauth_client n0 n0);
      [reflexivity | left; split; reflexivity].
  - apply (proj2 (TokenClaims.missing_token PS PW) WR.admin h0). reflexivity.
Defined.

End TokenCases.

Module ServiceNowEdgeCases.
Import ServiceNow ServiceNowSpec ServiceNowTerms PyFacts ServiceNowFacts.
Import ServiceNowRuns ServiceNowEdgeRuns ServiceNowEdges.

(** The token A0, good until 5000, is returned at 1000. *)
Lemma valid_cached_token_witness :
  get_access_token P oauth_client served0 = (Ok (VStr "A0"), served1)
  /\ sent served1 = sent served0
  /\ integration_context served1 = integration_context served0
  /\ _headers served1 = _headers served0.
Proof.
  apply (valid_cached_token_is_reused
           P oauth_client served0 served1 (VStr "A0") 5000 1000);
    first [ran | computed].
Defined.

(** The transport raises: the error leaves as a DemistoException. *)
Lemma http_request_raises_witness :
  surfaced P basic_client (Exn DemistoException "Connection error").
Proof.
  apply (http_request_raises_only_DemistoException
           P 3 basic_client list_incidents down0). computed.
Defined.

Lemma basic_auth_witness :
  let r := http_request P 1 basic_client list_incidents served0 in
  let reply :=
    (transport P (_headers served0) (api_request list_incidents) (world served0)).1 in
  sent r.2 = sent served0 ++ [(by_http_request, api_request list_incidents, reply)]
  /\ integration_context r.2 = integration_context served0
  /\ _headers r.2 = _headers served0
  /\ (forall res j,
        reply = Ok res -> status_code res ∈ [200; 201]%Z -> json res = Some j ->
        r.1 = Ok (Some j))
  /\ (forall res,
        reply = Ok res -> status_code res ∈ [200; 201]%Z -> json res = None ->
        is_ok r.1 = false
        /\ (_verify basic_client = false ->
            r.1 = Raise (Exn DemistoException (msg_unparsed res))))
  /\ (forall res,
        reply = Ok res -> status_code res = 401%Z ->
        is_ok r.1 = false
        /\ (_verify basic_client = false ->
            r.1 = Raise (Exn DemistoException (msg_authorization_failed P res)))).
Proof.
  apply (basic_auth_sends_the_request_only P 0 basic_client list_incidents served0).
  reflexivity.
Defined.

(** The login is answered with the refresh token R1: afterwards R1 is all
    the store holds. *)
Lemma login_witness :
  login P oauth_client "admin" "secret" login0
  = (Ok tt, with_context P {[ "refresh_token" := VStr "R1" ]} login1)
  /\ integration_context
       (with_context P {[ "refresh_token" := VStr "R1" ]} login1)
     !! "access_token" = None.
Proof.
  apply (proj1 (login_keeps_only_the_refresh_token
                  P oauth_client "admin" "secret" login0 login1 login_reply
                  {[ "refresh_token" := VStr "R1" ]}
                  eq_refl ltac:(ran) eq_refl eq_refl)).
  reflexivity.
Defined.

Lemma identity_provider_witness :
  exists s',
    get_access_token P idp_client idp0 = (Ok (VStr "A1"), s')
    /\ sent s'
       = sent idp0 ++ [(by_get_access_token_idp,
                        idp_request idp_client "admin" "secret",
                        Ok (token_reply 3600))]
    /\ full_url (idp_request idp_client "admin" "secret")
       = authentication_url idp_client
    /\ integration_context s' !! "refresh_token" = None
    /\ integration_context s' !! "access_token" = Some (VStr "A1")
    /\ dom (integration_context s') = {[ "access_token"; "expiry_time" ]}.
Proof.
  change (VStr "A1")
    with (dict_get ({[ "access_token" := VStr "A1"; "expires_in" := VInt 3600 ]}
                    : gmap string pyval) "access_token").
  apply (identity_provider_grant_stores_no_refresh_token
           P idp_client idp0 idp1 idp2 idp3 "admin" "secret" (token_reply 3600)
           {[ "access_token" := VStr "A1"; "expires_in" := VInt 3600 ]}
           1000 3600);
    first [ran | computed].
Defined.

Lemma refresh_reply_without_access_token_witness :
  get_access_token P oauth_client vague0 = (Ok VNone, vague2)
  /\ integration_context vague2 = integration_context vague0
  /\ forall (fuel : nat) (a : call),
      use_oauth oauth_client = true ->
      exists o,
        http_request P (S fuel) oauth_client a vague0 = (o, vague2)
        /\ is_ok o = false
        /\ sent vague2
           = sent vague0 ++ [(by_get_access_token,
                              refresh_request oauth_client (VStr "R0"),
                              Ok empty_reply)]
        /\ (_verify oauth_client = false ->
            o = Raise (Exn DemistoException (type_error_text P))).
Proof.
  apply (refresh_reply_without_access_token
           P oauth_client vague0 vague1 vague2 (VStr "R0") empty_reply
           {[ "scope" := VStr "useraccount" ]});
    first [ran | computed].
Defined.

(** The client verifies certificates, as a client usually does. *)
Lemma cached_token_without_expiry_time_witness :
  get_access_token P verifying_client undated0
  = (Raise (Exn KeyError "expiry_time"), undated0)
  /\ forall (fuel : nat) (a : call),
      use_oauth verifying_client = true ->
      http_request P (S fuel) verifying_client a undated0
      = (Raise (Exn DemistoException "expiry_time"), undated0).
Proof.
  apply (cached_token_without_expiry_time P verifying_client undated0 (VStr "A0"));
    computed.
Defined.

Lemma cached_token_is_sent_as_bearer_witness :
  let r := http_request P 1 oauth_client list_incidents served0 in
  r.1 = Ok (Some {[ "result" := VStr "INC0010001" ]})
  /\ sent r.2
     = sent served0 ++ [(by_http_request, api_request list_incidents, Ok incidents)]
  /\ integration_context r.2 = integration_context served0
  /\ _headers r.2 !! "Authorization" = Some ("Bearer " +:+ "A0").
Proof.
  apply (cached_token_is_sent_as_bearer
           P 0 oauth_client list_incidents served0 served1 "A0" 5000 1000 incidents
           (Scripted.SN.Sim 1000 0 []) {[ "result" := VStr "INC0010001" ]});
    first [ran | computed | reflexivity].
Defined.

End ServiceNowEdgeCases.

Module WebexEdgeCases.
Import Webex WebexSpec WebexTerms WebexCommands PyFacts WebexFacts.
Import WebexRuns WebexEdgeRuns WebexEdges WebexCommandFacts.

Lemma expired_refresh_token_witness :
  get_access_token P admin l0
  = (Raise (Exn DemistoException (msg_refresh_expired admin)), l1)
  /\ init_headers P admin l0
     = (Raise (Exn DemistoException (msg_refresh_expired admin)), l1)
  /\ trace l1 = trace l0
  /\ integration_context l1 = integration_context l0
  /\ ends_with (msg_refresh_expired admin)
               ("with the `user` argument set to " +:+ user admin +:+ ".").
Proof.
  apply (expired_refresh_token_is_an_error
           P admin l0 l1 lapsed ten_o_clock 1669852800000000
           "2022-12-01T00:00:00.000Z");
    first [ran | computed].
Defined.

Lemma unexpired_access_token_witness :
  get_access_token P admin c0 = (Ok (VStr "A"), v2)
  /\ trace v2 = trace c0
  /\ integration_context v2 = integration_context c0
  /\ init_headers P admin c0
     = (Ok (Client "admin" "id" "secret" VNone (Some "audit:events_read spark:kms")
                   (VStr "org")
                   (Some {[ "Authorization" := "Bearer " +:+ py_str (VStr "A") ]})),
        v2).
Proof.
  change (VStr "A")
    with (dict_get (token "A" "2023-01-02T00:00:00.000Z" "R"
                          "2023-03-01T00:00:00.000Z") "access_token").
  apply (unexpired_access_token_is_reused
           P admin c0 v1 v2
           (token "A" "2023-01-02T00:00:00.000Z" "R" "2023-03-01T00:00:00.000Z")
           ten_o_clock ten_o_clock 1677628800000000 1672617600000000
           "2023-03-01T00:00:00.000Z" "2023-01-02T00:00:00.000Z");
    first [ran | computed].
Defined.

(** The admin's access token is refreshed and a code is exchanged for
    the admin: what is stored for the compliance officer stays. *)
Lemma tokens_of_other_users_witness :
  integration_context (get_access_token P admin m0).2 !! "compliance_officer"
  = integration_context m0 !! "compliance_officer"
  /\ (forall result,
        integration_context (save_tokens_to_integration_context P admin result m0).2
        !! "compliance_officer"
        = integration_context m0 !! "compliance_officer")
  /\ (forall code,
        integration_context (Webex.oauth_complete P admin code m0).2
        !! "compliance_officer"
        = integration_context m0 !! "compliance_officer").
Proof.
  apply (tokens_of_other_users_are_kept P admin m0 "compliance_officer").
  computed.
Defined.

(** One event is asked for; the first page holds two, and both are
    returned. *)
Lemma pagination_overshoot_witness :
  exists (first : response) (rest : list response),
    served P admin_audits since0 1 5 (VStr "") c0 first rest q1
    /\ length [ tagged "Admin Audit Events" (event "1" "2023-01-01T01:00:00.000Z");
                tagged "Admin Audit Events" (event "2" "2023-01-01T02:00:00.123Z") ]
       = length (concat (page_items <$> first :: rest))
    /\ (forall front final,
          rest = front ++ [final] ->
          (Z.of_nat (length (concat (page_items <$> first :: front))) < 1)%Z)
    /\ ((1 <= 0)%Z -> rest = []).
Proof.
  apply (pagination_overshoots_by_less_than_a_page
           P 5 admin_audits since0 1 (VStr "") c0 q1
           [ tagged "Admin Audit Events" (event "1" "2023-01-01T01:00:00.000Z");
             tagged "Admin Audit Events" (event "2" "2023-01-01T02:00:00.123Z") ]
           (VStr "")).
  ran.
Defined.

Lemma last_run_without_an_event_type_witness :
  fetch_events P 5 admin officer partial_last_run 2 k0
  = (Raise (Exn KeyError "admin_audits"), k1)
  /\ str_exn (Exn KeyError "admin_audits") = "'admin_audits'"
  /\ exists r extra, trace k1 = trace k0 ++ Requested r :: extra.
Proof.
  apply (last_run_without_an_event_type
           P 5 admin officer partial_last_run 2 k0 k1
           [ tagged "Admin Audit Events" (event "1" "2023-01-01T01:00:00.000Z");
             tagged "Admin Audit Events" (event "2" "2023-01-01T02:00:00.123Z") ]
           (VStr ""));
    first [ran | computed].
Defined.

Lemma first_fetch_witness :
  exists lr0,
    fetch_events P 5 admin officer ∅ 2 a0
    = fetch_event_types P 5 2 (event_type_to_client_function P admin officer)
                        ([], lr0) a1
    /\ Forall (fun step =>
                 lr0 !! step.1
                 = Some {[ "since_datetime" :=
                             VStr (date_time_to_iso_format
                                     P (ten_o_clock - 7 * 24 * 3600 * 1000000));
                           "next_url" := VStr "" ]})
              (event_type_to_client_function P admin officer)
    /\ dom lr0
       = list_to_set (event_type_to_client_function P admin officer).*1.
Proof.
  apply (first_fetch_looks_back_one_week P 5 admin officer 2 a0 a1 ten_o_clock).
  ran.
Defined.

(** At ten o'clock on the first day of 2023 a token of 300000000000
    seconds would expire after the year 9999. *)
Lemma lifetime_beyond_the_calendar_witness :
  exists msg,
    save_tokens_to_integration_context P admin everlasting c0
    = (Raise (Exn OverflowError msg), v1)
    /\ integration_context v1 = integration_context c0
    /\ trace v1 = trace c0
    /\ forall code s0,
        create_access_token P admin "authorization_code" code VNone s0
        = (Ok everlasting, c0) ->
        Webex.oauth_complete P admin code s0 = (Raise (Exn OverflowError msg), v1)
        /\ integration_context v1 = integration_context s0.
Proof.
  apply (lifetime_beyond_the_calendar_stores_nothing
           P admin everlasting c0 v1 ten_o_clock 300000000000);
    first [ran | computed].
Defined.

(** *** Commands *)

Lemma main_reports_witness :
  arg_to_number H (dict_get_or bad_max_fetch "max_fetch" (VInt DEFAULT_MAX_FETCH))
  = Raise (Exn ValueError "many is not a valid number")
  \/ (server_handled P = true
      /\ exists e0,
          Exn ValueError "many is not a valid number"
          = Exn Exception (msg_failed "fetch-events" e0)).
Proof.
  apply (main_reports_its_failures
           P H 5 "fetch-events" instance_params bad_max_fetch c0).
  computed.
Defined.

Lemma expired_refresh_token_blocks_witness :
  let admin :=
    Client "admin" (admin_identifier instance_params)
           (admin_password instance_params)
           (admin_app_redirect_uri instance_params)
           (Some "audit:events_read spark:kms")
           (admin_org_id instance_params) None in
  main P H 5 "cisco-webex-oauth-start" instance_params ∅ l0
  = return_error
      P (msg_failed "cisco-webex-oauth-start"
                    (Exn DemistoException (msg_refresh_expired admin))) l1
  /\ is_ok (main P H 5 "cisco-webex-oauth-start" instance_params ∅ l0).1 = false
  /\ trace l1 = trace l0
  /\ integration_context l1 = integration_context l0
  /\ contains "cisco-webex-oauth-start" (msg_refresh_expired admin) = true.
Proof.
  apply (expired_refresh_token_blocks_every_command
           P H 5 "cisco-webex-oauth-start" instance_params ∅ l0 l1
           (Some DEFAULT_MAX_FETCH) lapsed ten_o_clock 1669852800000000
           "2022-12-01T00:00:00.000Z");
    first [ran | computed].
Defined.

Lemma only_fetch_events_persists_witness :
  let r := main P H 5 "cisco-webex-get-admin-audit-events" instance_params
                push_events c0 in
  exists delivered,
    at_most_a_delivery P c0 r.2 delivered
    /\ (is_Some delivered ->
        "cisco-webex-get-admin-audit-events" ∈ events_commands
        /\ argToBoolean H (push_events !! "should_push_events") = Ok true
        /\ r.1 = Ok tt).
Proof.
  apply (only_fetch_events_persists
           P H 5 "cisco-webex-get-admin-audit-events" instance_params
           push_events c0).
  computed.
Defined.

Lemma oauth_complete_witness :
  exists s',
    main P H 5 "cisco-webex-oauth-complete" instance_params code_only o0
    = (Ok tt, s')
    /\ integration_context s'
       = <[(if bool_decide (dict_get code_only "user" = VStr "admin")
            then "admin" else "compliance_officer")
           := token_record P granted ten_o_clock (3600 * 1000000)
                           (7776000 * 1000000)]>
           (integration_context o2).
Proof.
  apply (oauth_complete_stores_under_the_selected_user
           P H 5 instance_params code_only o0 o1 o2 o3 o4
           (Some DEFAULT_MAX_FETCH) admin officer granted ten_o_clock 3600 7776000);
    first [ran | computed].
Defined.

(** Both clients are built from the stored tokens; test-module fails
    with its instructions and a command [main] does not know passes. *)
Lemma test_module_witness :
  main P H 5 "test-module" instance_params ∅ o0
  = return_error
      P (msg_failed "test-module" (Exn DemistoException msg_test_module)) o2
  /\ main P H 5 "cisco-webex-oauth" instance_params ∅ o0 = (Ok tt, o2).
Proof.
  destruct (proj2 (test_module_fails_and_unknown_commands_pass
                     P H 5 instance_params ∅ o0)
                  (Some DEFAULT_MAX_FETCH) admin officer o1 o2
                  ltac:(computed) ltac:(ran) ltac:(ran)) as [Htest Hunknown].
  split; [exact Htest|]. apply Hunknown. computed.
Defined.

End WebexEdgeCases.
